(** * ChatPoweredEcommerce: the request handlers of [server/app.py]

    A shallow embedding of the credential, session and order handlers of
    the Flask application, and the properties of the design document
    checked against them.

    Layout of the embedding:
    - [json] and the Python operations the handlers apply to a request
      body ([data["k"]], [k in data], [data.get(k)], iteration,
      truthiness);
    - the record store: committed rows, and the rows of the unit of work
      that [db.session] holds until [commit];
    - the collaborators that live outside the repository (bcrypt, the
      store's own integrity checks) as the class [Backend];
    - a small state-and-exception monad [M] in which each handler is
      written statement by statement;
    - [serve], which runs one handler for one client and saves the
      client's session the way Flask does after the request. *)

From Stdlib Require Import ZArith List Bool Lia.
From stdpp Require Import gmap strings.
Import ListNotations.

Local Open Scope Z_scope.
Local Open Scope string_scope.
Set Warnings "-register-all".

(** ** JSON values and the Python operations on them *)

(** What [request.get_json()] returns.  Numbers are integers: no handler
    of the core computes with a number. *)
Inductive json : Type :=
| JNull
| JBool (b : bool)
| JInt (n : Z)
| JStr (s : string)
| JList (items : list json)
| JDict (entries : list (string * json)).

(** The exceptions that can travel through a handler. *)
Inductive exn : Type :=
| KeyError (key : string)
| TypeError (msg : string)
| AttributeError (msg : string)
| ValueError (msg : string)
| IntegrityError (msg : string).

Inductive result (A : Type) : Type :=
| Ok (a : A)
| Raise (e : exn).
Arguments Ok {A} a.
Arguments Raise {A} e.

(** [str(error)], as the catch-all handler of [delete] echoes it. *)
Definition exn_str (e : exn) : string :=
  match e with
  | KeyError k => "'" +:+ k +:+ "'"
  | TypeError m | AttributeError m | ValueError m | IntegrityError m => m
  end.

Fixpoint assoc (k : string) (kvs : list (string * json)) : option json :=
  match kvs with
  | [] => None
  | (k', v) :: rest => if String.eqb k k' then Some v else assoc k rest
  end.

(** [type(v).__name__] *)
Definition type_name (v : json) : string :=
  match v with
  | JNull => "NoneType"
  | JBool _ => "bool"
  | JInt _ => "int"
  | JStr _ => "str"
  | JList _ => "list"
  | JDict _ => "dict"
  end.

(** [d[k]] for a string key [k]. *)
Definition getitem (d : json) (k : string) : result json :=
  match d with
  | JDict kvs =>
      match assoc k kvs with
      | Some v => Ok v
      | None => Raise (KeyError k)
      end
  | JList _ => Raise (TypeError "list indices must be integers or slices, not str")
  | JStr _ => Raise (TypeError "string indices must be integers")
  | JNull | JBool _ | JInt _ =>
      Raise (TypeError ("'" +:+ type_name d +:+ "' object is not subscriptable"))
  end.

Fixpoint starts_with (p s : string) : bool :=
  match p, s with
  | EmptyString, _ => true
  | String _ _, EmptyString => false
  | String a p', String b s' => Ascii.eqb a b && starts_with p' s'
  end.

Fixpoint str_contains (p s : string) : bool :=
  starts_with p s ||
  match s with
  | EmptyString => false
  | String _ s' => str_contains p s'
  end.

Definition is_str (k : string) (v : json) : bool :=
  match v with
  | JStr s => String.eqb k s
  | _ => false
  end.

(** [k in d] for a string key [k]: key membership on a dict, element
    membership on a list, substring on a string, [TypeError] otherwise. *)
Definition contains (k : string) (d : json) : result bool :=
  match d with
  | JDict kvs => Ok (match assoc k kvs with Some _ => true | None => false end)
  | JList l => Ok (existsb (is_str k) l)
  | JStr s => Ok (str_contains k s)
  | JNull | JBool _ | JInt _ =>
      Raise (TypeError ("argument of type '" +:+ type_name d +:+ "' is not iterable"))
  end.

(** [d.get(k)]: only a dict has the method. *)
Definition py_get (d : json) (k : string) : result json :=
  match d with
  | JDict kvs => Ok (match assoc k kvs with Some v => v | None => JNull end)
  | _ => Raise (AttributeError ("'" +:+ type_name d +:+ "' object has no attribute 'get'"))
  end.

Fixpoint chars (s : string) : list json :=
  match s with
  | EmptyString => []
  | String a s' => JStr (String a EmptyString) :: chars s'
  end.

(** The sequence a [for] loop walks over. *)
Definition py_iter (d : json) : result (list json) :=
  match d with
  | JList l => Ok l
  | JDict kvs => Ok (map (fun kv => JStr (fst kv)) kvs)
  | JStr s => Ok (chars s)
  | JNull | JBool _ | JInt _ =>
      Raise (TypeError ("'" +:+ type_name d +:+ "' object is not iterable"))
  end.

(** Truth value of a JSON value in an [if]. *)
Definition truthy (d : json) : bool :=
  match d with
  | JNull => false
  | JBool b => b
  | JInt n => negb (Z.eqb n 0)
  | JStr s => negb (String.eqb s "")
  | JList l => match l with [] => false | _ => true end
  | JDict kvs => match kvs with [] => false | _ => true end
  end.

(** ** The record store *)

(** Rows hold the values the handlers pass to the constructors of the
    models, which are the values of the request body, unvalidated. *)
Record UserAuth : Type := {
  ua_id : Z;
  ua_username : json;
  ua_email : json;
  ua_password_hash : string
}.

Record Order : Type := {
  o_id : Z;
  o_user_id : json;
  o_shipping_info_id : json
}.

Record OrderDetail : Type := {
  od_id : Z;
  od_order_id : Z;
  od_product_id : json;
  od_quantity : json
}.

(** [products] is the Catalog: the ids of the Product rows. *)
Record DB : Type := {
  users : list UserAuth;
  orders : list Order;
  order_details : list OrderDetail;
  products : list Z
}.

Definition with_users (us : list UserAuth) (d : DB) : DB :=
  {| users := us; orders := orders d;
     order_details := order_details d; products := products d |}.

Definition with_orders (os : list Order) (d : DB) : DB :=
  {| users := users d; orders := os;
     order_details := order_details d; products := products d |}.

Definition with_order_details (ds : list OrderDetail) (d : DB) : DB :=
  {| users := users d; orders := orders d;
     order_details := ds; products := products d |}.

(** Modelled from the spec: the key generation of the store is declared
    in models.py and config.py, which are not under src/; the spec says
    only that the header's "generated id" is obtained.  The model gives a
    new row the successor of the largest id of its table. *)
Definition next_id (ids : list Z) : Z := 1 + fold_right Z.max 0 ids.

(** Equality of a column with a bound value, for the scalar values. *)
Definition col_eqb (a b : json) : bool :=
  match a, b with
  | JNull, JNull => true
  | JBool x, JBool y => Bool.eqb x y
  | JInt x, JInt y => Z.eqb x y
  | JStr x, JStr y => String.eqb x y
  | _, _ => false
  end.

(** ** Collaborators outside the repository *)

Definition Salt : Type := string.

(** flask_bcrypt and the integrity checks of the store (models.py and the
    database behind it).  Both may raise, and a handler sees what they
    raise: [store_check d] is the error, if any, that flushing or
    committing the unit of work [d] raises. *)
Class Backend : Type := {
  generate_password_hash : Salt -> json -> result string;
  check_password_hash : string -> json -> result bool;
  store_check : DB -> option exn
}.

(** ** The handler monad *)

(** What a handler can touch: the unit of work of [db.session], the
    committed rows, and the [session] of the client. *)
Record Ctx : Type := {
  pending : DB;
  durable : DB;
  sess : gmap string json
}.

Definition M (A : Type) : Type := Ctx -> result A * Ctx.

Definition ret {A} (a : A) : M A := fun c => (Ok a, c).

Definition bind {A B} (m : M A) (f : A -> M B) : M B :=
  fun c =>
    match m c with
    | (Ok a, c') => f a c'
    | (Raise e, c') => (Raise e, c')
    end.

Notation "x <- m ;; k" := (bind m (fun x => k))
  (at level 100, m at next level, right associativity).
Notation "m ;;; k" := (bind m (fun _ => k))
  (at level 100, right associativity).

Definition lift {A} (r : result A) : M A := fun c => (r, c).

(** [try: m except Exception as e: h e] *)
Definition catch {A} (m : M A) (h : exn -> M A) : M A :=
  fun c =>
    match m c with
    | (Ok a, c') => (Ok a, c')
    | (Raise e, c') => h e c'
    end.

Definition set_pending (d : DB) (c : Ctx) : Ctx :=
  {| pending := d; durable := durable c; sess := sess c |}.

Definition set_sess (s : gmap string json) (c : Ctx) : Ctx :=
  {| pending := pending c; durable := durable c; sess := s |}.

Definition session_set (k : string) (v : json) : M unit :=
  fun c => (Ok tt, set_sess (<[k := v]> (sess c)) c).

Definition session_clear : M unit :=
  fun c => (Ok tt, set_sess ∅ c).

(** [session.get(k)] *)
Definition session_get (k : string) : M json :=
  fun c => (Ok (default JNull (sess c !! k)), c).

(** ** Responses, requests and the world between requests *)

Record Response : Type := {
  status : Z;
  body : json
}.

Definition make_response (b : json) (code : Z) : Response :=
  {| status := code; body := b |}.

(** [jsonify(b)]: a [Response] object that carries [b], with status 200. *)
Definition jsonify (b : json) : Response := make_response b 200.

(** The first component of a pair [data, code] that a method returns:
    plain data, or a [Response] object. *)
Inductive Data : Type :=
| Plain (b : json)
| Object (r : Response).

(** What Flask-RESTful makes of a pair [data, code] returned by a method
    of a [Resource].  [Resource.dispatch_request] passes on a [Response]
    that the method returns by itself; anything else is unpacked and its
    data goes through [json.dumps] in [output_json], which takes plain
    data and raises on a [Response] object. *)
Definition output_json (data : Data) (code : Z) : result Response :=
  match data with
  | Plain b => Ok (make_response b code)
  | Object _ => Raise (TypeError "Object of type Response is not JSON serializable")
  end.

(** One request: the client it comes from (the holder of a session
    cookie), the parsed JSON body, and the randomness [bcrypt.gensalt]
    draws while the request is served. *)
Record Request : Type := {
  client : nat;
  payload : json;
  entropy : Salt
}.

(** The state that outlives a request: the committed rows and the session
    of every client. *)
Record World : Type := {
  store : DB;
  sessions : gmap nat (gmap string json)
}.

(** A client without a cookie has the empty session. *)
Definition session_of (w : World) (tok : nat) : gmap string json :=
  default ∅ (sessions w !! tok).

(** Flask saves the session with the response and drops the cookie of a
    session that has become empty. *)
Definition save_session (tok : nat) (s : gmap string json)
    (m : gmap nat (gmap string json)) : gmap nat (gmap string json) :=
  if decide (size s = 0%nat) then delete tok m else <[tok := s]> m.

(** One request served: the handler starts on a unit of work equal to the
    committed rows; what it did not commit is discarded when the request
    ends (the scoped [db.session] is removed at teardown).  An exception
    that leaves the handler is answered with status 500. *)
Definition serve (h : Request -> M Response) (req : Request) (w : World)
    : result Response * World :=
  let c0 := {| pending := store w; durable := store w;
               sess := session_of w (client req) |} in
  let rc := h req c0 in
  (fst rc, {| store := durable (snd rc);
              sessions := save_session (client req) (sess (snd rc)) (sessions w) |}).

(** ** Queries and writes on the unit of work *)

(** [UserAuth.query.filter_by(username=u).first()] *)
Definition filter_by_username (u : json) : M (option UserAuth) :=
  fun c => (Ok (List.find (fun r => col_eqb (ua_username r) u)
                          (users (pending c))), c).

(** [UserAuth.query.get(uid)] *)
Definition query_get (uid : json) : M (option UserAuth) :=
  fun c => (Ok (List.find (fun r => col_eqb (JInt (ua_id r)) uid)
                          (users (pending c))), c).

(** [UserAuth(username=u, email=em, password_hash=h)] followed by
    [db.session.add].  The store assigns the id when the unit of work is
    flushed; the handlers read it only after a flush or a commit, so the
    model assigns it here. *)
Definition add_user (u em : json) (h : string) : M UserAuth :=
  fun c =>
    let d := pending c in
    let row := {| ua_id := next_id (map ua_id (users d));
                  ua_username := u; ua_email := em; ua_password_hash := h |} in
    (Ok row, set_pending (with_users (users d ++ [row]) d) c).

(** [db.session.delete(user)].  What the deletion cascades to in other
    tables is declared in models.py and is not part of the model. *)
Definition delete_user (user : UserAuth) : M unit :=
  fun c =>
    let d := pending c in
    (Ok tt, set_pending
              (with_users (List.filter (fun r => negb (Z.eqb (ua_id r) (ua_id user)))
                                       (users d)) d) c).

(** [user.password_hash = h] *)
Definition set_password_hash (user : UserAuth) (h : string) : M unit :=
  fun c =>
    let d := pending c in
    let upd r :=
      if Z.eqb (ua_id r) (ua_id user)
      then {| ua_id := ua_id r; ua_username := ua_username r;
              ua_email := ua_email r; ua_password_hash := h |}
      else r in
    (Ok tt, set_pending (with_users (map upd (users d)) d) c).

(** [Order(user_id=uid, shipping_info_id=sid)] followed by
    [db.session.add]. *)
Definition add_order (uid sid : json) : M Order :=
  fun c =>
    let d := pending c in
    let row := {| o_id := next_id (map o_id (orders d));
                  o_user_id := uid; o_shipping_info_id := sid |} in
    (Ok row, set_pending (with_orders (orders d ++ [row]) d) c).

(** [OrderDetail(order_id=oid, product_id=pid, quantity=q)] followed by
    [db.session.add]. *)
Definition add_order_detail (oid : Z) (pid q : json) : M unit :=
  fun c =>
    let d := pending c in
    let row := {| od_id := next_id (map od_id (order_details d));
                  od_order_id := oid; od_product_id := pid; od_quantity := q |} in
    (Ok tt, set_pending (with_order_details (order_details d ++ [row]) d) c).

Definition detail_to_dict (r : OrderDetail) : json :=
  JDict [("id", JInt (od_id r)); ("order_id", JInt (od_order_id r));
         ("product_id", od_product_id r); ("quantity", od_quantity r)].

(** Modelled from the spec: [Order.to_dict] is declared in models.py,
    which is not under src/.  The spec has the created order returned
    "fully populated (header + line items)". *)
Definition order_view (d : DB) (o : Order) : json :=
  JDict [("id", JInt (o_id o)); ("user_id", o_user_id o);
         ("shipping_info_id", o_shipping_info_id o);
         ("order_details",
          JList (map detail_to_dict
                   (List.filter (fun r => Z.eqb (od_order_id r) (o_id o))
                                (order_details d))))].

(** [order.to_dict()], read from the unit of work. *)
Definition Order_to_dict (o : Order) : M json :=
  fun c => (Ok (order_view (pending c) o), c).

Section Handlers.

Context `{B : Backend}.

(** [db.session.flush()]: the pending rows are sent to the store, which
    may refuse them. *)
Definition flush : M unit :=
  fun c =>
    match store_check (pending c) with
    | Some e => (Raise e, c)
    | None => (Ok tt, c)
    end.

(** [db.session.commit()]: flush, then make the unit of work durable. *)
Definition commit : M unit :=
  fun c =>
    match store_check (pending c) with
    | Some e => (Raise e, c)
    | None => (Ok tt, {| pending := pending c; durable := pending c;
                         sess := sess c |})
    end.

Definition error_body (msg : string) : json := JDict [("error", JStr msg)].
Definition message_body (msg : string) : json := JDict [("message", JStr msg)].

(** *** [UserAuthResource] *)

(** [UserAuthResource.post]: registration. *)
Definition UserAuthResource_post (req : Request) : M Response :=
  let user_data := payload req in
  username <- lift (getitem user_data "username") ;;
  user <- filter_by_username username ;;
  match user with
  | Some _ => ret (make_response (error_body "Username already exists.") 400)
  | None =>
      password <- lift (getitem user_data "password") ;;
      hashed_password <- lift (generate_password_hash (entropy req) password) ;;
      username' <- lift (getitem user_data "username") ;;
      email <- lift (getitem user_data "email") ;;
      new_user <- add_user username' email hashed_password ;;
      commit ;;;
      session_set "user_id" (JInt (ua_id new_user)) ;;;
      session_set "username" (ua_username new_user) ;;;
      session_set "logged_in" (JBool true) ;;;
      ret (make_response
             (message_body "User created and logged in successfully") 201)
  end.

(** [UserAuthResource.delete]: account deletion, inside its catch-all
    [try]. *)
Definition UserAuthResource_delete (req : Request) : M Response :=
  catch
    (let data := payload req in
     has_username <- lift (contains "username" data) ;;
     has_both <- (if has_username : bool
                  then lift (contains "password" data) else ret false) ;;
     if negb has_both
     then ret (make_response (error_body "Username and password are required") 400)
     else
       username <- lift (getitem data "username") ;;
       password <- lift (getitem data "password") ;;
       user <- filter_by_username username ;;
       match user with
       | Some u =>
           verified <- lift (check_password_hash (ua_password_hash u) password) ;;
           if verified : bool
           then
             delete_user u ;;;
             commit ;;;
             session_clear ;;;
             ret (make_response (message_body "User deleted successfully") 200)
           else ret (make_response (error_body "Incorrect password") 401)
       | None => ret (make_response (error_body "User not found") 404)
       end)
    (fun error => ret (make_response (error_body (exn_str error)) 500)).

(** [UserAuthResource.patch]: password change. *)
Definition UserAuthResource_patch (req : Request) : M Response :=
  let data := payload req in
  username <- lift (getitem data "username") ;;
  user <- filter_by_username username ;;
  let invalid := ret (make_response (error_body "Invalid credentials") 401) in
  match user with
  | Some u =>
      password <- lift (getitem data "password") ;;
      verified <- lift (check_password_hash (ua_password_hash u) password) ;;
      if verified : bool
      then
        new_password <- lift (getitem data "newPassword") ;;
        digest <- lift (generate_password_hash (entropy req) new_password) ;;
        set_password_hash u digest ;;;
        commit ;;;
        ret (make_response (message_body "Password updated successfully") 200)
      else invalid
  | None => invalid
  end.

(** *** [UserLoginResource], [UserLogoutResource], [SessionCheckResource] *)

(** [UserLoginResource.post] *)
Definition UserLoginResource_post (req : Request) : M Response :=
  let data := payload req in
  let required :=
    ret (make_response (error_body "Username and password are required") 400) in
  if negb (truthy data) then required
  else
    has_username <- lift (contains "username" data) ;;
    if negb has_username then required
    else
      has_password <- lift (contains "password" data) ;;
      if negb has_password then required
      else
        username <- lift (getitem data "username") ;;
        user <- filter_by_username username ;;
        let invalid :=
          ret (make_response (error_body "Invalid username or password") 401) in
        match user with
        | Some u =>
            password <- lift (getitem data "password") ;;
            verified <- lift (check_password_hash (ua_password_hash u) password) ;;
            if verified : bool
            then
              session_set "user_id" (JInt (ua_id u)) ;;;
              session_set "username" (ua_username u) ;;;
              session_set "logged_in" (JBool true) ;;;
              ret (make_response
                     (JDict [("message", JStr "Login successful");
                             ("user_id", JInt (ua_id u));
                             ("username", ua_username u);
                             ("email", ua_email u)]) 200)
            else invalid
        | None => invalid
        end.

(** [UserLogoutResource.post].  The method ends with
    [return jsonify(message=...), 200]: a pair, not a [Response]. *)
Definition UserLogoutResource_post (req : Request) : M Response :=
  session_clear ;;;
  lift (output_json (Object (jsonify (message_body "Logout successful"))) 200).

(** [SessionCheckResource.get].  Every [return] of the method gives a
    pair [jsonify(...), code]; the pair reaches Flask-RESTful after the
    method has returned, outside its [try]. *)
Definition SessionCheckResource_get (req : Request) : M Response :=
  returned <-
    catch
      (user_id <- session_get "user_id" ;;
       if truthy user_id
       then
         user <- query_get user_id ;;
         match user with
         | Some u =>
             ret (Object (jsonify
                    (JDict [("authenticated", JBool true);
                            ("id", JInt (ua_id u));
                            ("username", ua_username u);
                            ("email", ua_email u)])), 200)
         | None =>
             ret (Object (jsonify
                    (JDict [("authenticated", JBool false);
                            ("message", JStr "User not found")])), 404)
         end
       else ret (Object (jsonify (JDict [("authenticated", JBool false)])), 200))
      (fun e =>
         ret (Object (jsonify
                (JDict [("error", JStr "Internal server error");
                        ("details", JStr (exn_str e))])), 500)) ;;
  lift (output_json (fst returned) (snd returned)).

(** *** [OrderResource] *)

(** The body of the [for detail in data["order_details"]] loop, over the
    remaining items. *)
Fixpoint add_details (oid : Z) (items : list json) : M unit :=
  match items with
  | [] => ret tt
  | detail :: rest =>
      product_id <- lift (getitem detail "product_id") ;;
      quantity <- lift (getitem detail "quantity") ;;
      add_order_detail oid product_id quantity ;;;
      add_details oid rest
  end.

(** [OrderResource.post]: order creation. *)
Definition OrderResource_post (req : Request) : M Response :=
  let data := payload req in
  user_id <- lift (getitem data "user_id") ;;
  shipping_info_id <- lift (py_get data "shipping_info_id") ;;
  new_order <- add_order user_id shipping_info_id ;;
  flush ;;;
  order_details <- lift (getitem data "order_details") ;;
  items <- lift (py_iter order_details) ;;
  add_details (o_id new_order) items ;;;
  commit ;;;
  view <- Order_to_dict new_order ;;
  ret (make_response view 201).

End Handlers.

(** ** The application as a transition system *)

(** The routes of the core. *)
Inductive endpoint : Type :=
| Register
| DeleteAccount
| ChangePassword
| Login
| Logout
| CheckSession
| CreateOrder.

Definition handler `{B : Backend} (ep : endpoint) : Request -> M Response :=
  match ep with
  | Register => UserAuthResource_post
  | DeleteAccount => UserAuthResource_delete
  | ChangePassword => UserAuthResource_patch
  | Login => UserLoginResource_post
  | Logout => UserLogoutResource_post
  | CheckSession => SessionCheckResource_get
  | CreateOrder => OrderResource_post
  end.

(** The worlds that requests lead to from [w0]. *)
Inductive reachable `{B : Backend} (w0 : World) : World -> Prop :=
| reach_start : reachable w0 w0
| reach_step (w : World) (ep : endpoint) (req : Request) :
    reachable w0 w -> reachable w0 (snd (serve (handler ep) req w)).

(** ** Vocabulary of the design document *)

(** The error kinds of the design document, by the status code of the
    response that carries them. *)
Definition DuplicateUsername : Z := 400.
Definition InvalidLineItem : Z := 400.
Definition InvalidCredential : Z := 401.
Definition UserNotFound : Z := 404.
Definition ProductNotFound : Z := 404.

(** The handler answered with status [code]. *)
Definition answers (code : Z) (r : result Response) : Prop :=
  exists b, r = Ok (make_response b code).

(** The handler did not answer: the exception left it unhandled. *)
Definition unhandled (r : result Response) : Prop :=
  exists e, r = Raise e.

(** The request body is a JSON object without the key [k]. *)
Definition lacks (d : json) (k : string) : Prop :=
  exists kvs, d = JDict kvs /\ assoc k kvs = None.

(** Number of Account rows whose username is [u]. *)
Definition count_username (u : json) (us : list UserAuth) : nat :=
  length (List.filter (fun r => col_eqb (ua_username r) u) us).

(** The invariant of the Account table: usernames are unique. *)
Definition unique_usernames (us : list UserAuth) : Prop :=
  forall u, (count_username u us <= 1)%nat.

(** A session that claims authentication. *)
Definition authenticated (s : gmap string json) : Prop :=
  s !! "logged_in" = Some (JBool true).

(** A session that refers to the Account [u]. *)
Definition references (s : gmap string json) (u : UserAuth) : Prop :=
  s !! "user_id" = Some (JInt (ua_id u)).

(** The sessions of [w'] are those of [w]. *)
Definition same_sessions (w w' : World) : Prop :=
  forall t, session_of w' t = session_of w t.

(** The sessions of [w'] are those of [w], but for client [tok], whose
    session is [s]. *)
Definition sessions_but (tok : nat) (s : gmap string json) (w w' : World) : Prop :=
  session_of w' tok = s /\
  forall t, t <> tok -> session_of w' t = session_of w t.

(** The Account row that registration adds to the store [d]. *)
Definition new_account (d : DB) (u em : json) (h : string) : UserAuth :=
  {| ua_id := next_id (map ua_id (users d));
     ua_username := u; ua_email := em; ua_password_hash := h |}.

(** The session of a client after it was authenticated as [u]. *)
Definition logged_in_as (u : UserAuth) (s : gmap string json) : gmap string json :=
  <["logged_in" := JBool true]>
    (<["username" := ua_username u]> (<["user_id" := JInt (ua_id u)]> s)).

(** The Account row [r] with the digest [h]. *)
Definition with_digest (h : string) (r : UserAuth) : UserAuth :=
  {| ua_id := ua_id r; ua_username := ua_username r;
     ua_email := ua_email r; ua_password_hash := h |}.

(** The Account table after the digest of the row [user] became [h]. *)
Definition change_digest (user : UserAuth) (h : string) (us : list UserAuth)
    : list UserAuth :=
  map (fun r => if Z.eqb (ua_id r) (ua_id user) then with_digest h r else r) us.

(** The Account table without the row [user]. *)
Definition remove_account (user : UserAuth) (us : list UserAuth) : list UserAuth :=
  List.filter (fun r => negb (Z.eqb (ua_id r) (ua_id user))) us.

(** What one request can do to the Account table: nothing, add a row
    under a username that was free, remove a row, or replace a digest. *)
Definition users_effect (us us' : list UserAuth) : Prop :=
  us' = us \/
  (exists u em h,
     List.find (fun r => col_eqb (ua_username r) u) us = None /\
     us' = (us ++ [{| ua_id := next_id (map ua_id us); ua_username := u;
                      ua_email := em; ua_password_hash := h |}])%list) \/
  (exists row, us' = remove_account row us) \/
  (exists row h, us' = change_digest row h us).

(** The view of an Account that login returns: no digest in it. *)
Definition login_view (u : UserAuth) : json :=
  JDict [("message", JStr "Login successful"); ("user_id", JInt (ua_id u));
         ("username", ua_username u); ("email", ua_email u)].

(** The Order header that [createOrder] adds to the store [d]. *)
Definition new_order (d : DB) (uid sid : json) : Order :=
  {| o_id := next_id (map o_id (orders d));
     o_user_id := uid; o_shipping_info_id := sid |}.

(** A line item as [createOrder] reads it. *)
Definition line_item (item : json) (pid q : json) : Prop :=
  getitem item "product_id" = Ok pid /\ getitem item "quantity" = Ok q.

(** A persisted row that comes from a line item of the request. *)
Definition row_of_item (oid : Z) (item : json) (row : OrderDetail) : Prop :=
  od_order_id row = oid /\
  line_item item (od_product_id row) (od_quantity row).

(** The store after an order header [o] and the rows [rows] were added. *)
Definition with_order (o : Order) (rows : list OrderDetail) (d : DB) : DB :=
  {| users := users d; orders := orders d ++ [o];
     order_details := order_details d ++ rows; products := products d |}.

(** ** A test double for the collaborators *)

(** A hasher with the interface of flask_bcrypt: the digest embeds the
    salt, verification recomputes with it, an empty password is refused
    by [generate_password_hash]. *)
Definition stub_generate (salt : Salt) (password : json) : result string :=
  match password with
  | JStr s =>
      if String.eqb s "" then Raise (ValueError "Password must be non-empty.")
      else Ok (s +:+ "$" +:+ salt)
  | _ => Raise (TypeError "password must be a string")
  end.

Definition stub_check (digest : string) (password : json) : result bool :=
  match password with
  | JStr s => Ok (starts_with (s +:+ "$") digest)
  | _ => Raise (TypeError "password must be a string")
  end.

(** A store that enforces nothing by itself. *)
Definition plain_backend : Backend :=
  {| generate_password_hash := stub_generate;
     check_password_hash := stub_check;
     store_check := fun _ => None |}.

Definition is_product (d : DB) (pid : json) : bool :=
  match pid with
  | JInt p => existsb (Z.eqb p) (products d)
  | _ => false
  end.

Definition is_positive (q : json) : bool :=
  match q with
  | JInt n => Z.leb 1 n
  | _ => false
  end.

(** A store that enforces the foreign key to the Catalog and the range of
    the quantity on every line item. *)
Definition strict_backend : Backend :=
  {| generate_password_hash := stub_generate;
     check_password_hash := stub_check;
     store_check := fun d =>
       if forallb (fun r => is_product d (od_product_id r) && is_positive (od_quantity r))
                  (order_details d)
       then None
       else Some (IntegrityError "constraint failed") |}.

Definition empty_db : DB :=
  {| users := []; orders := []; order_details := []; products := [] |}.

Definition fresh_world : World := {| store := empty_db; sessions := ∅ |}.

Definition request (tok : nat) (b : json) : Request :=
  {| client := tok; payload := b; entropy := "salt" |}.

Definition credentials (u p : string) : json :=
  JDict [("username", JStr u); ("password", JStr p)].

Definition registration (u e p : string) : json :=
  JDict [("username", JStr u); ("email", JStr e); ("password", JStr p)].

(** The Account row of alice, as her registration creates it. *)
Definition alice_row : UserAuth :=
  {| ua_id := 1; ua_username := JStr "alice";
     ua_email := JStr "alice@example.com";
     ua_password_hash := "secret1$salt" |}.

(** alice registers from client 1; her Account row is [alice_row]. *)
Definition alice_world : World :=
  snd (serve (@UserAuthResource_post plain_backend)
         (request 1 (registration "alice" "alice@example.com" "secret1"))
         fresh_world).

(** ... and then logs in from a second client as well. *)
Definition alice_twice_world : World :=
  snd (serve (@UserLoginResource_post plain_backend)
         (request 2 (credentials "alice" "secret1")) alice_world).

(** A world with one account and one product (id 7) in the Catalog. *)
Definition shop_world : World :=
  {| store := {| users := users (store alice_world); orders := [];
                 order_details := []; products := [7] |};
     sessions := sessions alice_world |}.

Definition order_body (uid : Z) (items : list json) : json :=
  JDict [("user_id", JInt uid); ("order_details", JList items)].

Definition item (pid q : Z) : json :=
  JDict [("product_id", JInt pid); ("quantity", JInt q)].

(** ** The other handlers on accounts and orders *)

(** One Account as [UserAuthSchema(only=["id", "username", "email"])]
    dumps it.  (marshmallow renders a text column with [str], the
    identity on the strings.) *)
Definition user_dump (u : UserAuth) : json :=
  JDict [("id", JInt (ua_id u)); ("username", ua_username u);
         ("email", ua_email u)].

(** [UserAuthResource.get]: the list of the accounts. *)
Definition UserAuthResource_get (req : Request) : M Response :=
  fun c =>
    let users := users (pending c) in
    (Ok (make_response (JList (map user_dump users)) 200), c).

(** [Order.query.get(order_id)] *)
Definition order_query_get (order_id : Z) : M (option Order) :=
  fun c => (Ok (List.find (fun o => Z.eqb (o_id o) order_id) (orders (pending c))), c).

(** The answer to the [NotFound] that [get_or_404] aborts with: status
    404, with the description of the exception as the message. *)
Definition not_found : Response :=
  make_response
    (JDict [("message",
             JStr ("The requested URL was not found on the server. " +:+
                   "If you entered the URL manually please check your spelling " +:+
                   "and try again."))]) 404.

(** The OrderDetail table without the rows of the order [order_id]. *)
Definition cascade_details (order_id : Z) (ds : list OrderDetail) : list OrderDetail :=
  List.filter (fun r => negb (Z.eqb (od_order_id r) order_id)) ds.

(** The Order table without the order [order_id]. *)
Definition remove_order (order_id : Z) (os : list Order) : list Order :=
  List.filter (fun o => negb (Z.eqb (o_id o) order_id)) os.

Section OrderHandlers.

Context `{B : Backend}.

(** What the deletion of an Order does to the OrderDetail table is
    declared with the relationship in models.py, which is not under src/:
    it is a parameter here.  (The design document has it cascade, which is
    [cascade_details].) *)
Variable on_delete : Z -> list OrderDetail -> list OrderDetail.

(** The store without the Order [order_id]. *)
Definition without_order (order_id : Z) (d : DB) : DB :=
  {| users := users d;
     orders := remove_order order_id (orders d);
     order_details := on_delete order_id (order_details d);
     products := products d |}.

(** [db.session.delete(order)] *)
Definition delete_order (order : Order) : M unit :=
  fun c => (Ok tt, set_pending (without_order (o_id order) (pending c)) c).

(** [OrderResource.get] *)
Definition OrderResource_get (order_id : Z) (req : Request) : M Response :=
  order <- order_query_get order_id ;;
  match order with
  | None => ret not_found
  | Some o =>
      view <- Order_to_dict o ;;
      ret (make_response view 200)
  end.

(** [OrderResource.delete] *)
Definition OrderResource_delete (order_id : Z) (req : Request) : M Response :=
  order <- order_query_get order_id ;;
  match order with
  | None => ret not_found
  | Some o =>
      delete_order o ;;;
      commit ;;;
      ret (make_response (message_body "Order deleted successfully") 200)
  end.

End OrderHandlers.

Definition endpoint_eq_dec (a b : endpoint) : {a = b} + {a <> b}.
Proof. decide equality. Defined.

(** The shop after user 1 ordered two units of product 7. *)
Definition order_world : World :=
  snd (serve (@OrderResource_post plain_backend)
         (request 1 (order_body 1 [item 7 2])) shop_world).

(** Every OrderDetail row belongs to an Order of the store. *)
Definition details_have_orders (d : DB) : Prop :=
  forall r, In r (order_details d) ->
            exists o, In o (orders d) /\ o_id o = od_order_id r.

(** ** Shipping information *)

(** A row of the table behind [ShippingInfo], with the columns that the
    constructor call of [ShippingInfoResource.post] names. *)
Record ShippingInfo : Type := {
  si_id : Z;
  si_user_id : json;
  si_address_line1 : json;
  si_address_line2 : json;
  si_city : json;
  si_state : json;
  si_postal_code : json;
  si_country : json;
  si_phone_number : json
}.

(** The handlers of the shipping information work on the unit of work of
    the accounts and on the one of their own table. *)
Record ShopCtx : Type := {
  core : Ctx;
  ship_pending : list ShippingInfo;
  ship_durable : list ShippingInfo
}.

Definition SM (A : Type) : Type := ShopCtx -> result A * ShopCtx.

Definition sret {A} (a : A) : SM A := fun c => (Ok a, c).

Definition sbind {A C} (m : SM A) (f : A -> SM C) : SM C :=
  fun c =>
    match m c with
    | (Ok a, c') => f a c'
    | (Raise e, c') => (Raise e, c')
    end.

Notation "x <~ m ;; k" := (sbind m (fun x => k))
  (at level 100, m at next level, right associativity).
Notation "m ~;; k" := (sbind m (fun _ => k))
  (at level 100, right associativity).

(** A step on the accounts or the session, inside a shipping handler. *)
Definition on_core {A} (m : M A) : SM A :=
  fun c =>
    let rc := m (core c) in
    (fst rc, {| core := snd rc; ship_pending := ship_pending c;
                ship_durable := ship_durable c |}).

Definition set_ship_pending (l : list ShippingInfo) (c : ShopCtx) : ShopCtx :=
  {| core := core c; ship_pending := l; ship_durable := ship_durable c |}.

(** The world with the table of the shipping information. *)
Record ShopWorld : Type := {
  base : World;
  shipping_infos : list ShippingInfo
}.

(** One request to a shipping handler, served. *)
Definition serve_shop (h : Request -> SM Response) (req : Request) (w : ShopWorld)
    : result Response * ShopWorld :=
  let c0 := {| core := {| pending := store (base w); durable := store (base w);
                          sess := session_of (base w) (client req) |};
               ship_pending := shipping_infos w;
               ship_durable := shipping_infos w |} in
  let rc := h req c0 in
  (fst rc,
   {| base := {| store := durable (core (snd rc));
                 sessions := save_session (client req) (sess (core (snd rc)))
                               (sessions (base w)) |};
      shipping_infos := ship_durable (snd rc) |}).

(** [d.get(k, default)] *)
Definition py_get_default (d : json) (k : string) (dflt : json) : result json :=
  match d with
  | JDict kvs => Ok (match assoc k kvs with Some v => v | None => dflt end)
  | _ => Raise (AttributeError ("'" +:+ type_name d +:+ "' object has no attribute 'get'"))
  end.

(** The columns that [ShippingInfoResource.patch] may set, in its order. *)
Definition shipping_fields : list string :=
  ["address_line1"; "address_line2"; "city"; "state"; "postal_code";
   "country"; "phone_number"].

(** [setattr(shipping_info, field, v)] for a field of [shipping_fields]. *)
Definition si_setattr (field : string) (v : json) (r : ShippingInfo) : ShippingInfo :=
  let upd (name : string) (old : json) : json :=
    if String.eqb field name then v else old in
  {| si_id := si_id r;
     si_user_id := si_user_id r;
     si_address_line1 := upd "address_line1" (si_address_line1 r);
     si_address_line2 := upd "address_line2" (si_address_line2 r);
     si_city := upd "city" (si_city r);
     si_state := upd "state" (si_state r);
     si_postal_code := upd "postal_code" (si_postal_code r);
     si_country := upd "country" (si_country r);
     si_phone_number := upd "phone_number" (si_phone_number r) |}.

(** Modelled from the spec: the relationship [user.shipping_info] is
    declared in models.py, which is not under src/; the spec has it an
    optional one-to-one reference.  It is the first row of the user. *)
Definition shipping_info_of (user : UserAuth) (l : list ShippingInfo)
    : option ShippingInfo :=
  List.find (fun r => col_eqb (si_user_id r) (JInt (ua_id user))) l.

(** The table after the row with the id of [r] was replaced by [r]. *)
Definition replace_shipping (r : ShippingInfo) (l : list ShippingInfo)
    : list ShippingInfo :=
  map (fun x => if Z.eqb (si_id x) (si_id r) then r else x) l.

Section ShippingHandlers.

Context `{B : Backend}.

(** The error, if any, that the store raises when rows of the shipping
    table are flushed: its constraints are declared in models.py. *)
Variable ship_check : list ShippingInfo -> option exn.

(** [db.session.commit()] *)
Definition shop_commit : SM unit :=
  fun c =>
    match store_check (pending (core c)) with
    | Some e => (Raise e, c)
    | None =>
        match ship_check (ship_pending c) with
        | Some e => (Raise e, c)
        | None =>
            (Ok tt,
             {| core := {| pending := pending (core c); durable := pending (core c);
                           sess := sess (core c) |};
                ship_pending := ship_pending c;
                ship_durable := ship_pending c |})
        end
    end.

(** [ShippingInfo(...)] followed by [db.session.add]. *)
Definition add_shipping (user_id a1 a2 city state postal country phone : json)
    : SM unit :=
  fun c =>
    let l := ship_pending c in
    let row := {| si_id := next_id (map si_id l); si_user_id := user_id;
                  si_address_line1 := a1; si_address_line2 := a2;
                  si_city := city; si_state := state; si_postal_code := postal;
                  si_country := country; si_phone_number := phone |} in
    (Ok tt, set_ship_pending (l ++ [row]) c).

(** [ShippingInfoResource.post] *)
Definition ShippingInfoResource_post (req : Request) : SM Response :=
  user_id <~ on_core (session_get "user_id") ;;
  if negb (truthy user_id)
  then sret (make_response (error_body "Authentication required") 401)
  else
    user <~ on_core (query_get user_id) ;;
    match user with
    | None => sret (make_response (error_body "User not found") 404)
    | Some _ =>
        let shipping_data := payload req in
        a1 <~ on_core (lift (getitem shipping_data "address_line1")) ;;
        a2 <~ on_core (lift (py_get_default shipping_data "address_line2" (JStr ""))) ;;
        city <~ on_core (lift (getitem shipping_data "city")) ;;
        state <~ on_core (lift (getitem shipping_data "state")) ;;
        postal <~ on_core (lift (getitem shipping_data "postal_code")) ;;
        country <~ on_core (lift (getitem shipping_data "country")) ;;
        phone <~ on_core (lift (getitem shipping_data "phone_number")) ;;
        add_shipping user_id a1 a2 city state postal country phone ~;;
        shop_commit ~;;
        sret (make_response (message_body "Shipping info added successfully") 201)
    end.

(** The loop [for field in [...]: if field in shipping_data: setattr(...)]
    over the remaining fields, on the row [r]. *)
Fixpoint patch_fields (fields : list string) (shipping_data : json)
    (r : ShippingInfo) : result ShippingInfo :=
  match fields with
  | [] => Ok r
  | field :: rest =>
      match contains field shipping_data with
      | Raise e => Raise e
      | Ok false => patch_fields rest shipping_data r
      | Ok true =>
          match getitem shipping_data field with
          | Raise e => Raise e
          | Ok v => patch_fields rest shipping_data (si_setattr field v r)
          end
      end
  end.

(** [ShippingInfoResource.patch] *)
Definition ShippingInfoResource_patch (req : Request) : SM Response :=
  user_id <~ on_core (session_get "user_id") ;;
  if negb (truthy user_id)
  then sret (make_response (error_body "Authentication required") 401)
  else
    user <~ on_core (query_get user_id) ;;
    let missing :=
      sret (make_response (error_body "Shipping info not found or unauthorized") 404) in
    match user with
    | None => missing
    | Some u =>
        fun c =>
          match shipping_info_of u (ship_pending c) with
          | None => missing c
          | Some shipping_info =>
              (r <~ on_core (lift (patch_fields shipping_fields (payload req)
                                                shipping_info)) ;;
               (fun c' => (Ok tt, set_ship_pending
                                    (replace_shipping r (ship_pending c')) c')) ~;;
               shop_commit ~;;
               sret (make_response
                       (message_body "Shipping info updated successfully") 200)) c
          end
    end.

End ShippingHandlers.

(** The row [r] carries the owner [uid] and the fields of the body [d]. *)
Definition shipping_row_of (d : json) (uid : json) (r : ShippingInfo) : Prop :=
  si_user_id r = uid /\
  getitem d "address_line1" = Ok (si_address_line1 r) /\
  py_get_default d "address_line2" (JStr "") = Ok (si_address_line2 r) /\
  getitem d "city" = Ok (si_city r) /\
  getitem d "state" = Ok (si_state r) /\
  getitem d "postal_code" = Ok (si_postal_code r) /\
  getitem d "country" = Ok (si_country r) /\
  getitem d "phone_number" = Ok (si_phone_number r).

(** The column of a row by its name, for the names of [shipping_fields]. *)
Definition si_getattr (field : string) (r : ShippingInfo) : json :=
  if String.eqb field "address_line1" then si_address_line1 r
  else if String.eqb field "address_line2" then si_address_line2 r
  else if String.eqb field "city" then si_city r
  else if String.eqb field "state" then si_state r
  else if String.eqb field "postal_code" then si_postal_code r
  else if String.eqb field "country" then si_country r
  else si_phone_number r.

(** The row [r'] is the row [r] patched with the body [d]: a field of
    [shipping_fields] that is a key of [d] has the value of [d], every
    other column is the one of [r]. *)
Definition patched_with (d : json) (r r' : ShippingInfo) : Prop :=
  si_id r' = si_id r /\
  si_user_id r' = si_user_id r /\
  forall field, In field shipping_fields ->
    si_getattr field r' =
      match getitem d field with
      | Ok v => v
      | Raise _ => si_getattr field r
      end.

(** The base world has not changed. *)
Definition same_base (w w' : ShopWorld) : Prop :=
  store (base w') = store (base w) /\ same_sessions (base w) (base w').

(** A shipping table without constraints of its own. *)
Definition no_ship_check : list ShippingInfo -> option exn := fun _ => None.

(** The address that alice sends. *)
Definition alice_address : json :=
  JDict [("address_line1", JStr "1 Main Street"); ("city", JStr "Springfield");
         ("state", JStr "IL"); ("postal_code", JStr "62701");
         ("country", JStr "US"); ("phone_number", JStr "555-0100");
         ("user_id", JInt 42)].

(** alice, registered and logged in from client 1, without an address. *)
Definition alice_shop : ShopWorld := {| base := alice_world; shipping_infos := [] |}.

(** ... and after she has sent her address. *)
Definition alice_shipped : ShopWorld :=
  snd (serve_shop (@ShippingInfoResource_post plain_backend no_ship_check)
         (request 1 alice_address) alice_shop).

(** The row of alice's address. *)
Definition alice_home : ShippingInfo :=
  {| si_id := 1; si_user_id := JInt 1;
     si_address_line1 := JStr "1 Main Street"; si_address_line2 := JStr "";
     si_city := JStr "Springfield"; si_state := JStr "IL";
     si_postal_code := JStr "62701"; si_country := JStr "US";
     si_phone_number := JStr "555-0100" |}.

(** * Properties *)

(** ** Basic facts about the Python operations and the store *)

Lemma col_eqb_eq (a b : json) : col_eqb a b = true -> a = b.
Proof.
  destruct a, b; simpl; try discriminate; intros H.
  - reflexivity.
  - apply eqb_prop in H. now subst.
  - apply Z.eqb_eq in H. now subst.
  - apply String.eqb_eq in H. now subst.
Qed.

Lemma col_eqb_str (s t : string) : col_eqb (JStr s) (JStr t) = String.eqb s t.
Proof. reflexivity. Qed.

Lemma col_eqb_str_refl (s : string) : col_eqb (JStr s) (JStr s) = true.
Proof. simpl. apply String.eqb_refl. Qed.

(** A key that [d[k]] finds is a key that [k in d] reports, and [d] is a
    non-empty dict. *)
Lemma getitem_Ok_inv (d : json) (k : string) (v : json) :
  getitem d k = Ok v ->
  contains k d = Ok true /\ truthy d = true /\ py_get d k = Ok v.
Proof.
  destruct d; simpl; try discriminate.
  destruct (assoc k entries) eqn:E; [|discriminate].
  intros [= ->]. repeat split.
  destruct entries; [discriminate | reflexivity].
Qed.

Lemma lacks_getitem (d : json) (k : string) :
  lacks d k -> getitem d k = Raise (KeyError k).
Proof. intros (kvs & -> & H). simpl. now rewrite H. Qed.

Lemma count_username_app (u : json) (l1 l2 : list UserAuth) :
  count_username u (l1 ++ l2) = (count_username u l1 + count_username u l2)%nat.
Proof. unfold count_username. now rewrite List.filter_app, length_app. Qed.

Lemma find_username_In (u : json) (us : list UserAuth) (row : UserAuth) :
  In row us -> ua_username row = u -> col_eqb u u = true ->
  exists r, List.find (fun r => col_eqb (ua_username r) u) us = Some r.
Proof.
  intros Hin Hu Hrefl. induction us as [|a us IH]; [contradiction|].
  simpl. destruct (col_eqb (ua_username a) u) eqn:E; [eauto|].
  destruct Hin as [-> | Hin]; [|auto].
  rewrite Hu, Hrefl in E. discriminate.
Qed.

Lemma find_username_fresh (u : json) (us : list UserAuth) :
  (forall row, In row us -> ua_username row <> u) ->
  List.find (fun r => col_eqb (ua_username r) u) us = None /\
  count_username u us = 0%nat.
Proof.
  intros Hfresh. unfold count_username.
  induction us as [|a us IH]; [split; reflexivity|].
  simpl. destruct (col_eqb (ua_username a) u) eqn:E.
  - apply col_eqb_eq in E. exfalso. apply (Hfresh a); [now left | exact E].
  - apply IH. intros row Hin. apply Hfresh. now right.
Qed.

Lemma count_username_In (u : json) (us : list UserAuth) (row : UserAuth) :
  In row us -> ua_username row = u -> col_eqb u u = true ->
  (1 <= count_username u us)%nat.
Proof.
  intros Hin Hu Hrefl. unfold count_username. induction us as [|a us IH]; [contradiction|].
  simpl. destruct Hin as [-> | Hin].
  - rewrite Hu, Hrefl. simpl. lia.
  - specialize (IH Hin). destruct (col_eqb (ua_username a) u); simpl; lia.
Qed.

(** ** Sessions across a request *)

Lemma lookup_save_session (tok t : nat) (s : gmap string json)
    (m : gmap nat (gmap string json)) :
  default ∅ (save_session tok s m !! t) =
  if decide (t = tok) then s else default ∅ (m !! t).
Proof.
  unfold save_session. destruct (decide (size s = 0%nat)) as [Hs|Hs].
  - apply map_size_empty_iff in Hs. subst s.
    destruct (decide (t = tok)) as [->|Hne].
    + now rewrite lookup_delete_eq.
    + now rewrite lookup_delete_ne.
  - destruct (decide (t = tok)) as [->|Hne].
    + now rewrite lookup_insert_eq.
    + now rewrite lookup_insert_ne.
Qed.

Lemma save_session_same (tok : nat) (w : World) (d : DB) :
  same_sessions w
    {| store := d;
       sessions := save_session tok (session_of w tok) (sessions w) |}.
Proof.
  intros t. unfold session_of at 1. simpl. rewrite lookup_save_session.
  destruct (decide (t = tok)) as [->|]; reflexivity.
Qed.

Lemma save_session_but (tok : nat) (s : gmap string json) (w : World) (d : DB) :
  sessions_but tok s w
    {| store := d; sessions := save_session tok s (sessions w) |}.
Proof.
  split.
  - unfold session_of. simpl. rewrite lookup_save_session.
    destruct (decide (tok = tok)); [reflexivity | contradiction].
  - intros t Hne. unfold session_of at 1. simpl. rewrite lookup_save_session.
    destruct (decide (t = tok)); [contradiction | reflexivity].
Qed.

(** ** Logout *)

Lemma save_session_empty (tok : nat) (m : gmap nat (gmap string json)) :
  save_session tok ∅ m = delete tok m.
Proof.
  unfold save_session. rewrite map_size_empty.
  destruct (decide (0%nat = 0%nat)); [reflexivity | contradiction].
Qed.

(** C8. [logout] does not succeed.  The method clears the session of the
    request, whatever it holds, and then returns the pair
    [jsonify(...), 200], which Flask-RESTful cannot serialise: from every
    session state, the Anonymous one included, the request ends with a
    [TypeError] (status 500) instead of a success.  A second
    logout in a row ends the same way.  No logout changes a row or the
    session of another client. *)
Theorem logout_answers_error (w : World) (req : Request) :
  let out1 := serve UserLogoutResource_post req w in
  let out2 := serve UserLogoutResource_post req (snd out1) in
  sess (snd (UserLogoutResource_post req
               {| pending := store w; durable := store w;
                  sess := session_of w (client req) |})) = ∅ /\
  fst out1 = Raise (TypeError "Object of type Response is not JSON serializable") /\
  fst out2 = fst out1 /\
  store (snd out1) = store w /\
  store (snd out2) = store w /\
  (forall t, t <> client req ->
     session_of (snd out1) t = session_of w t /\
     session_of (snd out2) t = session_of w t).
Proof.
  unfold serve, UserLogoutResource_post.
  unfold bind, lift, session_clear, output_json.
  cbn [fst snd sess durable set_sess store sessions].
  rewrite !save_session_empty.
  repeat split.
  - unfold session_of. simpl. now rewrite lookup_delete_ne.
  - unfold session_of. simpl. now rewrite !lookup_delete_ne.
Qed.

(** Every path of [check_session] ends in a pair whose data is a
    [Response] object. *)
Lemma check_session_run (req : Request) (c : Ctx) :
  SessionCheckResource_get req c =
    (Raise (TypeError "Object of type Response is not JSON serializable"), c).
Proof.
  unfold SessionCheckResource_get, catch, bind, lift, ret, session_get, query_get.
  cbv beta. destruct (truthy (default JNull (sess c !! "user_id"))); [|reflexivity].
  cbv beta. now destruct (List.find _ _).
Qed.

(** ** Registration *)

Section Registration.

Context `{B : Backend}.

Ltac step := unfold bind, lift, ret, filter_by_username; cbn [pending durable sess fst snd].

Lemma register_run_taken (req : Request) (c : Ctx) (u : json) (row : UserAuth) :
  getitem (payload req) "username" = Ok u ->
  List.find (fun r => col_eqb (ua_username r) u) (users (pending c)) = Some row ->
  UserAuthResource_post req c =
    (Ok (make_response (error_body "Username already exists.") 400), c).
Proof.
  intros Hu Hf. unfold UserAuthResource_post. step. rewrite Hu. step.
  now rewrite Hf.
Qed.

Lemma register_run_fresh (req : Request) (c : Ctx) (u pw em : json) (h : string) :
  getitem (payload req) "username" = Ok u ->
  List.find (fun r => col_eqb (ua_username r) u) (users (pending c)) = None ->
  getitem (payload req) "password" = Ok pw ->
  generate_password_hash (entropy req) pw = Ok h ->
  getitem (payload req) "email" = Ok em ->
  let row := new_account (pending c) u em h in
  let d := with_users (users (pending c) ++ [row]) (pending c) in
  store_check d = None ->
  UserAuthResource_post req c =
    (Ok (make_response (message_body "User created and logged in successfully") 201),
     {| pending := d; durable := d; sess := logged_in_as row (sess c) |}).
Proof.
  intros Hu Hf Hpw Hh Hem row d Hacc. unfold UserAuthResource_post. step.
  rewrite Hu. step. rewrite Hf, Hpw. step. rewrite Hh. step. rewrite Hem. step.
  unfold add_user, commit, session_set, set_pending, set_sess.
  cbn [pending durable sess fst snd].
  fold (new_account (pending c) u em h). fold row. fold d. rewrite Hacc.
  reflexivity.
Qed.

(** On every path but the one that read all three fields, registration
    leaves the store and the session as they were, and either reports the
    duplicate or lets an exception escape. *)
Lemma register_run_incomplete (req : Request) (c : Ctx) (k : string) :
  In k ["username"; "email"; "password"] ->
  (forall v, getitem (payload req) k <> Ok v) ->
  let out := UserAuthResource_post req c in
  durable (snd out) = durable c /\ sess (snd out) = sess c /\
  (fst out = Ok (make_response (error_body "Username already exists.") 400) \/
   unhandled (fst out)).
Proof.
  intros Hk Hmiss. unfold UserAuthResource_post. step.
  destruct (getitem (payload req) "username") as [u|e] eqn:Hu; step;
    [|repeat split; right; now exists e].
  destruct (List.find _ _) as [row|]; [repeat split; now left|].
  destruct (getitem (payload req) "password") as [pw|e] eqn:Hpw; step;
    [|repeat split; right; now exists e].
  destruct (generate_password_hash (entropy req) pw) as [h|e]; step;
    [|repeat split; right; now exists e].
  destruct (getitem (payload req) "email") as [em|e] eqn:Hem; step;
    [|repeat split; right; now exists e].
  exfalso. simpl in Hk.
  destruct Hk as [<-|[<-|[<-|[]]]]; eapply Hmiss; eassumption.
Qed.

(** C4. In a store whose usernames are unique and with a request that
    carries the username [name]: when an Account with that username
    exists, registration answers DuplicateUsername, writes nothing and
    changes no session, so that exactly one Account row has the username
    afterwards; when none exists (and the password and email are in the
    body, the hasher returns a digest and the store accepts the row),
    registration succeeds with 201 and exactly one Account row has the
    username afterwards. *)
Theorem register_duplicate_username (w : World) (req : Request) (name : string) :
  getitem (payload req) "username" = Ok (JStr name) ->
  unique_usernames (users (store w)) ->
  let out := serve UserAuthResource_post req w in
  ((exists row, In row (users (store w)) /\ ua_username row = JStr name) ->
   fst out = Ok (make_response (error_body "Username already exists.")
                               DuplicateUsername) /\
   store (snd out) = store w /\
   same_sessions w (snd out) /\
   count_username (JStr name) (users (store (snd out))) = 1%nat) /\
  ((forall row, In row (users (store w)) -> ua_username row <> JStr name) ->
   forall (pw em : json) (digest : string),
     getitem (payload req) "password" = Ok pw ->
     getitem (payload req) "email" = Ok em ->
     generate_password_hash (entropy req) pw = Ok digest ->
     let row := new_account (store w) (JStr name) em digest in
     store_check (with_users (users (store w) ++ [row]) (store w)) = None ->
     fst out = Ok (make_response
                     (message_body "User created and logged in successfully") 201) /\
     users (store (snd out)) = (users (store w) ++ [row])%list /\
     count_username (JStr name) (users (store (snd out))) = 1%nat).
Proof.
  intros Hu Huniq out. split.
  - intros (row & Hin & Hname).
    destruct (find_username_In (JStr name) _ row Hin Hname (col_eqb_str_refl name))
      as (r & Hf).
    subst out. unfold serve.
    set (c0 := {| pending := store w; durable := store w;
                  sess := session_of w (client req) |}).
    rewrite (register_run_taken req c0 (JStr name) r Hu Hf).
    cbn [fst snd durable sess store]. repeat split.
    + apply save_session_same.
    + pose proof (Huniq (JStr name)) as Hle.
      pose proof (count_username_In (JStr name) _ row Hin Hname
                    (col_eqb_str_refl name)) as Hge.
      subst c0. cbn [durable]. lia.
  - intros Hfresh pw em digest Hpw Hem Hh row Hacc.
    destruct (find_username_fresh (JStr name) _ Hfresh) as (Hf & Hcount).
    subst out. unfold serve.
    set (c0 := {| pending := store w; durable := store w;
                  sess := session_of w (client req) |}).
    rewrite (register_run_fresh req c0 (JStr name) pw em digest Hu Hf Hpw Hh Hem Hacc).
    subst c0. cbn [fst snd durable sess store pending with_users users].
    repeat split.
    rewrite count_username_app, Hcount.
    unfold count_username. simpl. rewrite String.eqb_refl. reflexivity.
Qed.


(** C10. A registration body that is a JSON object without one of
    [username], [email], [password] gets no structured validation error
    and creates no Account row (no session changes either).  When the
    username is in the body and already registered, the answer is the 400
    of a duplicate username.  Otherwise the key lookup raises, unhandled:
    [KeyError] for [username]; for [password] when the username is free;
    for [email] when the username is free and the hasher returned a
    digest.  Nothing on the path checks the length of the password: a
    complete body with a password of fewer than six characters, a free
    username and a digest from the hasher registers the Account. *)
Theorem register_missing_field (w : World) (req : Request) :
  let out := serve UserAuthResource_post req w in
  let free u := List.find (fun r => col_eqb (ua_username r) u)
                          (users (store w)) = None in
  (forall k, In k ["username"; "email"; "password"] -> lacks (payload req) k ->
     store (snd out) = store w /\ same_sessions w (snd out) /\
     (fst out = Ok (make_response (error_body "Username already exists.") 400) \/
      unhandled (fst out))) /\
  (lacks (payload req) "username" -> fst out = Raise (KeyError "username")) /\
  (forall u row,
     getitem (payload req) "username" = Ok u ->
     List.find (fun r => col_eqb (ua_username r) u) (users (store w)) = Some row ->
     fst out = Ok (make_response (error_body "Username already exists.") 400)) /\
  (forall u,
     getitem (payload req) "username" = Ok u -> free u ->
     lacks (payload req) "password" -> fst out = Raise (KeyError "password")) /\
  (forall u pw h,
     getitem (payload req) "username" = Ok u -> free u ->
     getitem (payload req) "password" = Ok pw ->
     generate_password_hash (entropy req) pw = Ok h ->
     lacks (payload req) "email" -> fst out = Raise (KeyError "email")) /\
  (forall u s em h,
     getitem (payload req) "username" = Ok u -> free u ->
     getitem (payload req) "password" = Ok (JStr s) ->
     (String.length s < 6)%nat ->
     generate_password_hash (entropy req) (JStr s) = Ok h ->
     getitem (payload req) "email" = Ok em ->
     store_check (with_users (users (store w) ++ [new_account (store w) u em h])
                             (store w)) = None ->
     answers 201 (fst out) /\
     users (store (snd out)) = (users (store w) ++ [new_account (store w) u em h])%list).
Proof.
  intros out free. subst out. unfold serve.
  set (c0 := {| pending := store w; durable := store w;
                sess := session_of w (client req) |}).
  repeat apply conj.
  - intros k Hk Hlacks.
    destruct (register_run_incomplete req c0 k Hk) as (Hd & Hs & Hr).
    { intros v Hv. rewrite (lacks_getitem _ _ Hlacks) in Hv. discriminate. }
    cbn [fst snd store]. rewrite Hd, Hs. repeat split; [|exact Hr].
    apply save_session_same.
  - intros Hl. apply lacks_getitem in Hl. cbn [fst].
    unfold UserAuthResource_post, bind, lift. now rewrite Hl.
  - intros u row Hu Hf. cbn [fst].
    now rewrite (register_run_taken req c0 u row Hu Hf).
  - intros u Hu Hf Hl. apply lacks_getitem in Hl. cbn [fst].
    unfold UserAuthResource_post, bind, lift, filter_by_username.
    rewrite Hu. cbn [pending c0]. unfold free in Hf. now rewrite Hf, Hl.
  - intros u pw h Hu Hf Hpw Hh Hl. apply lacks_getitem in Hl. cbn [fst].
    unfold UserAuthResource_post, bind, lift, filter_by_username.
    rewrite Hu. cbn [pending c0]. unfold free in Hf. now rewrite Hf, Hpw, Hh, Hl.
  - intros u s em h Hu Hf Hpw _ Hh Hem Hacc.
    rewrite (register_run_fresh req c0 u (JStr s) em h Hu Hf Hpw Hh Hem Hacc).
    cbn [fst snd store durable users with_users pending c0]. split; [now eexists | reflexivity].
Qed.

End Registration.

(** ** Login, password change and account deletion *)

Lemma logged_in_as_lookup (u : UserAuth) (s : gmap string json) :
  logged_in_as u s !! "user_id" = Some (JInt (ua_id u)) /\
  logged_in_as u s !! "username" = Some (ua_username u) /\
  logged_in_as u s !! "logged_in" = Some (JBool true).
Proof.
  unfold logged_in_as. repeat split.
  - rewrite lookup_insert_ne by discriminate.
    rewrite lookup_insert_ne by discriminate. apply lookup_insert_eq.
  - rewrite lookup_insert_ne by discriminate. apply lookup_insert_eq.
  - apply lookup_insert_eq.
Qed.

Lemma find_change_digest (u : json) (user : UserAuth) (h : string)
    (us : list UserAuth) :
  List.find (fun r => col_eqb (ua_username r) u) us = Some user ->
  List.find (fun r => col_eqb (ua_username r) u) (change_digest user h us) =
    Some (with_digest h user).
Proof.
  induction us as [|a us IH]; simpl; [discriminate|].
  destruct (col_eqb (ua_username a) u) eqn:E.
  - intros [= ->]. rewrite Z.eqb_refl. simpl. now rewrite E.
  - intros Hf. destruct (Z.eqb (ua_id a) (ua_id user)); simpl; rewrite E; auto.
Qed.

Lemma remove_account_gone (user : UserAuth) (us : list UserAuth) :
  ~ In user (remove_account user us).
Proof.
  unfold remove_account. intros Hin. apply List.filter_In in Hin.
  destruct Hin as [_ Hin]. now rewrite Z.eqb_refl in Hin.
Qed.

Section Credentials.

Context `{B : Backend}.

Ltac step := unfold bind, lift, ret, filter_by_username; cbn [pending durable sess fst snd].

Lemma login_run (req : Request) (c : Ctx) (u p : json) :
  getitem (payload req) "username" = Ok u ->
  getitem (payload req) "password" = Ok p ->
  UserLoginResource_post req c =
    match List.find (fun r => col_eqb (ua_username r) u) (users (pending c)) with
    | Some row =>
        match check_password_hash (ua_password_hash row) p with
        | Ok true =>
            (Ok (make_response (login_view row) 200),
             set_sess (logged_in_as row (sess c)) c)
        | Ok false =>
            (Ok (make_response (error_body "Invalid username or password") 401), c)
        | Raise e => (Raise e, c)
        end
    | None =>
        (Ok (make_response (error_body "Invalid username or password") 401), c)
    end.
Proof.
  intros Hu Hp.
  destruct (getitem_Ok_inv _ _ _ Hu) as (Hcu & Ht & _).
  destruct (getitem_Ok_inv _ _ _ Hp) as (Hcp & _ & _).
  unfold UserLoginResource_post. rewrite Ht. cbn [negb]. step.
  rewrite Hcu. cbn [negb]. step. rewrite Hcp. cbn [negb]. step. rewrite Hu. step.
  destruct (List.find _ _) as [row|]; [|reflexivity].
  rewrite Hp. step.
  now destruct (check_password_hash (ua_password_hash row) p) as [[|]|e].
Qed.

Lemma patch_run (req : Request) (c : Ctx) (u : json) :
  getitem (payload req) "username" = Ok u ->
  UserAuthResource_patch req c =
    match List.find (fun r => col_eqb (ua_username r) u) (users (pending c)) with
    | Some row =>
        match getitem (payload req) "password" with
        | Ok p =>
            match check_password_hash (ua_password_hash row) p with
            | Ok true =>
                match getitem (payload req) "newPassword" with
                | Ok np =>
                    match generate_password_hash (entropy req) np with
                    | Ok h =>
                        let d := with_users (change_digest row h (users (pending c)))
                                            (pending c) in
                        match store_check d with
                        | None =>
                            (Ok (make_response
                                   (message_body "Password updated successfully") 200),
                             {| pending := d; durable := d; sess := sess c |})
                        | Some e => (Raise e, set_pending d c)
                        end
                    | Raise e => (Raise e, c)
                    end
                | Raise e => (Raise e, c)
                end
            | Ok false =>
                (Ok (make_response (error_body "Invalid credentials") 401), c)
            | Raise e => (Raise e, c)
            end
        | Raise e => (Raise e, c)
        end
    | None => (Ok (make_response (error_body "Invalid credentials") 401), c)
    end.
Proof.
  intros Hu. unfold UserAuthResource_patch. step. rewrite Hu. step.
  destruct (List.find _ _) as [row|]; [|reflexivity].
  destruct (getitem (payload req) "password") as [p|e]; step; [|reflexivity].
  destruct (check_password_hash (ua_password_hash row) p) as [[|]|e]; step;
    try reflexivity.
  destruct (getitem (payload req) "newPassword") as [np|e]; step; [|reflexivity].
  destruct (generate_password_hash (entropy req) np) as [h|e]; step; [|reflexivity].
  unfold set_password_hash, commit, set_pending. cbn [pending durable sess fst snd].
  fold (with_digest h). unfold change_digest.
  destruct (store_check _); reflexivity.
Qed.

Lemma delete_run (req : Request) (c : Ctx) (u p : json) :
  getitem (payload req) "username" = Ok u ->
  getitem (payload req) "password" = Ok p ->
  UserAuthResource_delete req c =
    match List.find (fun r => col_eqb (ua_username r) u) (users (pending c)) with
    | Some row =>
        match check_password_hash (ua_password_hash row) p with
        | Ok true =>
            let d := with_users (remove_account row (users (pending c))) (pending c) in
            match store_check d with
            | None =>
                (Ok (make_response (message_body "User deleted successfully") 200),
                 {| pending := d; durable := d; sess := ∅ |})
            | Some e =>
                (Ok (make_response (error_body (exn_str e)) 500), set_pending d c)
            end
        | Ok false => (Ok (make_response (error_body "Incorrect password") 401), c)
        | Raise e => (Ok (make_response (error_body (exn_str e)) 500), c)
        end
    | None => (Ok (make_response (error_body "User not found") 404), c)
    end.
Proof.
  intros Hu Hp.
  destruct (getitem_Ok_inv _ _ _ Hu) as (Hcu & _ & _).
  destruct (getitem_Ok_inv _ _ _ Hp) as (Hcp & _ & _).
  unfold UserAuthResource_delete, catch. step. rewrite Hcu. step. rewrite Hcp.
  cbn [negb]. step. rewrite Hu, Hp. step.
  destruct (List.find _ _) as [row|]; [|reflexivity].
  destruct (check_password_hash (ua_password_hash row) p) as [[|]|e]; step;
    try reflexivity.
  unfold delete_user, commit, session_clear, set_pending, set_sess.
  cbn [pending durable sess fst snd]. fold (remove_account row (users (pending c))).
  destruct (store_check _); reflexivity.
Qed.

End Credentials.

Lemma query_get_removed (row : UserAuth) (us : list UserAuth) :
  List.find (fun r => col_eqb (JInt (ua_id r)) (JInt (ua_id row)))
            (remove_account row us) = None.
Proof.
  unfold remove_account. induction us as [|a us IH]; [reflexivity|].
  simpl. destruct (Z.eqb (ua_id a) (ua_id row)) eqn:E; simpl; [exact IH|].
  now rewrite E.
Qed.

Section CredentialClaims.

Context `{B : Backend}.

(** C6. A login call carries a username and a password.  When no Account
    has the username, or the Account the query returns does not verify
    the password, the answer is InvalidCredentials (401) and no session
    of any client, the caller's prior session included, and no row is
    changed.  When it verifies, the answer is 200 with the id, username
    and email of the Account (and no digest), and the session of the
    caller, and only that session, now stores the user id, the username
    and the authentication flag. *)
Theorem login_outcomes (w : World) (req : Request) (u p : json) :
  getitem (payload req) "username" = Ok u ->
  getitem (payload req) "password" = Ok p ->
  let out := serve UserLoginResource_post req w in
  let found := List.find (fun r => col_eqb (ua_username r) u) (users (store w)) in
  let rejected :=
    fst out = Ok (make_response (error_body "Invalid username or password")
                                InvalidCredential) /\
    same_sessions w (snd out) /\ store (snd out) = store w in
  ((forall row, In row (users (store w)) -> ua_username row <> u) -> rejected) /\
  (forall row, found = Some row ->
     check_password_hash (ua_password_hash row) p = Ok false -> rejected) /\
  (forall row, found = Some row ->
     check_password_hash (ua_password_hash row) p = Ok true ->
     fst out = Ok (make_response (login_view row) 200) /\
     getitem (login_view row) "user_id" = Ok (JInt (ua_id row)) /\
     getitem (login_view row) "username" = Ok (ua_username row) /\
     getitem (login_view row) "email" = Ok (ua_email row) /\
     getitem (login_view row) "password_hash" = Raise (KeyError "password_hash") /\
     sessions_but (client req) (logged_in_as row (session_of w (client req)))
                  w (snd out) /\
     references (session_of (snd out) (client req)) row /\
     session_of (snd out) (client req) !! "username" = Some (ua_username row) /\
     authenticated (session_of (snd out) (client req)) /\
     store (snd out) = store w).
Proof.
  intros Hu Hp out found rejected. subst out rejected found. unfold serve.
  set (c0 := {| pending := store w; durable := store w;
                sess := session_of w (client req) |}).
  rewrite (login_run req c0 u p Hu Hp). cbn [pending c0].
  repeat apply conj.
  - intros Hfresh. destruct (find_username_fresh u _ Hfresh) as (-> & _).
    cbn [fst snd durable sess c0]. repeat split. apply save_session_same.
  - intros row -> ->. cbn [fst snd durable sess c0]. repeat split.
    apply save_session_same.
  - intros row -> ->. cbn [fst snd durable sess c0 set_sess].
    pose proof (save_session_but (client req)
                  (logged_in_as row (session_of w (client req))) w (store w))
      as Hbut.
    destruct (logged_in_as_lookup row (session_of w (client req)))
      as (Hid & Hname & Hflag).
    destruct Hbut as (Hmine & Hothers).
    repeat split; try assumption.
    + unfold references. now rewrite Hmine.
    + now rewrite Hmine.
    + unfold authenticated. now rewrite Hmine.
Qed.

(** C7. A password change names an Account by its username.  When the
    old password verifies (and the new password is in the body, the
    hasher returns its digest and the store accepts the update), the
    answer is 200, the stored digest of the Account is the hash of the
    new password, and no session of any client is changed.  When the old
    password does not verify, or no Account has the username, the answer
    is InvalidCredential (401) and neither a row nor a session is
    changed. *)
Theorem change_password_outcomes (w : World) (req : Request) (u : json) :
  getitem (payload req) "username" = Ok u ->
  let out := serve UserAuthResource_patch req w in
  let found := List.find (fun r => col_eqb (ua_username r) u) (users (store w)) in
  let rejected :=
    fst out = Ok (make_response (error_body "Invalid credentials") InvalidCredential) /\
    store (snd out) = store w /\ same_sessions w (snd out) in
  (forall row p np h,
     found = Some row ->
     getitem (payload req) "password" = Ok p ->
     check_password_hash (ua_password_hash row) p = Ok true ->
     getitem (payload req) "newPassword" = Ok np ->
     generate_password_hash (entropy req) np = Ok h ->
     store_check (with_users (change_digest row h (users (store w))) (store w)) = None ->
     fst out = Ok (make_response (message_body "Password updated successfully") 200) /\
     store (snd out) = with_users (change_digest row h (users (store w))) (store w) /\
     List.find (fun r => col_eqb (ua_username r) u) (users (store (snd out))) =
       Some (with_digest h row) /\
     same_sessions w (snd out)) /\
  (forall row p,
     found = Some row ->
     getitem (payload req) "password" = Ok p ->
     check_password_hash (ua_password_hash row) p = Ok false -> rejected) /\
  ((forall row, In row (users (store w)) -> ua_username row <> u) -> rejected).
Proof.
  intros Hu out found rejected. subst out rejected found. unfold serve.
  set (c0 := {| pending := store w; durable := store w;
                sess := session_of w (client req) |}).
  rewrite (patch_run req c0 u Hu). cbn [pending c0].
  repeat apply conj.
  - intros row p np h Hf Hp Hv Hnp Hh Hacc. rewrite Hf, Hp, Hv, Hnp, Hh.
    cbv zeta. rewrite Hacc. cbn [fst snd durable sess store users with_users].
    repeat split.
    + now apply find_change_digest.
    + apply save_session_same.
  - intros row p -> -> ->. cbn [fst snd durable sess c0]. repeat split.
    apply save_session_same.
  - intros Hfresh. destruct (find_username_fresh u _ Hfresh) as (-> & _).
    cbn [fst snd durable sess c0]. repeat split. apply save_session_same.
Qed.

(** C5 (amended). An account deletion carries a username and a password.
    When no Account has the username the answer is UserNotFound (404);
    when the Account the query returns does not verify the password the
    answer is InvalidCredential (401); in both cases no row and no
    session is changed.  When the password verifies (and the store
    accepts the deletion), the answer is 200, the Account row is gone,
    and the session of the client that sent the request is cleared in
    the same request, so that it no longer claims authentication; the
    sessions of all other clients are left as they were, so that those
    of them that refer to the deleted Account still do. *)
Theorem delete_account_outcomes (w : World) (req : Request) (u p : json) :
  getitem (payload req) "username" = Ok u ->
  getitem (payload req) "password" = Ok p ->
  let out := serve UserAuthResource_delete req w in
  let found := List.find (fun r => col_eqb (ua_username r) u) (users (store w)) in
  ((forall row, In row (users (store w)) -> ua_username row <> u) ->
     fst out = Ok (make_response (error_body "User not found") UserNotFound) /\
     store (snd out) = store w /\ same_sessions w (snd out)) /\
  (forall row, found = Some row ->
     check_password_hash (ua_password_hash row) p = Ok false ->
     fst out = Ok (make_response (error_body "Incorrect password") InvalidCredential) /\
     store (snd out) = store w /\ same_sessions w (snd out)) /\
  (forall row, found = Some row ->
     check_password_hash (ua_password_hash row) p = Ok true ->
     store_check (with_users (remove_account row (users (store w))) (store w)) = None ->
     fst out = Ok (make_response (message_body "User deleted successfully") 200) /\
     store (snd out) = with_users (remove_account row (users (store w))) (store w) /\
     ~ In row (users (store (snd out))) /\
     sessions_but (client req) ∅ w (snd out) /\
     ~ authenticated (session_of (snd out) (client req)) /\
     (forall other,
        client other <> client req ->
        references (session_of w (client other)) row ->
        session_of (snd out) (client other) = session_of w (client other) /\
        references (session_of (snd out) (client other)) row)).
Proof.
  intros Hu Hp out found.
  assert (E : out =
    let rc := UserAuthResource_delete req
                {| pending := store w; durable := store w;
                   sess := session_of w (client req) |} in
    (fst rc, {| store := durable (snd rc);
                sessions := save_session (client req) (sess (snd rc)) (sessions w) |}))
    by reflexivity.
  rewrite (delete_run req _ u p Hu Hp) in E. cbn [pending] in E.
  subst found. clearbody out. repeat apply conj.
  - intros Hfresh. destruct (find_username_fresh u _ Hfresh) as (Hf & _).
    rewrite Hf in E. subst out. cbn [fst snd durable sess]. repeat split.
    apply save_session_same.
  - intros row Hf Hv. rewrite Hf, Hv in E. subst out.
    cbn [fst snd durable sess]. repeat split. apply save_session_same.
  - intros row Hf Hv Hacc. rewrite Hf, Hv in E. cbv zeta in E. rewrite Hacc in E.
    subst out. cbn [fst snd durable sess store users with_users].
    pose proof (save_session_but (client req) ∅ w
                  (with_users (remove_account row (users (store w))) (store w)))
      as Hbut.
    split; [reflexivity|]. split; [reflexivity|].
    split; [apply remove_account_gone|]. split; [exact Hbut|].
    destruct Hbut as (Hmine & Hothers). split.
    + rewrite Hmine. unfold authenticated. now rewrite lookup_empty.
    + intros other Hne Href. rewrite (Hothers (client other)) by assumption.
      split; [reflexivity | exact Href].
Qed.

End CredentialClaims.

(** ** Order creation *)

Lemma getitem_Ok_dict (d : json) (k : string) (v : json) :
  getitem d k = Ok v -> exists kvs, d = JDict kvs.
Proof. destruct d; simpl; try discriminate. eauto. Qed.

Lemma with_order_details_id (c : Ctx) :
  set_pending (with_order_details (order_details (pending c) ++ []) (pending c)) c = c.
Proof.
  destruct c as [[us os ds ps] du se]. unfold set_pending, with_order_details.
  simpl. now rewrite app_nil_r.
Qed.

Lemma Forall2_In_left {A C : Type} (R : A -> C -> Prop) (l : list A) (l' : list C)
    (a : A) :
  Forall2 R l l' -> In a l -> exists c, In c l' /\ R a c.
Proof.
  induction 1 as [|x y l l' Hxy _ IH]; intros Hin; [contradiction|].
  destruct Hin as [-> | Hin].
  - exists y. split; [now left | assumption].
  - destruct (IH Hin) as (c & Hc & HR). exists c. split; [now right | assumption].
Qed.

Lemma Forall2_nil_iff {A C : Type} (R : A -> C -> Prop) (l : list A) (l' : list C) :
  Forall2 R l l' -> (l' = [] <-> l = []).
Proof. destruct 1; split; intros; congruence. Qed.

Lemma add_details_cons (it : json) (rest : list json) (oid : Z) (c : Ctx) :
  add_details oid (it :: rest) c =
    match getitem it "product_id" with
    | Raise e => (Raise e, c)
    | Ok pid =>
        match getitem it "quantity" with
        | Raise e => (Raise e, c)
        | Ok q =>
            let row := {| od_id := next_id (map od_id (order_details (pending c)));
                          od_order_id := oid;
                          od_product_id := pid; od_quantity := q |} in
            add_details oid rest
              (set_pending (with_order_details (order_details (pending c) ++ [row])
                                               (pending c)) c)
        end
    end.
Proof.
  simpl. unfold bind, lift.
  destruct (getitem it "product_id"); [|reflexivity].
  destruct (getitem it "quantity"); reflexivity.
Qed.

(** The loop over the line items either adds one row per item, in order,
    or stops at an item without one of its two keys, and then nothing has
    been committed. *)
Lemma add_details_run (items : list json) (oid : Z) (c : Ctx) :
  (exists rows,
     add_details oid items c =
       (Ok tt, set_pending (with_order_details (order_details (pending c) ++ rows)
                                              (pending c)) c) /\
     Forall2 (row_of_item oid) items rows) \/
  (exists e c',
     add_details oid items c = (Raise e, c') /\
     durable c' = durable c /\ sess c' = sess c /\
     exists item, In item items /\
       (getitem item "product_id" = Raise e \/ getitem item "quantity" = Raise e)).
Proof.
  revert c. induction items as [|it rest IH]; intros c.
  - left. exists []. split; [|constructor].
    simpl. unfold ret. now rewrite with_order_details_id.
  - rewrite add_details_cons.
    destruct (getitem it "product_id") as [pid|e] eqn:Hpid.
    2:{ right. exists e, c. repeat split. exists it. split; [now left | now left]. }
    destruct (getitem it "quantity") as [q|e] eqn:Hq.
    2:{ right. exists e, c. repeat split. exists it. split; [now left | now right]. }
    cbv zeta.
    set (row := {| od_id := _; od_order_id := oid;
                   od_product_id := pid; od_quantity := q |}).
    set (c1 := set_pending _ c).
    destruct (IH c1) as [(rows & Hrun & Hrows) | (e & c' & Hrun & Hd & Hs & item & Hin & Hitem)].
    + left. exists (row :: rows). split.
      * rewrite Hrun. subst c1. unfold set_pending, with_order_details.
        cbn [pending durable sess order_details users orders products].
        now rewrite <- app_assoc.
      * constructor; [|assumption]. repeat split; assumption.
    + right. exists e, c'. rewrite Hrun. repeat split; try assumption.
      exists item. split; [now right | assumption].
Qed.

Section Orders.

Context `{B : Backend}.

Ltac escapes :=
  cbn [fst snd]; split; [reflexivity | left; eexists; split; reflexivity].

Lemma order_run (req : Request) (c : Ctx) :
  OrderResource_post req c =
    match getitem (payload req) "user_id" with
    | Raise e => (Raise e, c)
    | Ok uid =>
    match py_get (payload req) "shipping_info_id" with
    | Raise e => (Raise e, c)
    | Ok sid =>
    let o := new_order (pending c) uid sid in
    let c1 := set_pending (with_orders (orders (pending c) ++ [o]) (pending c)) c in
    match store_check (pending c1) with
    | Some e => (Raise e, c1)
    | None =>
    match getitem (payload req) "order_details" with
    | Raise e => (Raise e, c1)
    | Ok v =>
    match py_iter v with
    | Raise e => (Raise e, c1)
    | Ok items =>
    match add_details (o_id o) items c1 with
    | (Raise e, c2) => (Raise e, c2)
    | (Ok _, c2) =>
    match store_check (pending c2) with
    | Some e => (Raise e, c2)
    | None =>
        (Ok (make_response (order_view (pending c2) o) 201),
         {| pending := pending c2; durable := pending c2; sess := sess c2 |})
    end end end end end end end.
Proof.
  unfold OrderResource_post, bind, lift, add_order, flush, commit, Order_to_dict, ret.
  destruct (getitem (payload req) "user_id") as [uid|]; [|reflexivity].
  destruct (py_get (payload req) "shipping_info_id") as [sid|]; [|reflexivity].
  cbv zeta. fold (new_order (pending c) uid sid).
  destruct (store_check _); [reflexivity|].
  destruct (getitem (payload req) "order_details"); [|reflexivity].
  destruct (py_iter _); [|reflexivity].
  destruct (add_details _ _ _) as [[[]|e] c2]; [|reflexivity].
  cbn [pending]. destruct (store_check _); reflexivity.
Qed.

(** What [OrderResource.post] does, on every request: an exception leaves
    it before the commit and then the committed rows are as before; or it
    answers 201 and has committed the header together with one row per
    line item. *)
Lemma order_run_cases (req : Request) (c : Ctx) :
  pending c = durable c ->
  let out := OrderResource_post req c in
  sess (snd out) = sess c /\
  ((exists e, fst out = Raise e /\ durable (snd out) = durable c) \/
   (exists uid sid v items rows b,
      getitem (payload req) "user_id" = Ok uid /\
      py_get (payload req) "shipping_info_id" = Ok sid /\
      getitem (payload req) "order_details" = Ok v /\
      py_iter v = Ok items /\
      fst out = Ok (make_response b 201) /\
      durable (snd out) = with_order (new_order (durable c) uid sid) rows (durable c) /\
      Forall2 (row_of_item (o_id (new_order (durable c) uid sid))) items rows)).
Proof.
  intros Hpd out. subst out. rewrite order_run.
  destruct (getitem (payload req) "user_id") as [uid|e] eqn:Huid; [|now escapes].
  destruct (py_get (payload req) "shipping_info_id") as [sid|e] eqn:Hsid;
    [|now escapes].
  cbv zeta. set (o := new_order (pending c) uid sid). set (c1 := set_pending _ c).
  destruct (store_check (pending c1)) as [e|]; [now escapes|].
  destruct (getitem (payload req) "order_details") as [v|e] eqn:Hv; [|now escapes].
  destruct (py_iter v) as [items|e] eqn:Hitems; [|now escapes].
  destruct (add_details_run items (o_id o) c1)
    as [(rows & Hrun & Hrows) | (e & c' & Hrun & Hd & Hs & _)]; rewrite Hrun.
  2:{ cbn [fst snd]. split; [exact Hs | left; eauto]. }
  cbn [pending set_pending].
  destruct (store_check _) as [e|]; [now escapes|].
  cbn [fst snd durable sess pending set_pending].
  split; [reflexivity|]. right.
  exists uid, sid, v, items, rows. eexists.
  repeat split; try eassumption.
  - subst c1 o. rewrite <- Hpd. unfold with_order, with_order_details, with_orders, set_pending.
    cbn [pending users orders order_details products]. reflexivity.
  - subst o. now rewrite <- Hpd.
Qed.

(** A well-formed request on a store that raises no error is answered
    with 201. *)
Lemma order_run_accepted (req : Request) (c : Ctx) (uid v : json) (items : list json) :
  getitem (payload req) "user_id" = Ok uid ->
  getitem (payload req) "order_details" = Ok v ->
  py_iter v = Ok items ->
  Forall (fun it => exists pid q, line_item it pid q) items ->
  (forall d, store_check d = None) ->
  answers 201 (fst (OrderResource_post req c)).
Proof.
  intros Huid Hv Hitems Hwf Hacc. rewrite order_run.
  destruct (getitem_Ok_dict _ _ _ Huid) as (kvs & Hdict).
  rewrite Huid, Hv. rewrite Hdict at 1. cbn [py_get]. cbv zeta.
  rewrite Hacc, Hitems.
  match goal with |- context [add_details ?oid items ?c1] =>
    destruct (add_details_run items oid c1)
      as [(rows & Hrun & _) | (e & c' & _ & _ & _ & it & Hin & Hraise)];
    [rewrite Hrun|]
  end.
  - rewrite Hacc. cbn [fst]. now eexists.
  - exfalso.
    destruct (proj1 (List.Forall_forall _ _) Hwf it Hin) as (pid & q & Hp & Hq).
    destruct Hraise as [Hr | Hr]; congruence.
Qed.

(** One request for an order, served: the sessions are as before, and
    the committed rows are either as before (an exception escaped) or
    extended by the header and one row per line item (201). *)
Lemma serve_order_cases (w : World) (req : Request) :
  let out := serve OrderResource_post req w in
  same_sessions w (snd out) /\
  ((exists e, fst out = Raise e /\ store (snd out) = store w) \/
   (exists uid sid v items rows b,
      getitem (payload req) "user_id" = Ok uid /\
      py_get (payload req) "shipping_info_id" = Ok sid /\
      getitem (payload req) "order_details" = Ok v /\
      py_iter v = Ok items /\
      fst out = Ok (make_response b 201) /\
      store (snd out) = with_order (new_order (store w) uid sid) rows (store w) /\
      Forall2 (row_of_item (o_id (new_order (store w) uid sid))) items rows)).
Proof.
  intros out. subst out. unfold serve.
  set (c0 := {| pending := store w; durable := store w;
                sess := session_of w (client req) |}).
  destruct (order_run_cases req c0 eq_refl) as (Hs & Hcases).
  cbn [fst snd store]. rewrite Hs. split; [apply save_session_same|].
  exact Hcases.
Qed.

(** A line item of the request, whatever its product and quantity, is
    among the rows committed by an order creation that answers; and no
    order creation answers with a status other than 201. *)
Lemma serve_order_item (w : World) (req : Request) (v : json) (items : list json)
    (it : json) :
  getitem (payload req) "order_details" = Ok v ->
  py_iter v = Ok items ->
  In it items ->
  let out := serve OrderResource_post req w in
  (forall code, code <> 201 -> ~ answers code (fst out)) /\
  ((exists e, fst out = Raise e /\ store (snd out) = store w) \/
   (answers 201 (fst out) /\
    exists o row,
      orders (store (snd out)) = (orders (store w) ++ [o])%list /\
      In row (order_details (store (snd out))) /\
      products (store (snd out)) = products (store w) /\
      row_of_item (o_id o) it row)).
Proof.
  intros Hv Hitems Hin out.
  destruct (serve_order_cases w req) as (_ & Hcases). fold out in Hcases.
  destruct Hcases as [(e & He & Hst) |
    (uid & sid & v' & items' & rows & b & _ & _ & Hv' & Hitems' & Hok & Hst & Hrows)].
  - split; [|left; eauto].
    intros code _ (b & Hb). rewrite He in Hb. discriminate.
  - rewrite Hv in Hv'. injection Hv' as <-.
    rewrite Hitems in Hitems'. injection Hitems' as <-.
    split.
    + intros code Hcode (b' & Hb'). rewrite Hok in Hb'.
      unfold make_response in Hb'. injection Hb' as Hstatus _. congruence.
    + right. split; [now exists b|].
      destruct (Forall2_In_left _ _ _ it Hrows Hin) as (row & Hrow & Hitem).
      exists (new_order (store w) uid sid), row. rewrite Hst.
      cbn [with_order orders order_details products]. repeat split; try apply Hitem.
      apply in_or_app. now right.
Qed.

(** C1 (amended). [createOrder] makes no Catalog lookup.  A request one
    of whose line items names a product id that is not in the Catalog is
    never answered with ProductNotFound: either an exception escapes the
    handler and no Order row and no OrderDetail row of the request exists
    afterwards, or the answer is 201 and the Order row and the
    OrderDetail row with the unresolved product id are committed.  The
    latter is what happens when the request is well-formed and the store
    raises no error. *)
Theorem create_order_unresolved_product (w : World) (req : Request) (v : json)
    (items : list json) (it : json) (p : Z) :
  getitem (payload req) "order_details" = Ok v ->
  py_iter v = Ok items ->
  In it items ->
  getitem it "product_id" = Ok (JInt p) ->
  ~ In p (products (store w)) ->
  let out := serve OrderResource_post req w in
  ~ answers ProductNotFound (fst out) /\
  ((exists e, fst out = Raise e /\ store (snd out) = store w) \/
   (answers 201 (fst out) /\
    exists o row,
      orders (store (snd out)) = (orders (store w) ++ [o])%list /\
      In row (order_details (store (snd out))) /\
      od_order_id row = o_id o /\
      od_product_id row = JInt p /\
      ~ In p (products (store (snd out))))) /\
  (forall uid,
     getitem (payload req) "user_id" = Ok uid ->
     Forall (fun it => exists pid q, line_item it pid q) items ->
     (forall d, store_check d = None) ->
     answers 201 (fst out)).
Proof.
  intros Hv Hitems Hin Hp Hcat out.
  destruct (serve_order_item w req v items it Hv Hitems Hin) as (Hcode & Hcases).
  fold out in Hcode, Hcases. repeat apply conj.
  - apply Hcode. discriminate.
  - destruct Hcases as [Hraise | (Hok & o & row & Ho & Hrow & Hprod & Hoid & Hpid & _)];
      [now left|].
    right. split; [exact Hok|]. exists o, row. repeat split; try assumption.
    + rewrite Hp in Hpid. now injection Hpid as <-.
    + now rewrite Hprod.
  - intros uid Huid Hwf Hacc. subst out. unfold serve. cbn [fst].
    now apply (order_run_accepted req _ uid v items).
Qed.

(** C2 (amended). [createOrder] makes no check of a quantity.  A request
    one of whose line items has a quantity below 1 is never answered with
    InvalidLineItem: either an exception escapes the handler and nothing
    of the request is persisted, or the answer is 201 and the Order row
    and the OrderDetail row with that quantity are committed.  The latter
    is what happens when the request is well-formed and the store raises
    no error. *)
Theorem create_order_bad_quantity (w : World) (req : Request) (v : json)
    (items : list json) (it : json) (n : Z) :
  getitem (payload req) "order_details" = Ok v ->
  py_iter v = Ok items ->
  In it items ->
  getitem it "quantity" = Ok (JInt n) ->
  n < 1 ->
  let out := serve OrderResource_post req w in
  ~ answers InvalidLineItem (fst out) /\
  ((exists e, fst out = Raise e /\ store (snd out) = store w) \/
   (answers 201 (fst out) /\
    exists o row,
      orders (store (snd out)) = (orders (store w) ++ [o])%list /\
      In row (order_details (store (snd out))) /\
      od_order_id row = o_id o /\
      od_quantity row = JInt n)) /\
  (forall uid,
     getitem (payload req) "user_id" = Ok uid ->
     Forall (fun it => exists pid q, line_item it pid q) items ->
     (forall d, store_check d = None) ->
     answers 201 (fst out)).
Proof.
  intros Hv Hitems Hin Hq Hn out.
  destruct (serve_order_item w req v items it Hv Hitems Hin) as (Hcode & Hcases).
  fold out in Hcode, Hcases. repeat apply conj.
  - apply Hcode. discriminate.
  - destruct Hcases as [Hraise | (Hok & o & row & Ho & Hrow & _ & Hoid & _ & Hqty)];
      [now left|].
    right. split; [exact Hok|]. exists o, row. repeat split; try assumption.
    rewrite Hq in Hqty. now injection Hqty as <-.
  - intros uid Huid Hwf Hacc. subst out. unfold serve. cbn [fst].
    now apply (order_run_accepted req _ uid v items).
Qed.

(** C3 (amended). The order header and its line items are committed
    together or not at all.  A [createOrder] that completes has answered
    201 and committed the Order row and exactly one OrderDetail row per
    element of [order_details], each carrying the id of the new Order, so
    that the new Order has no row exactly when the list was empty.  Any
    failure, the ones after the header insert included, leaves no Order
    and no OrderDetail row of the request behind.  No session changes. *)
Theorem create_order_all_or_nothing (w : World) (req : Request) :
  let out := serve OrderResource_post req w in
  same_sessions w (snd out) /\
  ((exists e, fst out = Raise e /\ store (snd out) = store w) \/
   (exists uid sid v items rows b,
      getitem (payload req) "user_id" = Ok uid /\
      py_get (payload req) "shipping_info_id" = Ok sid /\
      getitem (payload req) "order_details" = Ok v /\
      py_iter v = Ok items /\
      fst out = Ok (make_response b 201) /\
      store (snd out) = with_order (new_order (store w) uid sid) rows (store w) /\
      Forall2 (row_of_item (o_id (new_order (store w) uid sid))) items rows /\
      length rows = length items /\
      (rows = [] <-> items = []))).
Proof.
  intros out. destruct (serve_order_cases w req) as (Hs & Hcases).
  fold out in Hs, Hcases. split; [exact Hs|].
  destruct Hcases as [Hraise |
    (uid & sid & v & items & rows & b & Huid & Hsid & Hv & Hitems & Hok & Hst & Hrows)];
    [now left|].
  right. exists uid, sid, v, items, rows, b. repeat split; try assumption.
  - symmetry. eapply Forall2_length. exact Hrows.
  - now apply (Forall2_nil_iff _ _ _ Hrows).
  - now apply (Forall2_nil_iff _ _ _ Hrows).
Qed.

End Orders.

(** ** Concrete runs *)

Lemma unique_usernames_one (row : UserAuth) : unique_usernames [row].
Proof.
  intros u. unfold count_username. simpl.
  destruct (col_eqb (ua_username row) u); simpl; lia.
Qed.

Lemma unique_usernames_nil : unique_usernames [].
Proof. intros u. unfold count_username. simpl. lia. Qed.

Lemma alice_world_users : users (store alice_world) = [alice_row].
Proof. reflexivity. Qed.

Lemma line_items_well_formed (l : list (Z * Z)) :
  Forall (fun it => exists pid q, line_item it pid q)
         (map (fun pq => item (fst pq) (snd pq)) l).
Proof.
  induction l as [|[p q] l IH]; simpl; constructor; [|exact IH].
  exists (JInt p), (JInt q). split; reflexivity.
Qed.

(** C1, counterexample.  User 1 orders two units of product 99999, which
    is not in the Catalog.  On a store that enforces nothing the answer
    is 201 and the Order row and the OrderDetail row are persisted; on a
    store that enforces the foreign key the integrity error escapes
    unhandled.  Neither is ProductNotFound. *)
Lemma create_order_unknown_product_is_persisted :
  let req := request 1 (order_body 1 [item 99999 2]) in
  let out := serve (@OrderResource_post plain_backend) req shop_world in
  let strict := serve (@OrderResource_post strict_backend) req shop_world in
  ~ In 99999 (products (store shop_world)) /\
  answers 201 (fst out) /\
  ~ answers ProductNotFound (fst out) /\
  orders (store (snd out)) =
    [{| o_id := 1; o_user_id := JInt 1; o_shipping_info_id := JNull |}] /\
  order_details (store (snd out)) =
    [{| od_id := 1; od_order_id := 1;
        od_product_id := JInt 99999; od_quantity := JInt 2 |}] /\
  fst strict = Raise (IntegrityError "constraint failed") /\
  ~ answers ProductNotFound (fst strict).
Proof.
  intros req out strict. repeat apply conj.
  - simpl. intros [H|[]]. discriminate.
  - eexists. reflexivity.
  - intros (b & Hb). vm_compute in Hb. discriminate.
  - reflexivity.
  - reflexivity.
  - reflexivity.
  - intros (b & Hb). vm_compute in Hb. discriminate.
Qed.

(** The hypotheses of C1 at the order of product 99999, and what the
    theorem gives there. *)
Lemma create_order_unresolved_product_witness :
  let req := request 1 (order_body 1 [item 99999 2]) in
  let out := serve (@OrderResource_post plain_backend) req shop_world in
  (getitem (payload req) "order_details" = Ok (JList [item 99999 2]) /\
   py_iter (JList [item 99999 2]) = Ok [item 99999 2] /\
   In (item 99999 2) [item 99999 2] /\
   getitem (item 99999 2) "product_id" = Ok (JInt 99999) /\
   ~ In 99999 (products (store shop_world))) /\
  ~ answers ProductNotFound (fst out) /\
  answers 201 (fst out).
Proof.
  intros req out.
  assert (Hcat : ~ In 99999 (products (store shop_world))).
  { simpl. intros [H|[]]. discriminate. }
  destruct (@create_order_unresolved_product plain_backend shop_world req
              (JList [item 99999 2]) [item 99999 2] (item 99999 2) 99999
              eq_refl eq_refl (or_introl eq_refl) eq_refl Hcat)
    as (Hnot & _ & Hacc).
  split; [repeat split; try reflexivity; [now left | exact Hcat]|].
  split; [exact Hnot|].
  apply (Hacc (JInt 1)); [reflexivity | | reflexivity].
  exact (line_items_well_formed [(99999, 2)]).
Defined.

(** C2, counterexample.  User 1 orders zero units of product 7, which is
    in the Catalog.  On a store that enforces nothing the answer is 201
    and the Order row and the OrderDetail row with quantity 0 are
    persisted; on a store that enforces the range the integrity error
    escapes unhandled.  Neither is InvalidLineItem. *)
Lemma create_order_zero_quantity_is_persisted :
  let req := request 1 (order_body 1 [item 7 0]) in
  let out := serve (@OrderResource_post plain_backend) req shop_world in
  let strict := serve (@OrderResource_post strict_backend) req shop_world in
  In 7 (products (store shop_world)) /\
  answers 201 (fst out) /\
  ~ answers InvalidLineItem (fst out) /\
  orders (store (snd out)) =
    [{| o_id := 1; o_user_id := JInt 1; o_shipping_info_id := JNull |}] /\
  order_details (store (snd out)) =
    [{| od_id := 1; od_order_id := 1;
        od_product_id := JInt 7; od_quantity := JInt 0 |}] /\
  fst strict = Raise (IntegrityError "constraint failed") /\
  ~ answers InvalidLineItem (fst strict).
Proof.
  intros req out strict. repeat apply conj.
  - now left.
  - eexists. reflexivity.
  - intros (b & Hb). vm_compute in Hb. discriminate.
  - reflexivity.
  - reflexivity.
  - reflexivity.
  - intros (b & Hb). vm_compute in Hb. discriminate.
Qed.

(** The hypotheses of C2 at the order of zero units of product 7, and
    what the theorem gives there. *)
Lemma create_order_bad_quantity_witness :
  let req := request 1 (order_body 1 [item 7 0]) in
  let out := serve (@OrderResource_post plain_backend) req shop_world in
  (getitem (payload req) "order_details" = Ok (JList [item 7 0]) /\
   py_iter (JList [item 7 0]) = Ok [item 7 0] /\
   In (item 7 0) [item 7 0] /\
   getitem (item 7 0) "quantity" = Ok (JInt 0) /\
   0 < 1) /\
  ~ answers InvalidLineItem (fst out) /\
  answers 201 (fst out).
Proof.
  intros req out.
  destruct (@create_order_bad_quantity plain_backend shop_world req
              (JList [item 7 0]) [item 7 0] (item 7 0) 0
              eq_refl eq_refl (or_introl eq_refl) eq_refl eq_refl)
    as (Hnot & _ & Hacc).
  split; [repeat split; try reflexivity; now left|].
  split; [exact Hnot|].
  apply (Hacc (JInt 1)); [reflexivity | | reflexivity].
  exact (line_items_well_formed [(7, 0)]).
Defined.

(** C3, counterexample.  User 1 sends an order with an empty list of line
    items: the answer is 201 and the store holds an Order without any
    OrderDetail row. *)
Lemma create_order_without_items :
  let req := request 1 (order_body 1 []) in
  let out := serve (@OrderResource_post plain_backend) req shop_world in
  fst out =
    Ok (make_response
          (JDict [("id", JInt 1); ("user_id", JInt 1);
                  ("shipping_info_id", JNull); ("order_details", JList [])]) 201) /\
  orders (store (snd out)) =
    [{| o_id := 1; o_user_id := JInt 1; o_shipping_info_id := JNull |}] /\
  order_details (store (snd out)) = [].
Proof. repeat split. Qed.

(** A failure after the header insert: the second line item has no
    quantity.  The header and the first row were in the unit of work when
    the [KeyError] escaped; nothing of them is in the store. *)
Example create_order_failure_after_header :
  let req := request 1 (order_body 1 [item 7 1; JDict [("product_id", JInt 7)]]) in
  let out := serve (@OrderResource_post plain_backend) req shop_world in
  fst out = Raise (KeyError "quantity") /\ store (snd out) = store shop_world.
Proof. split; reflexivity. Qed.

(** C4 at the second registration of alice, and at her first one. *)
Lemma register_duplicate_username_witness :
  let again := request 2 (registration "alice" "second@example.com" "secret2") in
  let first := request 1 (registration "alice" "alice@example.com" "secret1") in
  let out2 := serve (@UserAuthResource_post plain_backend) again alice_world in
  let out1 := serve (@UserAuthResource_post plain_backend) first fresh_world in
  (getitem (payload again) "username" = Ok (JStr "alice") /\
   unique_usernames (users (store alice_world)) /\
   getitem (payload first) "username" = Ok (JStr "alice") /\
   unique_usernames (users (store fresh_world))) /\
  (fst out2 = Ok (make_response (error_body "Username already exists.")
                                DuplicateUsername) /\
   store (snd out2) = store alice_world /\
   count_username (JStr "alice") (users (store (snd out2))) = 1%nat) /\
  (fst out1 = Ok (make_response
                    (message_body "User created and logged in successfully") 201) /\
   count_username (JStr "alice") (users (store (snd out1))) = 1%nat).
Proof.
  intros again first out2 out1.
  assert (Hu2 : unique_usernames (users (store alice_world))).
  { rewrite alice_world_users. apply unique_usernames_one. }
  assert (Hu1 : unique_usernames (users (store fresh_world))).
  { apply unique_usernames_nil. }
  destruct (@register_duplicate_username plain_backend alice_world again "alice"
              eq_refl Hu2) as (Htaken & _).
  destruct (@register_duplicate_username plain_backend fresh_world first "alice"
              eq_refl Hu1) as (_ & Hfresh).
  split; [repeat split; assumption|]. split.
  - destruct Htaken as (H1 & H2 & _ & H4).
    + eexists. split; [rewrite alice_world_users; now left | reflexivity].
    + repeat split; assumption.
  - destruct (Hfresh (fun row (H : In row []) => match H with end)
                (JStr "secret1") (JStr "alice@example.com") "secret1$salt"
                eq_refl eq_refl eq_refl eq_refl) as (H1 & _ & H3).
    split; assumption.
Defined.


(** C10, counterexample.  alice is registered; a registration body that
    has her username but neither email nor password is answered with the
    400 of a duplicate username.  No lookup error is raised. *)
Lemma register_incomplete_body_taken_username :
  let req := request 3 (JDict [("username", JStr "alice")]) in
  let out := serve (@UserAuthResource_post plain_backend) req alice_world in
  lacks (payload req) "email" /\
  lacks (payload req) "password" /\
  fst out = Ok (make_response (error_body "Username already exists.") 400) /\
  ~ unhandled (fst out).
Proof.
  intros req out. repeat apply conj.
  - eexists. split; reflexivity.
  - eexists. split; reflexivity.
  - reflexivity.
  - intros (e & He). vm_compute in He. discriminate.
Qed.

(** C10 (amended) at a body without a username, at a body without a
    password, and at a complete body with a two-character password. *)
Lemma register_missing_field_witness :
  let no_name := request 3 (JDict [("email", JStr "carol@example.com")]) in
  let no_password := request 3 (JDict [("username", JStr "carol")]) in
  let no_email := request 3 (credentials "carol" "secret3") in
  let short := request 3 (registration "carol" "carol@example.com" "pw") in
  let register := serve (@UserAuthResource_post plain_backend) in
  (lacks (payload no_name) "username" /\
   fst (register no_name alice_world) = Raise (KeyError "username") /\
   store (snd (register no_name alice_world)) = store alice_world) /\
  (lacks (payload no_password) "password" /\
   fst (register no_password alice_world) = Raise (KeyError "password")) /\
  (lacks (payload no_email) "email" /\
   fst (register no_email alice_world) = Raise (KeyError "email") /\
   store (snd (register no_email alice_world)) = store alice_world) /\
  ((String.length "pw" < 6)%nat /\
   answers 201 (fst (register short alice_world))).
Proof.
  intros no_name no_password no_email short register.
  assert (L1 : lacks (payload no_name) "username") by (eexists; split; reflexivity).
  assert (L2 : lacks (payload no_password) "password") by (eexists; split; reflexivity).
  assert (L3 : lacks (payload no_email) "email") by (eexists; split; reflexivity).
  assert (L4 : (String.length "pw" < 6)%nat) by (simpl; lia).
  destruct (@register_missing_field plain_backend alice_world no_name)
    as (Hany & Hname & _).
  destruct (@register_missing_field plain_backend alice_world no_password)
    as (_ & _ & _ & Hpw & _).
  destruct (@register_missing_field plain_backend alice_world no_email)
    as (Hany' & _ & _ & _ & Hem & _).
  destruct (@register_missing_field plain_backend alice_world short)
    as (_ & _ & _ & _ & _ & Hshort).
  split; [|split; [|split]].
  - split; [exact L1|]. split; [exact (Hname L1)|].
    apply (Hany "username"); [now left | exact L1].
  - split; [exact L2|]. exact (Hpw (JStr "carol") eq_refl eq_refl L2).
  - split; [exact L3|]. split.
    + exact (Hem (JStr "carol") (JStr "secret3") "secret3$salt"
               eq_refl eq_refl eq_refl eq_refl L3).
    + apply (Hany' "email"); [right; now left | exact L3].
  - split; [exact L4|].
    apply (Hshort (JStr "carol") "pw" (JStr "carol@example.com") "pw$salt"
             eq_refl eq_refl eq_refl L4 eq_refl eq_refl eq_refl).
Defined.

(** C6 at a wrong password, at an unknown username (both from client 1,
    which is logged in) and at the right password from client 2. *)
Lemma login_outcomes_witness :
  let wrong := request 1 (credentials "alice" "wrong") in
  let nobody := request 1 (credentials "bob" "secret1") in
  let right := request 2 (credentials "alice" "secret1") in
  let login := serve (@UserLoginResource_post plain_backend) in
  (getitem (payload wrong) "username" = Ok (JStr "alice") /\
   getitem (payload wrong) "password" = Ok (JStr "wrong") /\
   authenticated (session_of alice_world 1)) /\
  (fst (login wrong alice_world) =
     Ok (make_response (error_body "Invalid username or password") InvalidCredential) /\
   session_of (snd (login wrong alice_world)) 1 = session_of alice_world 1) /\
  (fst (login nobody alice_world) =
     Ok (make_response (error_body "Invalid username or password") InvalidCredential) /\
   same_sessions alice_world (snd (login nobody alice_world))) /\
  (fst (login right alice_world) = Ok (make_response (login_view alice_row) 200) /\
   authenticated (session_of (snd (login right alice_world)) 2) /\
   references (session_of (snd (login right alice_world)) 2) alice_row).
Proof.
  intros wrong nobody right login.
  destruct (@login_outcomes plain_backend alice_world wrong
              (JStr "alice") (JStr "wrong") eq_refl eq_refl) as (_ & Hwrong & _).
  destruct (@login_outcomes plain_backend alice_world nobody
              (JStr "bob") (JStr "secret1") eq_refl eq_refl) as (Hnobody & _ & _).
  destruct (@login_outcomes plain_backend alice_world right
              (JStr "alice") (JStr "secret1") eq_refl eq_refl) as (_ & _ & Hright).
  split; [repeat split|]. split; [|split].
  - destruct (Hwrong alice_row eq_refl eq_refl) as (H1 & H2 & _).
    split; [exact H1 | exact (H2 1%nat)].
  - destruct Hnobody as (H1 & H2 & _); [|split; assumption].
    intros row Hin. rewrite alice_world_users in Hin.
    destruct Hin as [<- | []]. discriminate.
  - destruct (Hright alice_row eq_refl eq_refl)
      as (H1 & _ & _ & _ & _ & _ & H7 & _ & H9 & _).
    repeat split; assumption.
Defined.

(** C7 at a change with the right and with a wrong old password, alice
    being logged in from two clients. *)
Lemma change_password_outcomes_witness :
  let change := request 1 (JDict [("username", JStr "alice");
                                  ("password", JStr "secret1");
                                  ("newPassword", JStr "secret2")]) in
  let wrong := request 1 (JDict [("username", JStr "alice");
                                 ("password", JStr "guess");
                                 ("newPassword", JStr "secret2")]) in
  let patch := serve (@UserAuthResource_patch plain_backend) in
  (getitem (payload change) "username" = Ok (JStr "alice") /\
   getitem (payload wrong) "username" = Ok (JStr "alice")) /\
  (fst (patch change alice_twice_world) =
     Ok (make_response (message_body "Password updated successfully") 200) /\
   users (store (snd (patch change alice_twice_world))) =
     [with_digest "secret2$salt" alice_row] /\
   same_sessions alice_twice_world (snd (patch change alice_twice_world))) /\
  (fst (patch wrong alice_twice_world) =
     Ok (make_response (error_body "Invalid credentials") InvalidCredential) /\
   store (snd (patch wrong alice_twice_world)) = store alice_twice_world).
Proof.
  intros change wrong patch.
  destruct (@change_password_outcomes plain_backend alice_twice_world change
              (JStr "alice") eq_refl) as (Hok & _ & _).
  destruct (@change_password_outcomes plain_backend alice_twice_world wrong
              (JStr "alice") eq_refl) as (_ & Hwrong & _).
  split; [split; reflexivity|]. split.
  - destruct (Hok alice_row (JStr "secret1") (JStr "secret2") "secret2$salt"
                eq_refl eq_refl eq_refl eq_refl eq_refl eq_refl)
      as (H1 & H2 & _ & H4).
    split; [exact H1|]. split; [|exact H4].
    fold patch in H2. rewrite H2. reflexivity.
  - destruct (Hwrong alice_row (JStr "guess") eq_refl eq_refl eq_refl)
      as (H1 & H2 & _).
    split; assumption.
Defined.

(** C5, counterexample.  alice is registered and logged in from client 1
    and from client 2.  Client 1 deletes the account with the right
    password: the Account row is gone and the session of client 1 is
    empty, but the session of client 2 is what it was: it still claims
    authentication and still refers to the deleted Account. *)
Lemma delete_account_keeps_other_session :
  let req := request 1 (credentials "alice" "secret1") in
  let out := serve (@UserAuthResource_delete plain_backend) req alice_twice_world in
  (users (store alice_twice_world) = [alice_row] /\
   authenticated (session_of alice_twice_world 2) /\
   references (session_of alice_twice_world 2) alice_row) /\
  fst out = Ok (make_response (message_body "User deleted successfully") 200) /\
  users (store (snd out)) = [] /\
  session_of (snd out) 1 = ∅ /\
  session_of (snd out) 2 = session_of alice_twice_world 2 /\
  authenticated (session_of (snd out) 2) /\
  references (session_of (snd out) 2) alice_row.
Proof. vm_compute. repeat split. Qed.

(** C5 (amended) at an unknown username, a wrong password and the right
    password, alice being logged in from two clients. *)
Lemma delete_account_outcomes_witness :
  let right := request 1 (credentials "alice" "secret1") in
  let wrong := request 1 (credentials "alice" "guess") in
  let nobody := request 1 (credentials "bob" "secret1") in
  let delete := serve (@UserAuthResource_delete plain_backend) in
  (getitem (payload right) "username" = Ok (JStr "alice") /\
   getitem (payload right) "password" = Ok (JStr "secret1")) /\
  (fst (delete nobody alice_twice_world) =
     Ok (make_response (error_body "User not found") UserNotFound) /\
   store (snd (delete nobody alice_twice_world)) = store alice_twice_world) /\
  (fst (delete wrong alice_twice_world) =
     Ok (make_response (error_body "Incorrect password") InvalidCredential) /\
   store (snd (delete wrong alice_twice_world)) = store alice_twice_world) /\
  (fst (delete right alice_twice_world) =
     Ok (make_response (message_body "User deleted successfully") 200) /\
   ~ In alice_row (users (store (snd (delete right alice_twice_world)))) /\
   sessions_but 1 ∅ alice_twice_world (snd (delete right alice_twice_world)) /\
   references (session_of (snd (delete right alice_twice_world)) 2) alice_row).
Proof.
  intros right wrong nobody delete.
  destruct (@delete_account_outcomes plain_backend alice_twice_world nobody
              (JStr "bob") (JStr "secret1") eq_refl eq_refl) as (Hnobody & _ & _).
  destruct (@delete_account_outcomes plain_backend alice_twice_world wrong
              (JStr "alice") (JStr "guess") eq_refl eq_refl) as (_ & Hwrong & _).
  destruct (@delete_account_outcomes plain_backend alice_twice_world right
              (JStr "alice") (JStr "secret1") eq_refl eq_refl) as (_ & _ & Hright).
  split; [split; reflexivity|]. split; [|split].
  - destruct Hnobody as (H1 & H2 & _); [|split; assumption].
    intros row Hin. change (users (store alice_twice_world)) with [alice_row] in Hin.
    destruct Hin as [<- | []]. discriminate.
  - destruct (Hwrong alice_row eq_refl eq_refl) as (H1 & H2 & _).
    split; assumption.
  - destruct (Hright alice_row eq_refl eq_refl eq_refl)
      as (H1 & _ & H3 & H4 & _ & H6).
    split; [exact H1|]. split; [exact H3|]. split; [exact H4|].
    apply (H6 (request 2 JNull)); [discriminate | reflexivity].
Defined.

(** The session of client 2 after the deletion, once more.  With the key
    generation of [next_id] (the largest id plus one, which is what a
    table without a separate sequence does), the next registration gets
    the id of the deleted Account, and the old session of client 2 then
    refers to the new Account. *)
Example stale_session_after_next_registration :
  let w1 := snd (serve (@UserAuthResource_delete plain_backend)
                   (request 1 (credentials "alice" "secret1")) alice_twice_world) in
  let w2 := snd (serve (@UserAuthResource_post plain_backend)
                   (request 3 (registration "mallory" "mallory@example.com" "secret3"))
                   w1) in
  session_of w2 2 = session_of alice_twice_world 2 /\
  exists mallory,
    In mallory (users (store w2)) /\
    ua_username mallory = JStr "mallory" /\
    references (session_of w2 2) mallory.
Proof.
  split; [reflexivity|]. eexists. split; [left; reflexivity|]. split; reflexivity.
Qed.

(** The membership tests of login are Python's: a list that has the two
    strings as elements passes them, and the key lookup then raises. *)
Example login_with_list_body :
  fst (serve (@UserLoginResource_post plain_backend)
         (request 1 (JList [JStr "username"; JStr "password"])) alice_world) =
    Raise (TypeError "list indices must be integers or slices, not str").
Proof. reflexivity. Qed.

Example login_with_empty_body :
  fst (serve (@UserLoginResource_post plain_backend) (request 1 (JDict [])) alice_world) =
    Ok (make_response (error_body "Username and password are required") 400).
Proof. reflexivity. Qed.

(** The catch-all of [delete] turns the [TypeError] of a [null] body into
    a 500 that echoes the text of the exception. *)
Example delete_with_null_body :
  serve (@UserAuthResource_delete plain_backend) (request 1 JNull) alice_world =
    (Ok (make_response (error_body "argument of type 'NoneType' is not iterable") 500),
     alice_world).
Proof. reflexivity. Qed.

(** A password that the hasher refuses: registration lets the exception
    escape and writes nothing. *)
Example register_with_empty_password :
  let out := serve (@UserAuthResource_post plain_backend)
               (request 3 (registration "carol" "carol@example.com" "")) alice_world in
  fst out = Raise (ValueError "Password must be non-empty.") /\
  store (snd out) = store alice_world.
Proof. split; reflexivity. Qed.

(** ** The username invariant *)

Lemma count_username_remove (v : json) (row : UserAuth) (us : list UserAuth) :
  (count_username v (remove_account row us) <= count_username v us)%nat.
Proof.
  unfold count_username, remove_account.
  induction us as [|a us IH]; simpl; [lia|].
  destruct (negb _); simpl; destruct (col_eqb (ua_username a) v); simpl; lia.
Qed.

Lemma count_username_change (v : json) (row : UserAuth) (h : string)
    (us : list UserAuth) :
  count_username v (change_digest row h us) = count_username v us.
Proof.
  unfold count_username, change_digest.
  induction us as [|a us IH]; simpl; [reflexivity|].
  destruct (Z.eqb _ _); simpl; destruct (col_eqb (ua_username a) v); simpl; lia.
Qed.

Lemma count_username_none (u : json) (us : list UserAuth) :
  List.find (fun r => col_eqb (ua_username r) u) us = None ->
  count_username u us = 0%nat.
Proof.
  unfold count_username. induction us as [|a us IH]; [reflexivity|].
  simpl. destruct (col_eqb (ua_username a) u); [discriminate | auto].
Qed.

Lemma users_effect_unique (us us' : list UserAuth) :
  users_effect us us' -> unique_usernames us -> unique_usernames us'.
Proof.
  intros [-> | [(u & em & h & Hf & ->) | [(row & ->) | (row & h & ->)]]] Hu v;
    [apply Hu | | |].
  - rewrite count_username_app. specialize (Hu v). unfold count_username at 2. simpl.
    destruct (col_eqb u v) eqn:E; simpl; [|lia].
    apply col_eqb_eq in E. subst v. rewrite (count_username_none _ _ Hf). lia.
  - pose proof (count_username_remove v row us) as Hle. specialize (Hu v). lia.
  - rewrite count_username_change. apply Hu.
Qed.

Section Invariant.

Context `{B : Backend}.

Ltac plain x :=
  lazymatch x with
  | context [match _ with _ => _ end] => fail
  | _ => idtac
  end.

(** Case analysis along every path of a handler. *)
Ltac paths :=
  repeat (match goal with
          | |- context [match store_check ?d with _ => _ end] =>
              destruct (store_check d) eqn:?
          | |- context [match ?x with _ => _ end] => plain x; destruct x eqn:?
          end;
          cbn [fst snd durable pending sess set_pending set_sess with_users users] in *).

Lemma handler_users_effect (ep : endpoint) (req : Request) (c : Ctx) :
  pending c = durable c ->
  users_effect (users (durable c)) (users (durable (snd (handler ep req c)))).
Proof.
  intros Hpd. destruct ep; unfold handler.
  - unfold UserAuthResource_post, bind, lift, ret, filter_by_username, add_user,
      commit, session_set.
    paths; try (left; reflexivity).
    right; left. rewrite <- Hpd. eauto.
  - unfold UserAuthResource_delete, catch, bind, lift, ret, filter_by_username,
      delete_user, commit, session_clear.
    paths; try (left; reflexivity).
    all: right; right; left; rewrite <- Hpd; unfold remove_account;
      eexists; reflexivity.
  - unfold UserAuthResource_patch, bind, lift, ret, filter_by_username,
      set_password_hash, commit.
    paths; try (left; reflexivity).
    all: right; right; right; rewrite <- Hpd; unfold change_digest, with_digest;
      eexists; eexists; reflexivity.
  - unfold UserLoginResource_post, bind, lift, ret, filter_by_username, session_set.
    paths; left; reflexivity.
  - left. reflexivity.
  - left. now rewrite check_session_run.
  - left.
    destruct (order_run_cases req c Hpd)
      as (_ & [(e & _ & ->) |
               (uid & sid & v & items & rows & b & _ & _ & _ & _ & _ & -> & _)]);
      reflexivity.
Qed.

(** Every request keeps the usernames of the Account table unique. *)
Lemma serve_unique_usernames (ep : endpoint) (req : Request) (w : World) :
  unique_usernames (users (store w)) ->
  unique_usernames (users (store (snd (serve (handler ep) req w)))).
Proof.
  intros Hu. unfold serve. cbn [snd store].
  eapply users_effect_unique; [|exact Hu].
  exact (handler_users_effect ep req
           {| pending := store w; durable := store w;
              sess := session_of w (client req) |} eq_refl).
Qed.

(** The usernames are unique in every world reached from a world where
    they are. *)
Lemma reachable_unique_usernames (w0 w : World) :
  reachable w0 w ->
  unique_usernames (users (store w0)) ->
  unique_usernames (users (store w)).
Proof.
  induction 1 as [|w ep req _ IH]; intros Hu; [exact Hu|].
  apply serve_unique_usernames. now apply IH.
Qed.

End Invariant.

(** * Further properties of the handlers *)

(** ** Generated ids *)

Lemma next_id_above (ids : list Z) (x : Z) : In x ids -> x < next_id ids.
Proof.
  unfold next_id. induction ids as [|a ids IH]; [contradiction|].
  simpl. intros [-> | Hin]; [lia|]. specialize (IH Hin). lia.
Qed.

Lemma next_id_positive (ids : list Z) : 0 < next_id ids.
Proof.
  unfold next_id. induction ids as [|a ids IH]; simpl; lia.
Qed.

Lemma with_users_same (d : DB) : with_users (users d) d = d.
Proof. now destruct d. Qed.

(** ** The list of accounts *)

(** X1. The list of accounts is answered with 200 and one object per
    Account row, in the order of the table; each object has exactly the
    keys [id], [username] and [email], with the values of its row, so
    that no digest is in the answer, whatever the rows are.  The request
    changes no row and no session. *)
Theorem list_accounts_hides_digest (w : World) (req : Request) :
  let out := serve UserAuthResource_get req w in
  store (snd out) = store w /\
  same_sessions w (snd out) /\
  exists entries,
    fst out = Ok (make_response (JList entries) 200) /\
    Forall2 (fun u e =>
               (exists kvs, e = JDict kvs /\
                            map fst kvs = ["id"; "username"; "email"]) /\
               getitem e "id" = Ok (JInt (ua_id u)) /\
               getitem e "username" = Ok (ua_username u) /\
               getitem e "email" = Ok (ua_email u) /\
               getitem e "password_hash" = Raise (KeyError "password_hash"))
            (users (store w)) entries.
Proof.
  unfold serve, UserAuthResource_get. cbn [fst snd durable sess pending store].
  split; [reflexivity|]. split; [apply save_session_same|].
  exists (map user_dump (users (store w))). split; [reflexivity|].
  induction (users (store w)) as [|u us IH]; simpl; constructor; [|exact IH].
  repeat split. eexists. split; reflexivity.
Qed.

(** ** What [check_session] answers *)

(** X2. [check_session] never reports a session state: for every store
    and every session, the request ends with the [TypeError] that
    Flask-RESTful raises on the pair the method returns (status 500).
    The request changes no row and no session. *)
Theorem check_session_answers_error (w : World) (req : Request) :
  let out := serve SessionCheckResource_get req w in
  fst out = Raise (TypeError "Object of type Response is not JSON serializable") /\
  store (snd out) = store w /\
  same_sessions w (snd out).
Proof.
  unfold serve. rewrite check_session_run. cbn [fst snd durable sess store].
  split; [reflexivity|]. split; [reflexivity|]. apply save_session_same.
Qed.

Lemma query_get_sound (uid : json) (us : list UserAuth) (u : UserAuth) :
  List.find (fun r => col_eqb (JInt (ua_id r)) uid) us = Some u ->
  In u us /\ uid = JInt (ua_id u).
Proof.
  intros Hf. apply List.find_some in Hf. destruct Hf as (Hin & Heq).
  apply col_eqb_eq in Heq. now split.
Qed.

Lemma new_account_fresh (d : DB) (u em : json) (h : string) (r : UserAuth) :
  In r (users d) -> ua_id r <> ua_id (new_account d u em h).
Proof.
  intros Hin. cbn [new_account ua_id].
  pose proof (next_id_above (map ua_id (users d)) (ua_id r) (in_map ua_id _ _ Hin)).
  lia.
Qed.

Section SessionAfterRegistration.

Context `{B : Backend}.

(** X4. Registration logs the new user in: after a registration that
    succeeds (201), the new Account is in the store under an id that no
    other Account has, the session of the client refers to it and holds
    its username and the flag, and the session of no other client is
    changed. *)
Theorem register_logs_in (w : World) (req : Request)
    (u pw em : json) (h : string) :
  getitem (payload req) "username" = Ok u ->
  List.find (fun r => col_eqb (ua_username r) u) (users (store w)) = None ->
  getitem (payload req) "password" = Ok pw ->
  generate_password_hash (entropy req) pw = Ok h ->
  getitem (payload req) "email" = Ok em ->
  let row := new_account (store w) u em h in
  store_check (with_users (users (store w) ++ [row]) (store w)) = None ->
  let out := serve UserAuthResource_post req w in
  fst out = Ok (make_response
                  (message_body "User created and logged in successfully") 201) /\
  users (store (snd out)) = (users (store w) ++ [row])%list /\
  (forall r, In r (users (store w)) -> ua_id r <> ua_id row) /\
  sessions_but (client req) (logged_in_as row (session_of w (client req)))
               w (snd out) /\
  references (session_of (snd out) (client req)) row /\
  session_of (snd out) (client req) !! "username" = Some u /\
  authenticated (session_of (snd out) (client req)).
Proof.
  intros Hu Hf Hpw Hh Hem row Hacc out.
  assert (E : out =
    (Ok (make_response (message_body "User created and logged in successfully") 201),
     {| store := with_users (users (store w) ++ [row]) (store w);
        sessions := save_session (client req)
                      (logged_in_as row (session_of w (client req)))
                      (sessions w) |})).
  { subst out. unfold serve.
    set (c0 := {| pending := store w; durable := store w;
                  sess := session_of w (client req) |}).
    now rewrite (register_run_fresh req c0 u pw em h Hu Hf Hpw Hh Hem Hacc). }
  clearbody out. subst out. cbn [fst snd store users with_users].
  pose proof (save_session_but (client req)
                (logged_in_as row (session_of w (client req))) w
                (with_users (users (store w) ++ [row]) (store w))) as Hbut.
  destruct (logged_in_as_lookup row (session_of w (client req)))
    as (Hid & Hname & Hflag).
  split; [reflexivity|]. split; [reflexivity|].
  split; [intros r; apply new_account_fresh|]. split; [exact Hbut|].
  destruct Hbut as (Hmine & _).
  unfold references, authenticated. rewrite Hmine.
  repeat split; assumption.
Qed.

End SessionAfterRegistration.

(** ** Credentials across requests *)

Lemma remove_account_fresh (us : list UserAuth) (row : UserAuth) :
  (forall r, In r us -> ua_id r <> ua_id row) ->
  remove_account row (us ++ [row]) = us.
Proof.
  intros Hfresh. unfold remove_account. induction us as [|a us IH]; simpl.
  - now rewrite Z.eqb_refl.
  - destruct (Z.eqb_spec (ua_id a) (ua_id row)) as [E|_].
    + now apply Hfresh in E; [|left].
    + simpl. f_equal. apply IH. intros r Hin. apply Hfresh. now right.
Qed.

Lemma find_username_new (u : json) (us : list UserAuth) (row : UserAuth) :
  List.find (fun r => col_eqb (ua_username r) u) us = None ->
  col_eqb (ua_username row) u = true ->
  List.find (fun r => col_eqb (ua_username r) u) (us ++ [row]) = Some row.
Proof.
  intros Hf Hrow. induction us as [|a us IH]; simpl in *.
  - now rewrite Hrow.
  - destruct (col_eqb (ua_username a) u); [discriminate | auto].
Qed.

Section CredentialsAcrossRequests.

Context `{B : Backend}.

(** X5. After a password change that succeeds, a login under the
    username is decided by the new digest alone: it succeeds when the
    hasher verifies the offered password against the new digest and is
    rejected with 401 when it does not, whatever the old digest was. *)
Theorem change_password_then_login (w : World) (req req2 : Request)
    (u p np p2 : json) (row : UserAuth) (h : string) :
  getitem (payload req) "username" = Ok u ->
  List.find (fun r => col_eqb (ua_username r) u) (users (store w)) = Some row ->
  getitem (payload req) "password" = Ok p ->
  check_password_hash (ua_password_hash row) p = Ok true ->
  getitem (payload req) "newPassword" = Ok np ->
  generate_password_hash (entropy req) np = Ok h ->
  store_check (with_users (change_digest row h (users (store w))) (store w)) = None ->
  getitem (payload req2) "username" = Ok u ->
  getitem (payload req2) "password" = Ok p2 ->
  let w1 := snd (serve UserAuthResource_patch req w) in
  let out := serve UserLoginResource_post req2 w1 in
  (check_password_hash h p2 = Ok true ->
   fst out = Ok (make_response (login_view (with_digest h row)) 200)) /\
  (check_password_hash h p2 = Ok false ->
   fst out = Ok (make_response (error_body "Invalid username or password") 401)).
Proof.
  intros Hu Hf Hp Hv Hnp Hh Hacc Hu2 Hp2 w1 out.
  assert (E : store w1 = with_users (change_digest row h (users (store w))) (store w)).
  { subst w1. unfold serve. rewrite (patch_run req _ u Hu). cbn [pending].
    rewrite Hf, Hp, Hv, Hnp, Hh. cbv zeta. now rewrite Hacc. }
  assert (Hf1 : List.find (fun r => col_eqb (ua_username r) u) (users (store w1)) =
                Some (with_digest h row)).
  { rewrite E. cbn [users with_users]. now apply find_change_digest. }
  subst out. unfold serve. rewrite (login_run req2 _ u p2 Hu2 Hp2). cbn [pending].
  rewrite Hf1. cbn [with_digest ua_password_hash].
  split; intros ->; reflexivity.
Qed.

(** X6. A registration followed by the deletion of the new account with
    the password it was registered with (which the hasher verifies
    against the digest it produced) brings the Account table, and the
    whole store, back to what it was, and leaves the client of the
    deletion without a session. *)
Theorem register_then_delete_restores (w : World) (req req2 : Request)
    (u pw em : json) (h : string) :
  getitem (payload req) "username" = Ok u ->
  col_eqb u u = true ->
  List.find (fun r => col_eqb (ua_username r) u) (users (store w)) = None ->
  getitem (payload req) "password" = Ok pw ->
  generate_password_hash (entropy req) pw = Ok h ->
  getitem (payload req) "email" = Ok em ->
  store_check (with_users (users (store w) ++ [new_account (store w) u em h])
                          (store w)) = None ->
  store_check (store w) = None ->
  getitem (payload req2) "username" = Ok u ->
  getitem (payload req2) "password" = Ok pw ->
  check_password_hash h pw = Ok true ->
  let w1 := snd (serve UserAuthResource_post req w) in
  let out := serve UserAuthResource_delete req2 w1 in
  fst out = Ok (make_response (message_body "User deleted successfully") 200) /\
  store (snd out) = store w /\
  session_of (snd out) (client req2) = ∅.
Proof.
  intros Hu Hrefl Hf Hpw Hh Hem Hacc Hacc0 Hu2 Hp2 Hv w1 out.
  set (row := new_account (store w) u em h) in *.
  assert (E : store w1 = with_users (users (store w) ++ [row]) (store w)).
  { subst w1. unfold serve.
    set (c0 := {| pending := store w; durable := store w;
                  sess := session_of w (client req) |}).
    now rewrite (register_run_fresh req c0 u pw em h Hu Hf Hpw Hh Hem Hacc). }
  assert (Hback : with_users (remove_account row (users (store w1))) (store w1) = store w).
  { rewrite E. cbn [users with_users orders order_details products].
    rewrite remove_account_fresh by (intros r; apply new_account_fresh).
    unfold with_users. now destruct (store w). }
  assert (Hf1 : List.find (fun r => col_eqb (ua_username r) u) (users (store w1)) =
                Some row).
  { rewrite E. cbn [users with_users]. exact (find_username_new u _ row Hf Hrefl). }
  assert (Eout : out =
    (Ok (make_response (message_body "User deleted successfully") 200),
     {| store := store w;
        sessions := save_session (client req2) ∅ (sessions w1) |})).
  { subst out. unfold serve. rewrite (delete_run req2 _ u pw Hu2 Hp2). cbn [pending].
    rewrite Hf1. cbn [row new_account ua_password_hash]. rewrite Hv. cbv zeta.
    fold row. rewrite Hback, Hacc0. reflexivity. }
  rewrite Eout. cbn [fst snd store].
  split; [reflexivity|]. split; [reflexivity|].
  apply (save_session_but (client req2) ∅ w1 (store w)).
Qed.

End CredentialsAcrossRequests.

(** ** What the handlers never do *)

Section Frames.

Context `{B : Backend}.

Ltac plain x :=
  lazymatch x with
  | context [match _ with _ => _ end] => fail
  | _ => idtac
  end.

Ltac paths :=
  repeat (match goal with
          | |- context [match store_check ?d with _ => _ end] =>
              destruct (store_check d) eqn:?
          | |- context [match ?x with _ => _ end] => plain x; destruct x eqn:?
          end;
          cbn [fst snd durable pending sess set_pending set_sess with_users users] in *).

Lemma login_run_durable (req : Request) (c : Ctx) :
  durable (snd (UserLoginResource_post req c)) = durable c.
Proof.
  unfold UserLoginResource_post, bind, lift, ret, filter_by_username, session_set.
  paths; reflexivity.
Qed.

(** X7. Login, logout, [check_session] and the list of accounts never
    write to the store: whatever the request and whatever the answer,
    the committed rows after the request are the rows before it. *)
Theorem session_endpoints_never_write (w : World) (req : Request) :
  store (snd (serve UserLoginResource_post req w)) = store w /\
  store (snd (serve UserLogoutResource_post req w)) = store w /\
  store (snd (serve SessionCheckResource_get req w)) = store w /\
  store (snd (serve UserAuthResource_get req w)) = store w.
Proof.
  repeat split.
  - unfold serve. cbn [snd store]. apply login_run_durable.
  - unfold serve. now rewrite check_session_run.
Qed.

(** X8. Account deletion never lets an exception escape: it answers
    every request, whatever the body and whatever the hasher and the
    store raise.  Unless the answer is 200, no row and no session has
    changed; a body that is a JSON object without [username] or without
    [password] is answered with 400. *)
Theorem delete_account_always_answers (w : World) (req : Request) :
  let out := serve UserAuthResource_delete req w in
  (exists resp,
     fst out = Ok resp /\
     (status resp <> 200 -> store (snd out) = store w /\ same_sessions w (snd out))) /\
  (lacks (payload req) "username" \/ lacks (payload req) "password" ->
   fst out = Ok (make_response (error_body "Username and password are required") 400)).
Proof.
  intros out. subst out. split.
  - unfold serve.
    set (c0 := {| pending := store w; durable := store w;
                  sess := session_of w (client req) |}).
    assert (H : exists resp,
               fst (UserAuthResource_delete req c0) = Ok resp /\
               (status resp <> 200 ->
                durable (snd (UserAuthResource_delete req c0)) = durable c0 /\
                sess (snd (UserAuthResource_delete req c0)) = sess c0)).
    { unfold UserAuthResource_delete, catch, bind, lift, ret, filter_by_username,
        delete_user, commit, session_clear.
      paths; eexists; (split; [reflexivity|]); cbn [status make_response];
        intros Hs; try (split; reflexivity); now contradiction Hs. }
    destruct H as (resp & Hr & Hkeep). exists resp. split; [exact Hr|].
    intros Hs. destruct (Hkeep Hs) as (Hd & Hse). cbn [snd store].
    rewrite Hd, Hse. split; [reflexivity | apply save_session_same].
  - intros Hl. unfold serve, UserAuthResource_delete, catch, bind, lift, ret.
    cbn [fst].
    destruct Hl as [(kvs & Hb & Hk) | (kvs & Hb & Hk)]; rewrite Hb; cbn [contains];
      rewrite ?Hk.
    + reflexivity.
    + destruct (assoc "username" kvs); reflexivity.
Qed.

(** X9. Login answers a body that is empty or a JSON object without
    [username] or without [password] with 400, before any lookup, and
    changes no row and no session. *)
Theorem login_missing_field (w : World) (req : Request) :
  payload req = JDict [] \/ lacks (payload req) "username" \/
  lacks (payload req) "password" ->
  let out := serve UserLoginResource_post req w in
  fst out = Ok (make_response (error_body "Username and password are required") 400) /\
  store (snd out) = store w /\
  same_sessions w (snd out).
Proof.
  intros Hl out.
  assert (E : forall c, UserLoginResource_post req c =
                (Ok (make_response (error_body "Username and password are required") 400), c)).
  { intros c. unfold UserLoginResource_post, bind, lift, ret.
    destruct Hl as [Hb | [(kvs & Hb & Hk) | (kvs & Hb & Hk)]]; rewrite Hb.
    - reflexivity.
    - cbn [truthy contains]. destruct kvs; [reflexivity|]. cbn [negb].
      now rewrite Hk.
    - cbn [truthy contains]. destruct kvs; [reflexivity|]. cbn [negb].
      rewrite Hk. destruct (assoc "username" _); reflexivity. }
  subst out. unfold serve. rewrite E. cbn [fst snd durable sess].
  repeat split. apply save_session_same.
Qed.

(** X10. A password change touches nothing but one digest: on every
    request no session changes, and the store is either what it was or
    differs from it by the digest of the Account that the username of
    the body selects, in which case the answer is 200.  In particular a
    body without [newPassword] changes nothing, also when the old
    password verified: the lookup raises [KeyError]. *)
Theorem change_password_frame (w : World) (req : Request) :
  let out := serve UserAuthResource_patch req w in
  same_sessions w (snd out) /\
  (store (snd out) = store w \/
   exists u row h,
     getitem (payload req) "username" = Ok u /\
     List.find (fun r => col_eqb (ua_username r) u) (users (store w)) = Some row /\
     store (snd out) = with_users (change_digest row h (users (store w))) (store w) /\
     fst out = Ok (make_response (message_body "Password updated successfully") 200)) /\
  (forall u row p,
     getitem (payload req) "username" = Ok u ->
     List.find (fun r => col_eqb (ua_username r) u) (users (store w)) = Some row ->
     getitem (payload req) "password" = Ok p ->
     check_password_hash (ua_password_hash row) p = Ok true ->
     lacks (payload req) "newPassword" ->
     fst out = Raise (KeyError "newPassword") /\ store (snd out) = store w).
Proof.
  intros out. subst out. unfold serve.
  set (c0 := {| pending := store w; durable := store w;
                sess := session_of w (client req) |}).
  assert (Hs : sess (snd (UserAuthResource_patch req c0)) = sess c0).
  { unfold UserAuthResource_patch, bind, lift, ret, filter_by_username,
      set_password_hash, commit.
    paths; reflexivity. }
  cbn [fst snd store]. rewrite Hs. split; [apply save_session_same|]. split.
  - destruct (getitem (payload req) "username") as [u|e] eqn:Hu.
    2:{ left. unfold UserAuthResource_patch, bind, lift. now rewrite Hu. }
    rewrite (patch_run req c0 u Hu). cbn [pending c0].
    destruct (List.find _ _) as [row|] eqn:Hf; [|now left].
    destruct (getitem (payload req) "password") as [p|e]; [|now left].
    destruct (check_password_hash _ _) as [[|]|e]; try now left.
    destruct (getitem (payload req) "newPassword") as [np|e]; [|now left].
    destruct (generate_password_hash _ _) as [h|e]; [|now left].
    cbv zeta. destruct (store_check _); [now left|].
    right. exists u, row, h. cbn [fst snd durable]. repeat split; assumption.
  - intros u row p Hu Hf Hp Hv Hl. apply lacks_getitem in Hl.
    rewrite (patch_run req c0 u Hu). cbn [pending c0].
    rewrite Hf, Hp, Hv, Hl. split; reflexivity.
Qed.

End Frames.

(** ** Orders after their creation *)

Lemma order_query_fresh (os : list Order) (o : Order) :
  (forall o', In o' os -> o_id o' <> o_id o) ->
  List.find (fun x => Z.eqb (o_id x) (o_id o)) (os ++ [o]) = Some o.
Proof.
  intros Hfresh. induction os as [|a os IH]; cbn [app List.find].
  - now rewrite Z.eqb_refl.
  - destruct (Z.eqb_spec (o_id a) (o_id o)) as [E|_].
    + now apply Hfresh in E; [|left].
    + apply IH. intros o' Hin. apply Hfresh. now right.
Qed.

Lemma new_order_fresh (d : DB) (uid sid : json) (o' : Order) :
  In o' (orders d) -> o_id o' <> o_id (new_order d uid sid).
Proof.
  intros Hin. cbn [new_order o_id].
  pose proof (next_id_above (map o_id (orders d)) (o_id o') (in_map o_id _ _ Hin)).
  lia.
Qed.

Lemma remove_order_fresh (os : list Order) (o : Order) :
  (forall o', In o' os -> o_id o' <> o_id o) ->
  remove_order (o_id o) (os ++ [o]) = os.
Proof.
  intros Hfresh. unfold remove_order. induction os as [|a os IH]; simpl.
  - now rewrite Z.eqb_refl.
  - destruct (Z.eqb_spec (o_id a) (o_id o)) as [E|_].
    + now apply Hfresh in E; [|left].
    + simpl. f_equal. apply IH. intros o' Hin. apply Hfresh. now right.
Qed.

Lemma cascade_details_other (oid : Z) (ds : list OrderDetail) :
  (forall r, In r ds -> od_order_id r <> oid) -> cascade_details oid ds = ds.
Proof.
  intros Hother. unfold cascade_details. induction ds as [|a ds IH]; simpl; [reflexivity|].
  destruct (Z.eqb_spec (od_order_id a) oid) as [E|_].
  - now apply Hother in E; [|left].
  - simpl. f_equal. apply IH. intros r Hin. apply Hother. now right.
Qed.

Lemma cascade_details_own (oid : Z) (ds : list OrderDetail) :
  (forall r, In r ds -> od_order_id r = oid) -> cascade_details oid ds = [].
Proof.
  intros Hown. unfold cascade_details. induction ds as [|a ds IH]; simpl; [reflexivity|].
  rewrite (Hown a (or_introl eq_refl)), Z.eqb_refl. simpl.
  apply IH. intros r Hin. apply Hown. now right.
Qed.

Lemma cascade_details_app (oid : Z) (ds1 ds2 : list OrderDetail) :
  cascade_details oid (ds1 ++ ds2) =
    (cascade_details oid ds1 ++ cascade_details oid ds2)%list.
Proof. unfold cascade_details. apply List.filter_app. Qed.

Lemma Forall2_right_all {A C : Type} (R : A -> C -> Prop) (P : C -> Prop)
    (l : list A) (l' : list C) :
  Forall2 R l l' -> (forall a c, R a c -> P c) -> forall c, In c l' -> P c.
Proof.
  induction 1 as [|x y l l' Hxy _ IH]; intros HR c Hin; [contradiction|].
  destruct Hin as [<- | Hin]; [now apply (HR x) | now apply IH].
Qed.

Section OrderLifecycle.

Context `{B : Backend}.
Variable on_delete : Z -> list OrderDetail -> list OrderDetail.

Lemma order_delete_run (oid : Z) (req : Request) (c : Ctx) :
  OrderResource_delete on_delete oid req c =
    match List.find (fun o => Z.eqb (o_id o) oid) (orders (pending c)) with
    | None => (Ok not_found, c)
    | Some o =>
        let d := without_order on_delete (o_id o) (pending c) in
        match store_check d with
        | Some e => (Raise e, set_pending d c)
        | None =>
            (Ok (make_response (message_body "Order deleted successfully") 200),
             {| pending := d; durable := d; sess := sess c |})
        end
    end.
Proof.
  unfold OrderResource_delete, bind, order_query_get, ret, delete_order, commit.
  destruct (List.find _ _) as [o|]; [|reflexivity].
  cbn [pending set_pending].
  destruct (store_check _); reflexivity.
Qed.

Lemma order_get_run (oid : Z) (req : Request) (c : Ctx) :
  OrderResource_get oid req c =
    match List.find (fun o => Z.eqb (o_id o) oid) (orders (pending c)) with
    | None => (Ok not_found, c)
    | Some o => (Ok (make_response (order_view (pending c) o) 200), c)
    end.
Proof.
  unfold OrderResource_get, bind, order_query_get, ret, Order_to_dict.
  now destruct (List.find _ _).
Qed.

(** An order creation that answers has committed the new header and rows
    that all carry its id, and its answer is the view of the new order in
    the store it leaves. *)
Lemma serve_order_answer (w : World) (req : Request) (resp : Response) :
  fst (serve OrderResource_post req w) = Ok resp ->
  exists uid sid rows,
    store (snd (serve OrderResource_post req w)) =
      with_order (new_order (store w) uid sid) rows (store w) /\
    resp = make_response
             (order_view (store (snd (serve OrderResource_post req w)))
                         (new_order (store w) uid sid)) 201 /\
    (forall r, In r rows -> od_order_id r = o_id (new_order (store w) uid sid)).
Proof.
  unfold serve. set (c0 := {| pending := store w; durable := store w; sess := _ |}).
  cbn [fst snd store]. rewrite order_run.
  destruct (getitem (payload req) "user_id") as [uid|]; [|discriminate].
  destruct (py_get (payload req) "shipping_info_id") as [sid|]; [|discriminate].
  cbv zeta. set (o := new_order (pending c0) uid sid). set (c1 := set_pending _ c0).
  destruct (store_check (pending c1)); [discriminate|].
  destruct (getitem (payload req) "order_details") as [v|]; [|discriminate].
  destruct (py_iter v) as [items|]; [|discriminate].
  destruct (add_details_run items (o_id o) c1)
    as [(rows & Hrun & Hrows) | (e & c' & Hrun & _)]; rewrite Hrun; [|discriminate].
  cbn [pending set_pending]. destruct (store_check _); [discriminate|].
  cbn [fst snd durable]. intros [= <-]. exists uid, sid, rows.
  repeat split.
  intros r Hin. apply List.in_split in Hin as (l1 & l2 & ->).
  apply Forall2_app_inv_r in Hrows as (i1 & i2 & _ & Hr & _).
  inversion Hr as [|x y l l' Hxy _]; subst. apply Hxy.
Qed.

(** X11. The deletion of an order answers 404 and changes nothing when
    no order has the id.  When one has, and the store accepts the
    deletion, the answer is 200, every order with another id is kept and
    none with the id is left; users and products are untouched.  When the
    store refuses, the error escapes and nothing changes.  No session
    changes in any case. *)
Theorem order_delete_outcomes (w : World) (req : Request) (oid : Z) :
  let out := serve (OrderResource_delete on_delete oid) req w in
  let found := List.find (fun o => Z.eqb (o_id o) oid) (orders (store w)) in
  same_sessions w (snd out) /\
  (found = None -> fst out = Ok not_found /\ store (snd out) = store w) /\
  (forall o, found = Some o ->
     store_check (without_order on_delete oid (store w)) = None ->
     fst out = Ok (make_response (message_body "Order deleted successfully") 200) /\
     store (snd out) = without_order on_delete oid (store w) /\
     (forall o', In o' (orders (store (snd out))) <->
                 In o' (orders (store w)) /\ o_id o' <> oid) /\
     users (store (snd out)) = users (store w) /\
     products (store (snd out)) = products (store w)) /\
  (forall o e, found = Some o ->
     store_check (without_order on_delete oid (store w)) = Some e ->
     fst out = Raise e /\ store (snd out) = store w).
Proof.
  intros out found. subst out found. unfold serve.
  set (c0 := {| pending := store w; durable := store w;
                sess := session_of w (client req) |}).
  rewrite order_delete_run. cbn [pending c0].
  destruct (List.find _ _) as [o|] eqn:Hf.
  - assert (Hid : o_id o = oid).
    { apply List.find_some in Hf. now apply Z.eqb_eq. }
    rewrite Hid. cbv zeta.
    destruct (store_check _) as [e|] eqn:Hc; cbn [fst snd durable sess c0 set_pending].
    + split; [apply save_session_same|]. split; [discriminate|].
      split; [discriminate|]. intros o' e' _ [= <-]. now split.
    + split; [apply save_session_same|]. split; [discriminate|].
      split; [|discriminate]. intros o' _ _.
      split; [reflexivity|]. split; [reflexivity|]. split; [|now split].
      intros x. cbn [store without_order orders]. unfold remove_order.
      rewrite List.filter_In.
      destruct (Z.eqb_spec (o_id x) oid) as [E|E]; cbn [negb]; split.
      -- intros (_ & Hfalse). discriminate.
      -- intros (_ & Hne). contradiction.
      -- intros (Hin & _). now split.
      -- intros (Hin & _). now split.
  - cbn [fst snd durable sess c0].
    split; [apply save_session_same|]. split; [now split|].
    split; [discriminate | discriminate].
Qed.

(** X12. Reading an order changes no row and no session.  The answer is
    404 when no order has the id, and otherwise 200 with the view of an
    order that has the id. *)
Theorem order_get_outcomes (w : World) (req : Request) (oid : Z) :
  let out := serve (OrderResource_get oid) req w in
  store (snd out) = store w /\
  same_sessions w (snd out) /\
  ((forall o, In o (orders (store w)) -> o_id o <> oid) -> fst out = Ok not_found) /\
  (forall o, In o (orders (store w)) -> o_id o = oid ->
     exists o', In o' (orders (store w)) /\ o_id o' = oid /\
                fst out = Ok (make_response (order_view (store w) o') 200)).
Proof.
  intros out. subst out. unfold serve.
  set (c0 := {| pending := store w; durable := store w;
                sess := session_of w (client req) |}).
  rewrite order_get_run. cbn [pending c0].
  destruct (List.find _ _) as [o'|] eqn:Hf; cbn [fst snd durable sess c0].
  - apply List.find_some in Hf as (Hin & Hid). apply Z.eqb_eq in Hid.
    split; [reflexivity|]. split; [apply save_session_same|]. split.
    + intros Hnone. now apply Hnone in Hin.
    + intros _ _ _. now exists o'.
  - split; [reflexivity|]. split; [apply save_session_same|]. split; [reflexivity|].
    intros o Hin Hid. apply (List.find_none _ _ Hf) in Hin.
    apply Z.eqb_neq in Hin. contradiction.
Qed.

(** X13. Reading an order right after its creation returns the body that
    the creation answered with: the id in that body selects the new
    order, and the view is the same. *)
Theorem order_get_after_create (w : World) (req req2 : Request) (b : json) :
  fst (serve OrderResource_post req w) = Ok (make_response b 201) ->
  exists oid,
    getitem b "id" = Ok (JInt oid) /\
    fst (serve (OrderResource_get oid) req2 (snd (serve OrderResource_post req w))) =
      Ok (make_response b 200).
Proof.
  intros Hok.
  destruct (serve_order_answer w req _ Hok) as (uid & sid & rows & Hst & Hresp & _).
  set (o := new_order (store w) uid sid) in *.
  set (w1 := snd (serve OrderResource_post req w)) in *.
  injection Hresp as Hb. exists (o_id o). split; [now rewrite Hb|].
  unfold serve. rewrite order_get_run. cbn [pending].
  rewrite Hst at 1. cbn [orders with_order].
  rewrite order_query_fresh by (intros o'; apply new_order_fresh).
  cbn [fst]. now rewrite Hb.
Qed.

(** X14. When the deletion of an order deletes its rows, creating an
    order and deleting it again brings the store back to what it was,
    provided every row of the store belonged to an order before. *)
Theorem create_then_delete_restores (w : World) (req req2 : Request) (b : json) :
  (forall oid ds, on_delete oid ds = cascade_details oid ds) ->
  details_have_orders (store w) ->
  store_check (store w) = None ->
  fst (serve OrderResource_post req w) = Ok (make_response b 201) ->
  exists oid,
    getitem b "id" = Ok (JInt oid) /\
    let out := serve (OrderResource_delete on_delete oid) req2
                 (snd (serve OrderResource_post req w)) in
    fst out = Ok (make_response (message_body "Order deleted successfully") 200) /\
    store (snd out) = store w.
Proof.
  intros Hcascade Hdho Hacc Hok.
  destruct (serve_order_answer w req _ Hok) as (uid & sid & rows & Hst & Hresp & Hrows).
  set (o := new_order (store w) uid sid) in *.
  set (w1 := snd (serve OrderResource_post req w)) in *.
  injection Hresp as Hb. exists (o_id o). split; [now rewrite Hb|].
  assert (Hback : without_order on_delete (o_id o) (store w1) = store w).
  { rewrite Hst. unfold without_order. cbn [with_order users orders order_details products].
    rewrite remove_order_fresh by (intros o'; apply new_order_fresh).
    rewrite Hcascade, cascade_details_app.
    rewrite (cascade_details_own _ rows Hrows), app_nil_r.
    rewrite cascade_details_other; [now destruct (store w)|].
    intros r Hin Heq. destruct (Hdho r Hin) as (o' & Hin' & Hid).
    apply (new_order_fresh (store w) uid sid o' Hin'). fold o. congruence. }
  assert (Hfind : List.find (fun x => Z.eqb (o_id x) (o_id o)) (orders (store w1)) =
                  Some o).
  { rewrite Hst. cbn [orders with_order].
    apply order_query_fresh. intros o'. apply new_order_fresh. }
  cbv zeta. unfold serve. rewrite order_delete_run. cbn [pending].
  rewrite Hfind. cbv zeta. rewrite Hback, Hacc. split; reflexivity.
Qed.

End OrderLifecycle.

(** ** Rows and their orders *)

Section Referential.

Context `{B : Backend}.

Ltac plain x :=
  lazymatch x with
  | context [match _ with _ => _ end] => fail
  | _ => idtac
  end.

Ltac paths :=
  repeat (match goal with
          | |- context [match store_check ?d with _ => _ end] =>
              destruct (store_check d) eqn:?
          | |- context [match ?x with _ => _ end] => plain x; destruct x eqn:?
          end;
          cbn [fst snd durable pending sess set_pending set_sess with_users
               users orders order_details] in *).

(** The handlers on accounts and sessions do not touch the tables of the
    orders. *)
Lemma handler_orders_frame (ep : endpoint) (req : Request) (c : Ctx) :
  ep <> CreateOrder ->
  pending c = durable c ->
  orders (durable (snd (handler ep req c))) = orders (durable c) /\
  order_details (durable (snd (handler ep req c))) = order_details (durable c).
Proof.
  intros Hep Hpd. destruct ep; unfold handler; [| | | | | | contradiction].
  - unfold UserAuthResource_post, bind, lift, ret, filter_by_username, add_user,
      commit, session_set.
    paths; rewrite <- ?Hpd; split; reflexivity.
  - unfold UserAuthResource_delete, catch, bind, lift, ret, filter_by_username,
      delete_user, commit, session_clear.
    paths; rewrite <- ?Hpd; split; reflexivity.
  - unfold UserAuthResource_patch, bind, lift, ret, filter_by_username,
      set_password_hash, commit.
    paths; rewrite <- ?Hpd; split; reflexivity.
  - unfold UserLoginResource_post, bind, lift, ret, filter_by_username, session_set.
    paths; split; reflexivity.
  - split; reflexivity.
  - rewrite check_session_run. split; reflexivity.
Qed.

(** X15. Every request to the handlers of accounts, sessions and order
    creation keeps the rows with their orders: when every OrderDetail row
    of the store belongs to an Order before the request, so it does after
    it.  The deletion of an order keeps this too when it deletes the rows
    of the order. *)
Theorem details_keep_their_orders (w : World) (req : Request) :
  details_have_orders (store w) ->
  (forall ep, details_have_orders (store (snd (serve (handler ep) req w)))) /\
  (forall oid,
     details_have_orders
       (store (snd (serve (OrderResource_delete cascade_details oid) req w)))).
Proof.
  intros Hdho. split.
  - intros ep. destruct (endpoint_eq_dec ep CreateOrder) as [-> | Hne].
    + unfold handler.
      destruct (serve_order_cases w req)
        as (_ & [(e & _ & ->) |
                 (uid & sid & v & items & rows & b & _ & _ & _ & _ & _ & -> & Hrows)]);
        [exact Hdho|].
      intros r Hin. cbn [with_order orders order_details] in *.
      apply in_app_or in Hin as [Hin | Hin].
      * destruct (Hdho r Hin) as (o & Ho & Hid). exists o.
        split; [apply in_or_app; now left | exact Hid].
      * exists (new_order (store w) uid sid).
        split; [apply in_or_app; right; now left|].
        symmetry.
        apply (Forall2_right_all _ (fun r => od_order_id r = _) _ _ Hrows); [|exact Hin].
        intros a c Hac. apply Hac.
    + unfold serve. cbn [snd store].
      destruct (handler_orders_frame ep req
                  {| pending := store w; durable := store w;
                     sess := session_of w (client req) |} Hne eq_refl) as (Ho & Hd).
      intros r Hin. rewrite Hd in Hin. rewrite Ho. exact (Hdho r Hin).
  - intros oid. unfold serve. rewrite order_delete_run. cbn [pending].
    destruct (List.find _ _) as [o|] eqn:Hf; [|exact Hdho].
    apply List.find_some in Hf as (_ & Hid). apply Z.eqb_eq in Hid. rewrite Hid.
    cbv zeta. destruct (store_check _); cbn [snd durable set_pending store];
      [exact Hdho|].
    intros r Hin. cbn [without_order orders order_details] in *.
    unfold cascade_details in Hin. apply List.filter_In in Hin as (Hin & Hne).
    destruct (Hdho r Hin) as (o' & Ho' & Hid'). exists o'. split; [|exact Hid'].
    unfold remove_order. apply List.filter_In. split; [exact Ho'|].
    now rewrite Hid'.
Qed.

End Referential.

(** ** The further properties at concrete requests *)

(** X4 at the registration of alice. *)
Lemma register_logs_in_witness :
  let req := request 1 (registration "alice" "alice@example.com" "secret1") in
  let out := serve (@UserAuthResource_post plain_backend) req fresh_world in
  (getitem (payload req) "username" = Ok (JStr "alice") /\
   List.find (fun r => col_eqb (ua_username r) (JStr "alice"))
             (users (store fresh_world)) = None) /\
  users (store (snd out)) = [alice_row] /\
  references (session_of (snd out) 1) alice_row /\
  authenticated (session_of (snd out) 1).
Proof.
  intros req out.
  destruct (@register_logs_in plain_backend fresh_world req
              (JStr "alice") (JStr "secret1") (JStr "alice@example.com") "secret1$salt"
              eq_refl eq_refl eq_refl eq_refl eq_refl eq_refl)
    as (_ & Hrows & _ & _ & Href & _ & Hauth).
  split; [split; reflexivity|]. split; [exact Hrows|]. split; [exact Href | exact Hauth].
Defined.

(** X5 at the change of alice's password from secret1 to secret2. *)
Lemma change_password_then_login_witness :
  let change := request 1 (JDict [("username", JStr "alice");
                                  ("password", JStr "secret1");
                                  ("newPassword", JStr "secret2")]) in
  let w1 := snd (serve (@UserAuthResource_patch plain_backend) change alice_world) in
  let login p := fst (serve (@UserLoginResource_post plain_backend)
                        (request 2 (credentials "alice" p)) w1) in
  (check_password_hash (Backend := plain_backend) "secret2$salt" (JStr "secret2") = Ok true /\
   check_password_hash (Backend := plain_backend) "secret2$salt" (JStr "secret1") = Ok false) /\
  login "secret2" =
    Ok (make_response (login_view (with_digest "secret2$salt" alice_row)) 200) /\
  login "secret1" =
    Ok (make_response (error_body "Invalid username or password") 401).
Proof.
  intros change w1 login.
  destruct (@change_password_then_login plain_backend alice_world change
              (request 2 (credentials "alice" "secret2"))
              (JStr "alice") (JStr "secret1") (JStr "secret2") (JStr "secret2")
              alice_row "secret2$salt"
              eq_refl eq_refl eq_refl eq_refl eq_refl eq_refl eq_refl eq_refl eq_refl)
    as (Hnew & _).
  destruct (@change_password_then_login plain_backend alice_world change
              (request 2 (credentials "alice" "secret1"))
              (JStr "alice") (JStr "secret1") (JStr "secret2") (JStr "secret1")
              alice_row "secret2$salt"
              eq_refl eq_refl eq_refl eq_refl eq_refl eq_refl eq_refl eq_refl eq_refl)
    as (_ & Hold).
  split; [split; reflexivity|]. split; [exact (Hnew eq_refl) | exact (Hold eq_refl)].
Defined.

(** X6 at the registration of alice and the deletion of her account. *)
Lemma register_then_delete_restores_witness :
  let req := request 1 (registration "alice" "alice@example.com" "secret1") in
  let req2 := request 1 (credentials "alice" "secret1") in
  let out := serve (@UserAuthResource_delete plain_backend) req2
               (snd (serve (@UserAuthResource_post plain_backend) req fresh_world)) in
  (col_eqb (JStr "alice") (JStr "alice") = true /\
   check_password_hash (Backend := plain_backend) "secret1$salt" (JStr "secret1") = Ok true) /\
  fst out = Ok (make_response (message_body "User deleted successfully") 200) /\
  store (snd out) = store fresh_world /\
  session_of (snd out) 1 = ∅.
Proof.
  intros req req2 out.
  split; [split; reflexivity|].
  exact (@register_then_delete_restores plain_backend fresh_world req req2
           (JStr "alice") (JStr "secret1") (JStr "alice@example.com") "secret1$salt"
           eq_refl eq_refl eq_refl eq_refl eq_refl eq_refl eq_refl eq_refl
           eq_refl eq_refl eq_refl).
Defined.

(** X8 at a deletion without a password. *)
Lemma delete_account_always_answers_witness :
  let req := request 1 (JDict [("username", JStr "alice")]) in
  lacks (payload req) "password" /\
  fst (serve (@UserAuthResource_delete plain_backend) req alice_world) =
    Ok (make_response (error_body "Username and password are required") 400).
Proof.
  intros req.
  assert (L : lacks (payload req) "password") by (eexists; split; reflexivity).
  split; [exact L|].
  destruct (@delete_account_always_answers plain_backend alice_world req) as (_ & H).
  apply H. now right.
Defined.

(** X9 at a login without a password. *)
Lemma login_missing_field_witness :
  let req := request 1 (JDict [("username", JStr "alice")]) in
  lacks (payload req) "password" /\
  fst (serve (@UserLoginResource_post plain_backend) req alice_world) =
    Ok (make_response (error_body "Username and password are required") 400) /\
  store (snd (serve (@UserLoginResource_post plain_backend) req alice_world)) =
    store alice_world.
Proof.
  intros req.
  assert (L : lacks (payload req) "password") by (eexists; split; reflexivity).
  split; [exact L|].
  destruct (@login_missing_field plain_backend alice_world req
              (or_intror (or_intror L))) as (H1 & H2 & _).
  split; assumption.
Defined.

(** X10 at a password change without the new password. *)
Lemma change_password_frame_witness :
  let req := request 1 (credentials "alice" "secret1") in
  let out := serve (@UserAuthResource_patch plain_backend) req alice_world in
  lacks (payload req) "newPassword" /\
  fst out = Raise (KeyError "newPassword") /\
  store (snd out) = store alice_world.
Proof.
  intros req out.
  assert (L : lacks (payload req) "newPassword") by (eexists; split; reflexivity).
  split; [exact L|].
  destruct (@change_password_frame plain_backend alice_world req) as (_ & _ & H).
  exact (H (JStr "alice") alice_row (JStr "secret1") eq_refl eq_refl eq_refl eq_refl L).
Defined.

Lemma order_world_store :
  orders (store order_world) =
    [{| o_id := 1; o_user_id := JInt 1; o_shipping_info_id := JNull |}] /\
  order_details (store order_world) =
    [{| od_id := 1; od_order_id := 1; od_product_id := JInt 7; od_quantity := JInt 2 |}].
Proof. split; reflexivity. Qed.

Lemma order_world_details_have_orders : details_have_orders (store order_world).
Proof.
  intros r Hin. destruct order_world_store as (Ho & Hd).
  rewrite Hd in Hin. destruct Hin as [<- | []].
  eexists. rewrite Ho. split; [now left | reflexivity].
Qed.

(** X11 at the deletion of order 1 and of the missing order 5. *)
Lemma order_delete_outcomes_witness :
  let delete oid := serve (@OrderResource_delete plain_backend cascade_details oid)
                      (request 1 JNull) order_world in
  (fst (delete 5) = Ok not_found /\ store (snd (delete 5)) = store order_world) /\
  (fst (delete 1) =
     Ok (make_response (message_body "Order deleted successfully") 200) /\
   orders (store (snd (delete 1))) = []).
Proof.
  intros delete.
  destruct (@order_delete_outcomes plain_backend cascade_details order_world
              (request 1 JNull) 5) as (_ & Hmissing & _).
  destruct (@order_delete_outcomes plain_backend cascade_details order_world
              (request 1 JNull) 1) as (_ & _ & Hfound & _).
  split; [exact (Hmissing eq_refl)|].
  destruct (Hfound _ eq_refl eq_refl) as (H1 & H2 & _).
  split; [exact H1|]. fold (delete 1) in H2. now rewrite H2.
Defined.

(** X12 at order 1 and at the missing order 5. *)
Lemma order_get_outcomes_witness :
  let get oid := serve (OrderResource_get oid) (request 1 JNull) order_world in
  fst (get 5) = Ok not_found /\
  exists o, o_id o = 1 /\
            fst (get 1) = Ok (make_response (order_view (store order_world) o) 200).
Proof.
  intros get.
  destruct (order_get_outcomes order_world (request 1 JNull) 5) as (_ & _ & Hmissing & _).
  destruct (order_get_outcomes order_world (request 1 JNull) 1) as (_ & _ & _ & Hfound).
  split.
  - apply Hmissing. intros o Hin. destruct order_world_store as (Ho & _).
    rewrite Ho in Hin. destruct Hin as [<- | []]. discriminate.
  - destruct (Hfound {| o_id := 1; o_user_id := JInt 1; o_shipping_info_id := JNull |})
      as (o & _ & Hid & Hout); [now left | reflexivity |].
    now exists o.
Defined.

(** X13 and X14 at the order of two units of product 7. *)
Lemma order_get_after_create_witness :
  let req := request 1 (order_body 1 [item 7 2]) in
  let out := serve (@OrderResource_post plain_backend) req shop_world in
  exists b oid,
    fst out = Ok (make_response b 201) /\
    getitem b "id" = Ok (JInt oid) /\
    fst (serve (OrderResource_get oid) (request 2 JNull) (snd out)) =
      Ok (make_response b 200).
Proof.
  intros req out. eexists.
  destruct (@order_get_after_create plain_backend shop_world req (request 2 JNull) _
              eq_refl) as (oid & Hid & Hget).
  exists oid. split; [reflexivity|]. split; assumption.
Defined.

Lemma create_then_delete_restores_witness :
  let req := request 1 (order_body 1 [item 7 2]) in
  let out := serve (@OrderResource_post plain_backend) req shop_world in
  (details_have_orders (store shop_world) /\
   store_check (Backend := plain_backend) (store shop_world) = None) /\
  exists b oid,
    fst out = Ok (make_response b 201) /\
    getitem b "id" = Ok (JInt oid) /\
    store (snd (serve (@OrderResource_delete plain_backend cascade_details oid)
                  (request 1 JNull) (snd out))) = store shop_world.
Proof.
  intros req out.
  assert (Hdho : details_have_orders (store shop_world)).
  { intros r Hin. destruct Hin. }
  split; [split; [exact Hdho | reflexivity]|]. eexists.
  destruct (@create_then_delete_restores plain_backend cascade_details shop_world req
              (request 1 JNull) _ (fun _ _ => eq_refl) Hdho eq_refl eq_refl)
    as (oid & Hid & _ & Hback).
  exists oid. split; [reflexivity|]. split; assumption.
Defined.

(** X15 at a login and at the deletion of order 1, in the shop with its
    one order. *)
Lemma details_keep_their_orders_witness :
  details_have_orders (store order_world) /\
  details_have_orders
    (store (snd (serve (@handler plain_backend Login)
                   (request 2 (credentials "alice" "secret1")) order_world))) /\
  details_have_orders
    (store (snd (serve (@OrderResource_delete plain_backend cascade_details 1)
                   (request 2 (credentials "alice" "secret1")) order_world))).
Proof.
  destruct (@details_keep_their_orders plain_backend order_world
              (request 2 (credentials "alice" "secret1"))
              order_world_details_have_orders) as (Hep & Hdel).
  split; [exact order_world_details_have_orders|].
  split; [exact (Hep Login) | exact (Hdel 1)].
Defined.

(** When the deletion of an order leaves its rows, they are left without
    an order. *)
Example order_delete_without_cascade :
  ~ details_have_orders
      (store (snd (serve (@OrderResource_delete plain_backend (fun _ ds => ds) 1)
                     (request 1 JNull) order_world))).
Proof.
  intros H.
  destruct (H {| od_id := 1; od_order_id := 1;
                 od_product_id := JInt 7; od_quantity := JInt 2 |})
    as (o & Hin & _); [now left|].
  destruct Hin.
Qed.

(** ** Shipping information *)

Lemma sbind_session_get {C : Type} (key : string) (f : json -> SM C) (k : Ctx)
    (p d : list ShippingInfo) :
  sbind (on_core (session_get key)) f
        {| core := k; ship_pending := p; ship_durable := d |} =
  f (default JNull (sess k !! key))
    {| core := k; ship_pending := p; ship_durable := d |}.
Proof. reflexivity. Qed.

Lemma sbind_query_get {C : Type} (uid : json) (f : option UserAuth -> SM C) (k : Ctx)
    (p d : list ShippingInfo) :
  sbind (on_core (query_get uid)) f
        {| core := k; ship_pending := p; ship_durable := d |} =
  f (List.find (fun r => col_eqb (JInt (ua_id r)) uid) (users (pending k)))
    {| core := k; ship_pending := p; ship_durable := d |}.
Proof. reflexivity. Qed.

Lemma sbind_lift {A C : Type} (r : result A) (f : A -> SM C) (k : Ctx)
    (p d : list ShippingInfo) :
  sbind (on_core (lift r)) f {| core := k; ship_pending := p; ship_durable := d |} =
  match r with
  | Ok a => f a {| core := k; ship_pending := p; ship_durable := d |}
  | Raise e => (Raise e, {| core := k; ship_pending := p; ship_durable := d |})
  end.
Proof. now destruct r. Qed.

Section Shipping.

Context `{B : Backend}.
Variable ship_check : list ShippingInfo -> option exn.

Lemma shipping_post_run (req : Request) (k : Ctx) (p d : list ShippingInfo) :
  ShippingInfoResource_post ship_check req
    {| core := k; ship_pending := p; ship_durable := d |} =
  let c := {| core := k; ship_pending := p; ship_durable := d |} in
  let uid := default JNull (sess k !! "user_id") in
  if negb (truthy uid)
  then (Ok (make_response (error_body "Authentication required") 401), c)
  else
    match List.find (fun r => col_eqb (JInt (ua_id r)) uid) (users (pending k)) with
    | None => (Ok (make_response (error_body "User not found") 404), c)
    | Some _ =>
    match getitem (payload req) "address_line1" with
    | Raise e => (Raise e, c)
    | Ok a1 =>
    match py_get_default (payload req) "address_line2" (JStr "") with
    | Raise e => (Raise e, c)
    | Ok a2 =>
    match getitem (payload req) "city" with
    | Raise e => (Raise e, c)
    | Ok city =>
    match getitem (payload req) "state" with
    | Raise e => (Raise e, c)
    | Ok state =>
    match getitem (payload req) "postal_code" with
    | Raise e => (Raise e, c)
    | Ok postal =>
    match getitem (payload req) "country" with
    | Raise e => (Raise e, c)
    | Ok country =>
    match getitem (payload req) "phone_number" with
    | Raise e => (Raise e, c)
    | Ok phone =>
        let row := {| si_id := next_id (map si_id p); si_user_id := uid;
                      si_address_line1 := a1; si_address_line2 := a2;
                      si_city := city; si_state := state; si_postal_code := postal;
                      si_country := country; si_phone_number := phone |} in
        let p' := (p ++ [row])%list in
        match store_check (pending k) with
        | Some e => (Raise e, {| core := k; ship_pending := p'; ship_durable := d |})
        | None =>
        match ship_check p' with
        | Some e => (Raise e, {| core := k; ship_pending := p'; ship_durable := d |})
        | None =>
            (Ok (make_response (message_body "Shipping info added successfully") 201),
             {| core := {| pending := pending k; durable := pending k; sess := sess k |};
                ship_pending := p'; ship_durable := p' |})
        end end
    end end end end end end end
    end.
Proof.
  unfold ShippingInfoResource_post. rewrite sbind_session_get. cbv zeta.
  destruct (negb (truthy _)); [reflexivity|].
  rewrite sbind_query_get. destruct (List.find _ _); [|reflexivity].
  rewrite sbind_lift. destruct (getitem (payload req) "address_line1"); [|reflexivity].
  rewrite sbind_lift. destruct (py_get_default _ _ _); [|reflexivity].
  rewrite sbind_lift. destruct (getitem (payload req) "city"); [|reflexivity].
  rewrite sbind_lift. destruct (getitem (payload req) "state"); [|reflexivity].
  rewrite sbind_lift. destruct (getitem (payload req) "postal_code"); [|reflexivity].
  rewrite sbind_lift. destruct (getitem (payload req) "country"); [|reflexivity].
  rewrite sbind_lift. destruct (getitem (payload req) "phone_number"); [|reflexivity].
  unfold sbind, add_shipping, shop_commit, sret, set_ship_pending.
  cbn [core ship_pending ship_durable].
  destruct (store_check _); [reflexivity|]. destruct (ship_check _); reflexivity.
Qed.

(** X16. A shipping address is written only for the user of the session.
    On every request the accounts, the orders and the sessions are left
    as they are, and the shipping table is either left as it is or gets
    one new row; in the latter case the answer is 201, the session holds
    the non-zero id of an Account of the store, and the row carries that
    id as its owner (a [user_id] in the body plays no role) and the
    fields of the body.  Without a user id in the session the answer is
    401, and with the id of an Account that is not in the store it is
    404. *)
Theorem shipping_post_owner (w : ShopWorld) (req : Request) :
  let out := serve_shop (ShippingInfoResource_post ship_check) req w in
  let uid := default JNull (session_of (base w) (client req) !! "user_id") in
  same_base w (snd out) /\
  (shipping_infos (snd out) = shipping_infos w \/
   exists u row,
     In u (users (store (base w))) /\ ua_id u <> 0 /\ uid = JInt (ua_id u) /\
     shipping_infos (snd out) = (shipping_infos w ++ [row])%list /\
     shipping_row_of (payload req) (JInt (ua_id u)) row /\
     fst out = Ok (make_response (message_body "Shipping info added successfully") 201)) /\
  (truthy uid = false ->
   fst out = Ok (make_response (error_body "Authentication required") 401)) /\
  (truthy uid = true ->
   List.find (fun r => col_eqb (JInt (ua_id r)) uid) (users (store (base w))) = None ->
   fst out = Ok (make_response (error_body "User not found") 404)).
Proof.
  intros out uid. subst out. unfold serve_shop. rewrite shipping_post_run.
  cbn [sess pending]. fold uid. cbv zeta. clearbody uid.
  destruct (truthy uid) eqn:Ht; cbn [negb].
  2:{ cbn [fst snd core durable sess ship_durable].
      split; [split; [reflexivity | apply save_session_same]|].
      split; [now left|]. split; [reflexivity | discriminate]. }
  destruct (List.find _ _) as [u|] eqn:Hf.
  2:{ cbn [fst snd core durable sess ship_durable].
      split; [split; [reflexivity | apply save_session_same]|].
      split; [now left|]. split; [discriminate | reflexivity]. }
  destruct (query_get_sound _ _ _ Hf) as (Hin & ->).
  assert (Hnz : ua_id u <> 0).
  { intros Hz. rewrite Hz in Ht. discriminate. }
  assert (Hrest : forall (e : exn) (c : ShopCtx) (P : Prop),
    ship_durable c = shipping_infos w ->
    durable (core c) = store (base w) ->
    sess (core c) = session_of (base w) (client req) ->
    same_base w
      {| base := {| store := durable (core c);
                    sessions := save_session (client req) (sess (core c))
                                  (sessions (base w)) |};
         shipping_infos := ship_durable c |} /\
    (ship_durable c = shipping_infos w \/ P) /\
    (true = false -> (@Raise Response e) =
        Ok (make_response (error_body "Authentication required") 401)) /\
    (true = true -> Some u = None -> (@Raise Response e) =
        Ok (make_response (error_body "User not found") 404))).
  { intros e c P Hd Hc Hs. rewrite Hc, Hs.
    split; [split; [reflexivity | apply save_session_same]|].
    split; [now left|]. split; discriminate. }
  destruct (getitem (payload req) "address_line1") as [a1|e] eqn:H1;
    [|now apply Hrest].
  destruct (py_get_default (payload req) "address_line2" (JStr "")) as [a2|e] eqn:H2;
    [|now apply Hrest].
  destruct (getitem (payload req) "city") as [city|e] eqn:H3; [|now apply Hrest].
  destruct (getitem (payload req) "state") as [state|e] eqn:H4; [|now apply Hrest].
  destruct (getitem (payload req) "postal_code") as [postal|e] eqn:H5;
    [|now apply Hrest].
  destruct (getitem (payload req) "country") as [country|e] eqn:H6; [|now apply Hrest].
  destruct (getitem (payload req) "phone_number") as [phone|e] eqn:H7;
    [|now apply Hrest].
  destruct (store_check (store (base w))) as [e|]; [now apply Hrest|].
  destruct (ship_check _) as [e|]; [now apply Hrest|].
  cbn [fst snd core durable sess ship_durable].
  split; [split; [reflexivity | apply save_session_same]|].
  split; [|split; discriminate].
  right. exists u. eexists. repeat split; try eassumption; reflexivity.
Qed.

(** X17. With the user of the session in the store, a body that is a
    JSON object without one of the six required fields makes the key
    lookup raise [KeyError] for a field that the body lacks, unhandled,
    and nothing is written.  [address_line2] is not required: when only
    it is missing (and the store accepts the row) the answer is 201 and
    the new row has the empty string there. *)
Theorem shipping_post_missing_field (w : ShopWorld) (req : Request) (u : UserAuth) :
  session_of (base w) (client req) !! "user_id" = Some (JInt (ua_id u)) ->
  ua_id u <> 0 ->
  List.find (fun r => col_eqb (JInt (ua_id r)) (JInt (ua_id u)))
            (users (store (base w))) = Some u ->
  let out := serve_shop (ShippingInfoResource_post ship_check) req w in
  (forall k,
     In k ["address_line1"; "city"; "state"; "postal_code"; "country"; "phone_number"] ->
     lacks (payload req) k ->
     shipping_infos (snd out) = shipping_infos w /\
     exists k', lacks (payload req) k' /\ fst out = Raise (KeyError k')) /\
  (forall a1 city state postal country phone,
     getitem (payload req) "address_line1" = Ok a1 ->
     lacks (payload req) "address_line2" ->
     getitem (payload req) "city" = Ok city ->
     getitem (payload req) "state" = Ok state ->
     getitem (payload req) "postal_code" = Ok postal ->
     getitem (payload req) "country" = Ok country ->
     getitem (payload req) "phone_number" = Ok phone ->
     store_check (store (base w)) = None ->
     (forall l, ship_check l = None) ->
     fst out = Ok (make_response (message_body "Shipping info added successfully") 201) /\
     exists row,
       shipping_infos (snd out) = (shipping_infos w ++ [row])%list /\
       si_address_line2 row = JStr "").
Proof.
  intros Hs Hnz Hf out. subst out. unfold serve_shop. rewrite shipping_post_run.
  cbn [sess pending]. rewrite Hs. cbn [default from_option]. unfold id. cbv zeta.
  cbn [truthy]. destruct (Z.eqb_spec (ua_id u) 0) as [|_]; [contradiction|].
  cbn [negb]. rewrite Hf. split.
  - intros k Hk (kvs & Hd & Hlack). rewrite Hd. cbn [getitem py_get_default].
    assert (Hl : forall k', assoc k' kvs = None -> lacks (JDict kvs) k')
      by (intros k' Hk'; now exists kvs).
    destruct (assoc "address_line1" kvs) eqn:H1;
      [|cbn [fst snd ship_durable]; split; [reflexivity | eauto]].
    destruct (assoc "city" kvs) eqn:H2;
      [|cbn [fst snd ship_durable]; split; [reflexivity | eauto]].
    destruct (assoc "state" kvs) eqn:H3;
      [|cbn [fst snd ship_durable]; split; [reflexivity | eauto]].
    destruct (assoc "postal_code" kvs) eqn:H4;
      [|cbn [fst snd ship_durable]; split; [reflexivity | eauto]].
    destruct (assoc "country" kvs) eqn:H5;
      [|cbn [fst snd ship_durable]; split; [reflexivity | eauto]].
    destruct (assoc "phone_number" kvs) eqn:H6;
      [|cbn [fst snd ship_durable]; split; [reflexivity | eauto]].
    exfalso. simpl in Hk.
    destruct Hk as [<-|[<-|[<-|[<-|[<-|[<-|[]]]]]]]; congruence.
  - intros a1 city state postal country phone H1 (kvs & Hd & H2) H3 H4 H5 H6 H7 Hc1 Hc2.
    assert (Ha2 : py_get_default (payload req) "address_line2" (JStr "") =
                  Ok (JStr "")).
    { rewrite Hd. cbn [py_get_default]. now rewrite H2. }
    rewrite H1, Ha2, H3, H4, H5, H6, H7, Hc1, Hc2. cbn [fst snd ship_durable].
    split; [reflexivity|]. eexists. split; reflexivity.
Qed.

End Shipping.

(** *** The patch of a shipping address *)

Lemma patch_fields_dict (kvs : list (string * json)) (r : ShippingInfo) :
  patch_fields shipping_fields (JDict kvs) r =
    let set field r :=
      match assoc field kvs with
      | Some v => si_setattr field v r
      | None => r
      end in
    Ok (set "phone_number" (set "country" (set "postal_code" (set "state"
         (set "city" (set "address_line2" (set "address_line1" r))))))).
Proof.
  unfold shipping_fields. cbn [patch_fields contains getitem].
  repeat (match goal with
          | |- context [assoc ?k kvs] => destruct (assoc k kvs)
          end); reflexivity.
Qed.

Lemma patch_fields_unkeyed (d : json) (r r' : ShippingInfo) :
  (forall kvs, d <> JDict kvs) ->
  patch_fields shipping_fields d r = Ok r' ->
  r' = r /\ forall field, In field shipping_fields -> contains field d = Ok false.
Proof.
  intros Hd. unfold shipping_fields. cbn [patch_fields].
  destruct d; cbn [contains getitem]; try discriminate.
  - repeat (match goal with
            | |- context [str_contains ?k s] => destruct (str_contains k s) eqn:?
            end; try discriminate).
    intros [= <-]. split; [reflexivity|].
    intros field Hin. simpl in Hin. f_equal.
    repeat (destruct Hin as [<- | Hin]; [assumption|]). contradiction.
  - repeat (match goal with
            | |- context [existsb (is_str ?k) items] =>
                destruct (existsb (is_str k) items) eqn:?
            end; try discriminate).
    intros [= <-]. split; [reflexivity|].
    intros field Hin. simpl in Hin. f_equal.
    repeat (destruct Hin as [<- | Hin]; [assumption|]). contradiction.
  - now contradiction (Hd entries).
Qed.

Lemma patch_fields_spec (d : json) (r r' : ShippingInfo) :
  patch_fields shipping_fields d r = Ok r' -> patched_with d r r'.
Proof.
  destruct d as [| | | |l|kvs].
  1-5: intros H; apply patch_fields_unkeyed in H as (-> & _); [|discriminate];
       (split; [reflexivity|]); (split; [reflexivity|]); intros field _; reflexivity.
  rewrite patch_fields_dict. cbv zeta. intros [= <-].
  split; [|split].
  - repeat (match goal with
            | |- context [assoc ?k kvs] => destruct (assoc k kvs)
            end); reflexivity.
  - repeat (match goal with
            | |- context [assoc ?k kvs] => destruct (assoc k kvs)
            end); reflexivity.
  - intros field Hin. simpl in Hin. cbn [getitem].
    repeat (destruct Hin as [<- | Hin];
            [repeat (match goal with
                     | |- context [assoc ?k kvs] => destruct (assoc k kvs)
                     end); reflexivity|]).
    contradiction.
Qed.

Lemma shipping_info_ext (r1 r2 : ShippingInfo) :
  si_id r1 = si_id r2 ->
  si_user_id r1 = si_user_id r2 ->
  (forall field, In field shipping_fields -> si_getattr field r1 = si_getattr field r2) ->
  r1 = r2.
Proof.
  intros Hid Huid Hf.
  pose proof (Hf "address_line1" ltac:(simpl; tauto)) as H1.
  pose proof (Hf "address_line2" ltac:(simpl; tauto)) as H2.
  pose proof (Hf "city" ltac:(simpl; tauto)) as H3.
  pose proof (Hf "state" ltac:(simpl; tauto)) as H4.
  pose proof (Hf "postal_code" ltac:(simpl; tauto)) as H5.
  pose proof (Hf "country" ltac:(simpl; tauto)) as H6.
  pose proof (Hf "phone_number" ltac:(simpl; tauto)) as H7.
  destruct r1, r2. cbn in *. congruence.
Qed.

Lemma patch_fields_idem (d : json) (r r' : ShippingInfo) :
  patch_fields shipping_fields d r = Ok r' ->
  patch_fields shipping_fields d r' = Ok r'.
Proof.
  destruct d as [| | | |l|kvs].
  1-5: intros H; pose proof H as H'; apply patch_fields_unkeyed in H' as (-> & _);
       [exact H | discriminate].
  intros Hp. apply patch_fields_spec in Hp as (Hid & Huid & Hf).
  destruct (patch_fields shipping_fields (JDict kvs) r') as [r''|e] eqn:Hp';
    [|rewrite patch_fields_dict in Hp'; discriminate].
  f_equal. apply patch_fields_spec in Hp' as (Hid' & Huid' & Hf').
  apply shipping_info_ext; [assumption | assumption |].
  intros field Hin. rewrite (Hf' field Hin), (Hf field Hin).
  now destruct (getitem (JDict kvs) field).
Qed.

Lemma shipping_info_of_replace (u : UserAuth) (r r' : ShippingInfo)
    (l : list ShippingInfo) :
  shipping_info_of u l = Some r ->
  si_id r' = si_id r ->
  si_user_id r' = si_user_id r ->
  shipping_info_of u (replace_shipping r' l) = Some r'.
Proof.
  unfold shipping_info_of, replace_shipping. intros Hf Hid Huid.
  induction l as [|a l IH]; [discriminate|]. cbn [map List.find] in *.
  destruct (col_eqb (si_user_id a) (JInt (ua_id u))) eqn:Ha.
  - injection Hf as ->. rewrite Hid, Z.eqb_refl, Huid. now rewrite Ha.
  - destruct (Z.eqb (si_id a) (si_id r')).
    + assert (Hr : col_eqb (si_user_id r) (JInt (ua_id u)) = true).
      { now apply List.find_some in Hf. }
      rewrite Huid. now rewrite Hr.
    + rewrite Ha. now apply IH.
Qed.

Lemma replace_shipping_twice (r : ShippingInfo) (l : list ShippingInfo) :
  replace_shipping r (replace_shipping r l) = replace_shipping r l.
Proof.
  unfold replace_shipping. rewrite map_map. apply map_ext. intros x.
  destruct (Z.eqb (si_id x) (si_id r)) eqn:E; [now rewrite Z.eqb_refl | now rewrite E].
Qed.

Section ShippingPatch.

Context `{B : Backend}.
Variable ship_check : list ShippingInfo -> option exn.

Lemma shipping_patch_run (req : Request) (k : Ctx) (p d : list ShippingInfo) :
  ShippingInfoResource_patch ship_check req
    {| core := k; ship_pending := p; ship_durable := d |} =
  let c := {| core := k; ship_pending := p; ship_durable := d |} in
  let uid := default JNull (sess k !! "user_id") in
  let missing :=
    (Ok (make_response (error_body "Shipping info not found or unauthorized") 404), c) in
  if negb (truthy uid)
  then (Ok (make_response (error_body "Authentication required") 401), c)
  else
    match List.find (fun r => col_eqb (JInt (ua_id r)) uid) (users (pending k)) with
    | None => missing
    | Some u =>
    match shipping_info_of u p with
    | None => missing
    | Some r =>
    match patch_fields shipping_fields (payload req) r with
    | Raise e => (Raise e, c)
    | Ok r' =>
        let p' := replace_shipping r' p in
        match store_check (pending k) with
        | Some e => (Raise e, {| core := k; ship_pending := p'; ship_durable := d |})
        | None =>
        match ship_check p' with
        | Some e => (Raise e, {| core := k; ship_pending := p'; ship_durable := d |})
        | None =>
            (Ok (make_response (message_body "Shipping info updated successfully") 200),
             {| core := {| pending := pending k; durable := pending k; sess := sess k |};
                ship_pending := p'; ship_durable := p' |})
        end end
    end end end.
Proof.
  unfold ShippingInfoResource_patch. rewrite sbind_session_get. cbv zeta.
  destruct (negb (truthy _)); [reflexivity|].
  rewrite sbind_query_get. destruct (List.find _ _) as [u|]; [|reflexivity].
  cbn [ship_pending]. destruct (shipping_info_of u p) as [r|]; [|reflexivity].
  rewrite sbind_lift. destruct (patch_fields _ _ _) as [r'|]; [|reflexivity].
  unfold sbind, shop_commit, sret, set_ship_pending.
  cbn [core ship_pending ship_durable].
  destruct (store_check _); [reflexivity|]. destruct (ship_check _); reflexivity.
Qed.

(** The patch that goes through. *)
Lemma shipping_patch_ok (w : ShopWorld) (req : Request) (u : UserAuth)
    (r r' : ShippingInfo) :
  session_of (base w) (client req) !! "user_id" = Some (JInt (ua_id u)) ->
  ua_id u <> 0 ->
  List.find (fun x => col_eqb (JInt (ua_id x)) (JInt (ua_id u)))
            (users (store (base w))) = Some u ->
  shipping_info_of u (shipping_infos w) = Some r ->
  patch_fields shipping_fields (payload req) r = Ok r' ->
  store_check (store (base w)) = None ->
  ship_check (replace_shipping r' (shipping_infos w)) = None ->
  serve_shop (ShippingInfoResource_patch ship_check) req w =
    (Ok (make_response (message_body "Shipping info updated successfully") 200),
     {| base := {| store := store (base w);
                   sessions := save_session (client req)
                                 (session_of (base w) (client req))
                                 (sessions (base w)) |};
        shipping_infos := replace_shipping r' (shipping_infos w) |}).
Proof.
  intros Hs Hnz Hf Hsi Hp Hc1 Hc2.
  unfold serve_shop. rewrite shipping_patch_run. cbn [sess pending].
  rewrite Hs. cbn [default from_option]. unfold id. cbv zeta. cbn [truthy].
  destruct (Z.eqb_spec (ua_id u) 0) as [|_]; [contradiction|]. cbn [negb].
  rewrite Hf, Hsi, Hp, Hc1, Hc2. reflexivity.
Qed.

(** What a patch did when it answered 200. *)
Lemma shipping_patch_inv (w : ShopWorld) (req : Request) :
  let out := serve_shop (ShippingInfoResource_patch ship_check) req w in
  same_base w (snd out) /\
  (shipping_infos (snd out) = shipping_infos w /\
   (forall b, fst out <> Ok (make_response b 200)) \/
   exists u r r',
     session_of (base w) (client req) !! "user_id" = Some (JInt (ua_id u)) /\
     ua_id u <> 0 /\
     List.find (fun x => col_eqb (JInt (ua_id x)) (JInt (ua_id u)))
               (users (store (base w))) = Some u /\
     shipping_info_of u (shipping_infos w) = Some r /\
     patch_fields shipping_fields (payload req) r = Ok r' /\
     store_check (store (base w)) = None /\
     ship_check (replace_shipping r' (shipping_infos w)) = None).
Proof.
  intros out. subst out. unfold serve_shop. rewrite shipping_patch_run.
  cbn [sess pending]. cbv zeta.
  assert (Hkeep : forall (r : result Response) (c : ShopCtx),
    (forall b, r <> Ok (make_response b 200)) ->
    ship_durable c = shipping_infos w ->
    durable (core c) = store (base w) ->
    sess (core c) = session_of (base w) (client req) ->
    forall P : Prop,
    same_base w
      {| base := {| store := durable (core c);
                    sessions := save_session (client req) (sess (core c))
                                  (sessions (base w)) |};
         shipping_infos := ship_durable c |} /\
    (ship_durable c = shipping_infos w /\
     (forall b, r <> Ok (make_response b 200)) \/ P)).
  { intros r c Hr Hd Hc Hs P. rewrite Hc, Hs.
    split; [split; [reflexivity | apply save_session_same]|]. now left. }
  destruct (session_of (base w) (client req) !! "user_id") as [uid|] eqn:Hs;
    cbn [default from_option]; unfold id.
  2:{ cbn [truthy negb fst snd]. now apply Hkeep. }
  destruct (truthy uid) eqn:Ht; cbn [negb fst snd]; [|now apply Hkeep].
  destruct (List.find _ _) as [u|] eqn:Hf; cbn [fst snd]; [|now apply Hkeep].
  destruct (query_get_sound _ _ _ Hf) as (Hin & ->).
  assert (Hnz : ua_id u <> 0).
  { intros Hz. rewrite Hz in Ht. discriminate. }
  destruct (shipping_info_of u (shipping_infos w)) as [r|] eqn:Hsi; cbn [fst snd];
    [|now apply Hkeep].
  destruct (patch_fields shipping_fields (payload req) r) as [r'|e] eqn:Hp;
    cbn [fst snd]; [|now apply Hkeep].
  destruct (store_check (store (base w))) eqn:Hc1; cbn [fst snd]; [now apply Hkeep|].
  destruct (ship_check _) eqn:Hc2; cbn [fst snd]; [now apply Hkeep|].
  cbn [core durable sess ship_durable].
  split; [split; [reflexivity | apply save_session_same]|].
  right. exists u, r, r'. repeat split; assumption.
Qed.

(** X18. A patch of the shipping address changes only the row of the user
    of the session, and in it only the seven address fields.  On every
    request the accounts, orders and sessions are as before, and the
    shipping table is either as before or has the row of the session's
    user replaced: the new row keeps its id and its owner, every field of
    the list that is a key of the body has the value of the body, and
    every other field is what it was (so an empty body changes nothing);
    rows with other ids are untouched.  The answer is then 200. *)
Theorem shipping_patch_frame (w : ShopWorld) (req : Request) :
  let out := serve_shop (ShippingInfoResource_patch ship_check) req w in
  same_base w (snd out) /\
  (shipping_infos (snd out) = shipping_infos w \/
   exists u r r',
     In u (users (store (base w))) /\
     session_of (base w) (client req) !! "user_id" = Some (JInt (ua_id u)) /\
     shipping_info_of u (shipping_infos w) = Some r /\
     patched_with (payload req) r r' /\
     shipping_infos (snd out) = replace_shipping r' (shipping_infos w) /\
     (forall x, In x (shipping_infos w) -> si_id x <> si_id r ->
                In x (shipping_infos (snd out))) /\
     fst out = Ok (make_response (message_body "Shipping info updated successfully") 200)).
Proof.
  intros out. destruct (shipping_patch_inv w req) as (Hbase & Hcases).
  fold out in Hbase, Hcases. split; [exact Hbase|].
  destruct Hcases as [(Hsame & _) | (u & r & r' & Hs & Hnz & Hf & Hsi & Hp & Hc1 & Hc2)];
    [now left|].
  right. exists u, r, r'.
  pose proof (shipping_patch_ok w req u r r' Hs Hnz Hf Hsi Hp Hc1 Hc2) as Hout.
  fold out in Hout. pose proof (patch_fields_spec _ _ _ Hp) as Hpw.
  rewrite Hout. cbn [fst snd shipping_infos].
  split; [now apply List.find_some in Hf|]. split; [exact Hs|].
  split; [exact Hsi|]. split; [exact Hpw|]. split; [reflexivity|].
  split; [|reflexivity].
  intros x Hin Hne. unfold replace_shipping. apply in_map_iff. exists x.
  split; [|exact Hin].
  destruct Hpw as (Hid & _). rewrite Hid.
  destruct (Z.eqb_spec (si_id x) (si_id r)); [contradiction | reflexivity].
Qed.

(** X19. The patch of a shipping address is idempotent: a patch that was
    answered with 200, sent again, is answered with 200 again and leaves
    the shipping table as the first one left it. *)
Theorem shipping_patch_idempotent (w : ShopWorld) (req : Request) (b : json) :
  let out1 := serve_shop (ShippingInfoResource_patch ship_check) req w in
  let out2 := serve_shop (ShippingInfoResource_patch ship_check) req (snd out1) in
  fst out1 = Ok (make_response b 200) ->
  fst out2 = fst out1 /\
  shipping_infos (snd out2) = shipping_infos (snd out1) /\
  same_base (snd out1) (snd out2).
Proof.
  intros out1 out2 Hok.
  destruct (shipping_patch_inv w req) as (_ & Hcases). fold out1 in Hcases.
  destruct Hcases as [(_ & Hno) | (u & r & r' & Hs & Hnz & Hf & Hsi & Hp & Hc1 & Hc2)];
    [now contradiction (Hno b)|].
  pose proof (shipping_patch_ok w req u r r' Hs Hnz Hf Hsi Hp Hc1 Hc2) as Hout1.
  fold out1 in Hout1.
  destruct (patch_fields_spec _ _ _ Hp) as (Hid & Huid & _).
  assert (Hout2 : out2 =
    (Ok (make_response (message_body "Shipping info updated successfully") 200),
     {| base := {| store := store (base (snd out1));
                   sessions := save_session (client req)
                                 (session_of (base (snd out1)) (client req))
                                 (sessions (base (snd out1))) |};
        shipping_infos := replace_shipping r' (shipping_infos (snd out1)) |})).
  { subst out2. apply (shipping_patch_ok (snd out1) req u r' r').
    - rewrite Hout1. cbn [snd base].
      destruct (save_session_but (client req) (session_of (base w) (client req))
                  (base w) (store (base w))) as (-> & _).
      exact Hs.
    - exact Hnz.
    - rewrite Hout1. exact Hf.
    - rewrite Hout1. cbn [snd shipping_infos].
      now apply (shipping_info_of_replace u r r').
    - now apply (patch_fields_idem _ r).
    - rewrite Hout1. exact Hc1.
    - rewrite Hout1. cbn [snd shipping_infos]. now rewrite replace_shipping_twice. }
  rewrite Hout2. cbn [fst snd shipping_infos base].
  split; [now rewrite Hout1|]. split.
  - rewrite Hout1. cbn [snd shipping_infos]. apply replace_shipping_twice.
  - split; [reflexivity|]. cbn [store]. apply save_session_same.
Qed.

End ShippingPatch.

Section ShippingAfterDeletion.

Context `{B : Backend}.
Variable ship_check : list ShippingInfo -> option exn.

(** X20. A session that outlives its Account cannot write shipping
    information: after an account deletion that succeeded, a request from
    another client whose session still refers to the deleted Account is
    answered with 404 by the creation and by the patch of a shipping
    address, and the shipping table is left as it is. *)
Theorem shipping_after_account_deletion (w : World) (l : list ShippingInfo)
    (req other : Request) (u p : json) (row : UserAuth) :
  getitem (payload req) "username" = Ok u ->
  getitem (payload req) "password" = Ok p ->
  List.find (fun r => col_eqb (ua_username r) u) (users (store w)) = Some row ->
  check_password_hash (ua_password_hash row) p = Ok true ->
  store_check (with_users (remove_account row (users (store w))) (store w)) = None ->
  client other <> client req ->
  references (session_of w (client other)) row ->
  ua_id row <> 0 ->
  let w1 := {| base := snd (serve UserAuthResource_delete req w);
               shipping_infos := l |} in
  let post := serve_shop (ShippingInfoResource_post ship_check) other w1 in
  let patch := serve_shop (ShippingInfoResource_patch ship_check) other w1 in
  fst post = Ok (make_response (error_body "User not found") 404) /\
  shipping_infos (snd post) = l /\
  fst patch =
    Ok (make_response (error_body "Shipping info not found or unauthorized") 404) /\
  shipping_infos (snd patch) = l.
Proof.
  intros Hu Hp Hf Hv Hacc Hne Href Hnz w1 post patch.
  assert (E : base w1 =
    {| store := with_users (remove_account row (users (store w))) (store w);
       sessions := save_session (client req) ∅ (sessions w) |}).
  { subst w1. cbn [base]. unfold serve. rewrite (delete_run req _ u p Hu Hp).
    cbn [pending]. rewrite Hf, Hv. cbv zeta. now rewrite Hacc. }
  assert (Hs : session_of (base w1) (client other) !! "user_id" =
               Some (JInt (ua_id row))).
  { rewrite E.
    destruct (save_session_but (client req) ∅ w
                (with_users (remove_account row (users (store w))) (store w)))
      as (_ & Hothers).
    rewrite (Hothers (client other) Hne). exact Href. }
  assert (Hgone : List.find (fun r => col_eqb (JInt (ua_id r)) (JInt (ua_id row)))
                            (users (store (base w1))) = None).
  { rewrite E. cbn [store users with_users]. apply query_get_removed. }
  assert (Hl : shipping_infos w1 = l) by reflexivity.
  clearbody w1. subst post patch. unfold serve_shop.
  rewrite shipping_post_run, shipping_patch_run. cbn [sess pending].
  rewrite Hs. cbn [default from_option]. unfold id. cbv zeta. cbn [truthy].
  destruct (Z.eqb_spec (ua_id row) 0) as [|_]; [contradiction|]. cbn [negb].
  rewrite Hgone. cbn [fst snd ship_durable]. repeat split; exact Hl.
Qed.

End ShippingAfterDeletion.

(** X16 and X17 at the address that alice sends, and at a request without
    a session. *)
Lemma shipping_post_owner_witness :
  let post := serve_shop (@ShippingInfoResource_post plain_backend no_ship_check) in
  fst (post (request 9 alice_address) alice_shop) =
    Ok (make_response (error_body "Authentication required") 401) /\
  map si_user_id (shipping_infos (snd (post (request 1 alice_address) alice_shop))) =
    [JInt 1].
Proof.
  intros post.
  destruct (@shipping_post_owner plain_backend no_ship_check alice_shop
              (request 9 alice_address)) as (_ & _ & H401 & _).
  destruct (@shipping_post_owner plain_backend no_ship_check alice_shop
              (request 1 alice_address)) as (_ & Hrow & _).
  split; [exact (H401 eq_refl)|].
  destruct Hrow as [Hsame | (u & row & _ & _ & Huid & Hl & (Hown & _) & _)].
  - fold post in Hsame. vm_compute in Hsame. discriminate.
  - fold post in Hl. rewrite Hl.
    change (map si_user_id (shipping_infos alice_shop ++ [row]))
      with [si_user_id row].
    rewrite Hown. f_equal. exact (eq_sym Huid).
Defined.

Lemma shipping_post_missing_field_witness :
  let no_city := JDict [("address_line1", JStr "1 Main Street")] in
  let out := serve_shop (@ShippingInfoResource_post plain_backend no_ship_check)
               (request 1 no_city) alice_shop in
  (session_of (base alice_shop) 1 !! "user_id" = Some (JInt (ua_id alice_row)) /\
   ua_id alice_row <> 0 /\ lacks no_city "city") /\
  shipping_infos (snd out) = [] /\
  exists k, lacks no_city k /\ fst out = Raise (KeyError k).
Proof.
  intros no_city out.
  assert (Hnz : ua_id alice_row <> 0) by discriminate.
  assert (L : lacks no_city "city") by (eexists; split; reflexivity).
  destruct (@shipping_post_missing_field plain_backend no_ship_check alice_shop
              (request 1 no_city) alice_row eq_refl Hnz eq_refl) as (Hmiss & _).
  split; [repeat split; assumption|].
  apply (Hmiss "city"); [right; now left | exact L].
Defined.

Lemma alice_shipped_rows : shipping_infos alice_shipped = [alice_home].
Proof. vm_compute. reflexivity. Qed.

(** X18 and X19 at a patch of the city of alice's address. *)
Lemma shipping_patch_frame_witness :
  let move := JDict [("city", JStr "Chicago"); ("user_id", JInt 42)] in
  let out := serve_shop (@ShippingInfoResource_patch plain_backend no_ship_check)
               (request 1 move) alice_shipped in
  exists r',
    shipping_infos (snd out) = [r'] /\
    si_city r' = JStr "Chicago" /\
    si_state r' = JStr "IL" /\
    si_user_id r' = JInt 1.
Proof.
  intros move out.
  destruct (@shipping_patch_frame plain_backend no_ship_check alice_shipped
              (request 1 move)) as (_ & Hcases).
  fold out in Hcases.
  destruct Hcases as [Hsame | (u & r & r' & _ & _ & Hsi & Hpw & Hl & _)].
  - vm_compute in Hsame. discriminate.
  - exists r'. destruct Hpw as (Hid & Huid & Hfields).
    assert (Hr : In r (shipping_infos alice_shipped)).
    { unfold shipping_info_of in Hsi. apply List.find_some in Hsi. exact (proj1 Hsi). }
    rewrite alice_shipped_rows in Hr. destruct Hr as [<- | []].
    split.
    { rewrite Hl, alice_shipped_rows. unfold replace_shipping. cbn [map].
      now rewrite Hid, Z.eqb_refl. }
    split; [exact (Hfields "city" ltac:(simpl; tauto))|].
    split; [exact (Hfields "state" ltac:(simpl; tauto)) | exact Huid].
Defined.

Lemma shipping_patch_idempotent_witness :
  let move := JDict [("city", JStr "Chicago")] in
  let patch := serve_shop (@ShippingInfoResource_patch plain_backend no_ship_check)
                 (request 1 move) in
  fst (patch alice_shipped) =
    Ok (make_response (message_body "Shipping info updated successfully") 200) /\
  shipping_infos (snd (patch (snd (patch alice_shipped)))) =
    shipping_infos (snd (patch alice_shipped)).
Proof.
  intros move patch.
  destruct (@shipping_patch_idempotent plain_backend no_ship_check alice_shipped
              (request 1 move) _ eq_refl) as (_ & H & _).
  split; [reflexivity | exact H].
Defined.

(** X20 at the deletion of alice's account by client 1, for client 2. *)
Lemma shipping_after_account_deletion_witness :
  let w1 := {| base := snd (serve (@UserAuthResource_delete plain_backend)
                              (request 1 (credentials "alice" "secret1"))
                              alice_twice_world);
               shipping_infos := shipping_infos alice_shipped |} in
  (references (session_of alice_twice_world 2) alice_row /\ ua_id alice_row <> 0) /\
  fst (serve_shop (@ShippingInfoResource_post plain_backend no_ship_check)
         (request 2 alice_address) w1) =
    Ok (make_response (error_body "User not found") 404).
Proof.
  intros w1.
  assert (Hnz : ua_id alice_row <> 0) by discriminate.
  assert (Hne : client (request 2 alice_address)
                <> client (request 1 (credentials "alice" "secret1")))
    by discriminate.
  destruct (@shipping_after_account_deletion plain_backend no_ship_check
              alice_twice_world (shipping_infos alice_shipped)
              (request 1 (credentials "alice" "secret1")) (request 2 alice_address)
              (JStr "alice") (JStr "secret1") alice_row
              eq_refl eq_refl eq_refl eq_refl eq_refl Hne eq_refl Hnz) as (H & _).
  split; [split; [reflexivity | exact Hnz]|]. exact H.
Defined.
